(** * The browser-universal bridge: a shallow embedding and its properties

    The development follows the provider source file (the one declaring
    [BASE_SELECTORS], [PLATFORM_PROFILES], [mergeSelectors],
    [detectPlatform], [waitForCompletion], [extractLatestAssistantText]
    and [BrowserUniversalProvider.runBridge]).

    Conventions.
    - A JS string is a [string]; every character stands for one code unit
      in the range 0..255.
    - A thrown diagnostic is represented by its message, which is all the
      outermost handler of [runBridge] reads from it.
    - The browser, the pages and their DOM are external: they are given
      as oracles ([World], [Browser], [Page], [Document]) which answer
      every call the bridge makes; the moment of a call is a natural
      number (the bridge's clock), so the answers may change over time.
    - [page.waitForFunction] is the one of the browser library the source
      imports, whose parameters are [(pageFunction, arg, options)]: the page
      function is polled with [arg] as its only argument, the timeout is
      read from the third argument, and a fourth argument is not looked at.
      The source calls it with four arguments, [(f, a, b, { timeout })]; the
      embedding hands all four over and lets the library do what it does
      with them.
    - The event stream is the one of the host library: once a [done] or
      [error] event has been pushed, or [end] was called, later pushes are
      ignored. *)

From Stdlib Require Import ZArith NArith Floats Ascii String DecimalString List Bool Lia.
From stdpp Require Import base option list strings gmap.

Local Open Scope Z_scope.

(* Decimal constants of the source denote, as in JavaScript, the nearest
   binary64 value. *)
Set Warnings "-inexact-float".

(** ** Strings as JavaScript sees them *)

Module JsString.

Definition LF : string := String (ascii_of_nat 10) EmptyString.

(** [WhiteSpace] and [LineTerminator] code units below 256:
    TAB, LF, VT, FF, CR, SP and NBSP. *)
Definition isWhiteSpace (c : ascii) : bool :=
  let n := nat_of_ascii c in
  ((9 <=? n)%nat && (n <=? 13)%nat) || (n =? 32)%nat || (n =? 160)%nat.

Fixpoint trimStart (s : string) : string :=
  match s with
  | EmptyString => EmptyString
  | String c r => if isWhiteSpace c then trimStart r else s
  end.

Fixpoint trimEnd (s : string) : string :=
  match s with
  | EmptyString => EmptyString
  | String c r =>
      match trimEnd r with
      | EmptyString => if isWhiteSpace c then EmptyString else String c EmptyString
      | r' => String c r'
      end
  end.

(** [String.prototype.trim] *)
Definition trim (s : string) : string := trimEnd (trimStart s).

(** Truthiness of a string: [if (s)], [!s], [s || d]. *)
Definition truthy (s : string) : bool :=
  match s with EmptyString => false | String _ _ => true end.

(** [Array.prototype.join] *)
Definition join (sep : string) (l : list string) : string := String.concat sep l.

Definition toLower (c : ascii) : ascii :=
  let n := nat_of_ascii c in
  if ((65 <=? n)%nat && (n <=? 90)%nat) then ascii_of_nat (n + 32) else c.

Fixpoint lower (s : string) : string :=
  match s with
  | EmptyString => EmptyString
  | String c r => String (toLower c) (lower r)
  end.

Fixpoint includes (needle hay : string) : bool :=
  String.prefix needle hay ||
  match hay with
  | EmptyString => false
  | String _ r => includes needle r
  end.

End JsString.
Import JsString.

(** ** Thrown diagnostics *)

Inductive result (A : Type) : Type :=
| Ok (a : A)
| Err (message : string).
Arguments Ok {A} a.
Arguments Err {A} message.

(** ** The conversation handed to the provider *)

Inductive Role := User | Assistant | ToolResult.

Inductive ContentPart :=
| TextPart (text : string)
| OtherPart (type : string).

Inductive MessageContent :=
| PlainContent (s : string)
| PartsContent (parts : list ContentPart).

Record Message := { role : Role; content : MessageContent }.

Record Context := { messages : list Message }.

Definition isUser (m : Message) : bool :=
  match role m with User => true | _ => false end.

Definition isTextPart (item : ContentPart) : bool :=
  match item with TextPart _ => true | OtherPart _ => false end.

Definition partText (item : ContentPart) : string :=
  match item with TextPart t => t | OtherPart _ => EmptyString end.

(** The loop of [extractLatestUserPrompt], on the messages listed from the
    last index down to index 0. *)
Fixpoint scanPrompt (backwards : list Message) : string :=
  match backwards with
  | [] => EmptyString
  | message :: earlier =>
      if negb (isUser message) then scanPrompt earlier
      else match content message with
           | PlainContent s => trim s
           | PartsContent parts =>
               let text := trim (join LF (map partText (List.filter isTextPart parts))) in
               if truthy text then text else scanPrompt earlier
           end
  end.

Definition extractLatestUserPrompt (context : Context) : string :=
  scanPrompt (rev (messages context)).

(** ** Locator rules *)

Record SelectorStrategy := {
  input : list string;
  stop : list string;
  send : list string;
  assistant : list string;
  modelLabel : list string;
  domHints : list string
}.

(** [Partial<SelectorStrategy>] *)
Record PartialSelectors := {
  p_input : option (list string);
  p_stop : option (list string);
  p_send : option (list string);
  p_assistant : option (list string);
  p_modelLabel : option (list string);
  p_domHints : option (list string)
}.

Definition noSelectors : PartialSelectors :=
  {| p_input := None; p_stop := None; p_send := None;
     p_assistant := None; p_modelLabel := None; p_domHints := None |}.

(** A double quote, and a quoted attribute value, for writing the rules. *)
Definition dq : string := String (ascii_of_nat 34) EmptyString.
Definition q (v : string) : string := dq +:+ v +:+ dq.

Definition BASE_SELECTORS : SelectorStrategy := {|
  input := [
    "#prompt-textarea";
    "textarea[placeholder*=" +:+ q "Message" +:+ "]";
    "textarea[placeholder*=" +:+ q "Send" +:+ "]";
    "textarea";
    "div[contenteditable=" +:+ q "true" +:+ "][role=" +:+ q "textbox" +:+ "]";
    "div[role=" +:+ q "textbox" +:+ "][contenteditable=" +:+ q "true" +:+ "]";
    "[contenteditable=" +:+ q "true" +:+ "]"
  ];
  stop := [
    "button[aria-label*=" +:+ q "Stop" +:+ "]";
    "button[title*=" +:+ q "Stop" +:+ "]";
    "button:has(svg[aria-label*=" +:+ q "Stop" +:+ "])";
    "button:has(svg[data-icon*=" +:+ q "stop" +:+ "])";
    "button:has(svg[data-testid*=" +:+ q "stop" +:+ "])"
  ];
  send := [
    "button[aria-label*=" +:+ q "Send" +:+ "]";
    "button[title*=" +:+ q "Send" +:+ "]";
    "button[data-testid*=" +:+ q "send" +:+ "]";
    "button:has(svg[aria-label*=" +:+ q "Send" +:+ "])";
    "button:has(svg[data-icon*=" +:+ q "send" +:+ "])"
  ];
  assistant := [
    "[data-message-author-role=" +:+ q "assistant" +:+ "]";
    ".markdown"; ".prose"; "article"
  ];
  modelLabel := [
    "button[data-testid*=" +:+ q "model" +:+ "]";
    "button[aria-haspopup=" +:+ q "listbox" +:+ "]";
    "[data-testid*=" +:+ q "model" +:+ "]";
    "div[role=" +:+ q "button" +:+ "][aria-haspopup=" +:+ q "listbox" +:+ "]"
  ];
  domHints := []
|}.

(** ** Regular expressions

    A [RegExp] is used through [test] only.  The patterns written in the
    source are case-insensitive alternations of literals. *)

Record RegExp := { test : string -> bool }.

Definition icaseAny (literals : list string) : RegExp :=
  {| test := fun s => existsb (fun l => includes l (lower s)) literals |}.

Definition DEFAULT_CDP_URL : string := "http://127.0.0.1:9222".
Definition DEFAULT_URL_REGEX : RegExp :=
  icaseAny ["chatgpt.com"; "chat.openai.com"; "claude.ai"; "gemini.google.com"].
Definition DEFAULT_TIMEOUT_MS : Z := 120000.

(** ** Platform profiles *)

Inductive PlatformId := chatgpt | claude | gemini | unknown.

Record PlatformProfile := {
  id : PlatformId;
  urlHints : list RegExp;
  selectors : PartialSelectors
}.

Definition PLATFORM_PROFILES : list PlatformProfile := [
  {| id := chatgpt;
     urlHints := [icaseAny ["chatgpt.com"]; icaseAny ["chat.openai.com"]];
     selectors := {|
       p_input := Some [
         "textarea#prompt-textarea";
         "div[contenteditable=" +:+ q "true" +:+ "][data-testid=" +:+ q "prompt-textarea" +:+ "]"
       ];
       p_assistant := Some [
         "[data-message-author-role=" +:+ q "assistant" +:+ "]"; ".markdown"; ".prose"
       ];
       p_stop := Some [
         "button[aria-label*=" +:+ q "Stop" +:+ "]";
         "button[data-testid*=" +:+ q "stop" +:+ "]"
       ];
       p_send := Some [
         "button[aria-label*=" +:+ q "Send" +:+ "]";
         "button[data-testid*=" +:+ q "send" +:+ "]"
       ];
       p_modelLabel := Some [
         "button[data-testid=" +:+ q "model-switcher" +:+ "]";
         "button[aria-label*=" +:+ q "Model" +:+ "]";
         "button[aria-haspopup=" +:+ q "listbox" +:+ "]"
       ];
       p_domHints := Some [
         "[data-message-author-role=" +:+ q "assistant" +:+ "]"; "#prompt-textarea"
       ]
     |} |};
  {| id := claude;
     urlHints := [icaseAny ["claude.ai"]];
     selectors := {|
       p_input := Some [
         "div[contenteditable=" +:+ q "true" +:+ "][role=" +:+ q "textbox" +:+ "]";
         "textarea"
       ];
       p_assistant := Some [
         "div[data-testid=" +:+ q "chat-messages" +:+ "]"; ".prose"; "article"
       ];
       p_stop := Some [
         "button[aria-label*=" +:+ q "Stop" +:+ "]";
         "button:has(svg[data-icon*=" +:+ q "stop" +:+ "])"
       ];
       p_send := Some [
         "button[aria-label*=" +:+ q "Send" +:+ "]";
         "button[type=" +:+ q "submit" +:+ "]"
       ];
       p_modelLabel := Some [
         "button[data-testid*=" +:+ q "model" +:+ "]";
         "button[aria-label*=" +:+ q "Model" +:+ "]";
         "div[role=" +:+ q "button" +:+ "][aria-haspopup=" +:+ q "listbox" +:+ "]"
       ];
       p_domHints := Some [
         "[data-testid=" +:+ q "chat-messages" +:+ "]";
         "button[aria-label*=" +:+ q "Model" +:+ "]"
       ]
     |} |};
  {| id := gemini;
     urlHints := [icaseAny ["gemini.google.com"]; icaseAny ["bard.google.com"]];
     selectors := {|
       p_input := Some [
         "textarea[aria-label*=" +:+ q "Enter a prompt" +:+ "]";
         "textarea[placeholder*=" +:+ q "Enter" +:+ "]"
       ];
       p_assistant := Some ["response-container"; ".markdown"; ".prose"; "article"];
       p_stop := Some [
         "button[aria-label*=" +:+ q "Stop" +:+ "]";
         "button:has(svg[data-icon*=" +:+ q "stop" +:+ "])"
       ];
       p_send := Some [
         "button[aria-label*=" +:+ q "Send" +:+ "]";
         "button[aria-label*=" +:+ q "Submit" +:+ "]";
         "button[type=" +:+ q "submit" +:+ "]"
       ];
       p_modelLabel := Some [
         "button[aria-label*=" +:+ q "Model" +:+ "]";
         "button[aria-haspopup=" +:+ q "listbox" +:+ "]";
         "[data-test-id*=" +:+ q "model" +:+ "]"
       ];
       p_domHints := Some [
         "body:has([data-test-id*=" +:+ q "gemini" +:+ "])";
         "div[aria-label*=" +:+ q "Gemini" +:+ "]"
       ]
     |} |}
].

Definition INPUT_SELECTORS := input BASE_SELECTORS.
Definition STOP_SELECTORS := stop BASE_SELECTORS.
Definition SEND_SELECTORS := send BASE_SELECTORS.
Definition ASSISTANT_SELECTORS := assistant BASE_SELECTORS.
Definition MODEL_LABEL_SELECTORS := modelLabel BASE_SELECTORS.

Definition UNKNOWN_PROFILE : PlatformProfile :=
  {| id := unknown; urlHints := []; selectors := noSelectors |}.

(** ** Merging the rules of a profile over the generic ones *)

(** [new Set(combined)] followed by [Array.from]: a [Set] iterates in
    insertion order and [add] of a value it already has changes nothing. *)
Definition setHas (seen : list string) (x : string) : bool :=
  existsb (String.eqb x) seen.

Definition setAdd (seen : list string) (x : string) : list string :=
  if setHas seen x then seen else seen ++ [x].

Definition arrayFromSet (combined : list string) : list string :=
  fold_left setAdd combined [].

Definition mergeSelectors (base : list string) (specific : option (list string))
  : list string :=
  match specific with
  | None => base
  | Some [] => base
  | Some ((_ :: _) as specific) => arrayFromSet (specific ++ base)
  end.

Definition resolveSelectorStrategy (profile : PlatformProfile) : SelectorStrategy :=
  {| input := mergeSelectors INPUT_SELECTORS (p_input (selectors profile));
     stop := mergeSelectors STOP_SELECTORS (p_stop (selectors profile));
     send := mergeSelectors SEND_SELECTORS (p_send (selectors profile));
     assistant := mergeSelectors ASSISTANT_SELECTORS (p_assistant (selectors profile));
     modelLabel := mergeSelectors MODEL_LABEL_SELECTORS (p_modelLabel (selectors profile));
     domHints := mergeSelectors (domHints BASE_SELECTORS) (p_domHints (selectors profile)) |}.

(** The six categories, to speak of all of them at once. *)
Inductive Category := CatInput | CatStop | CatSend | CatAssistant | CatModelLabel | CatDomHints.

Definition rules (c : Category) (s : SelectorStrategy) : list string :=
  match c with
  | CatInput => input s
  | CatStop => stop s
  | CatSend => send s
  | CatAssistant => assistant s
  | CatModelLabel => modelLabel s
  | CatDomHints => domHints s
  end.

Definition overrides (c : Category) (p : PartialSelectors) : list string :=
  default [] (match c with
              | CatInput => p_input p
              | CatStop => p_stop p
              | CatSend => p_send p
              | CatAssistant => p_assistant p
              | CatModelLabel => p_modelLabel p
              | CatDomHints => p_domHints p
              end).

(** The merge as the design document words it: every rule is kept at its
    first occurrence and later exact duplicates are dropped. *)
Fixpoint keepFirst (l : list string) : list string :=
  match l with
  | [] => []
  | x :: r => x :: List.filter (fun y => negb (String.eqb x y)) (keepFirst r)
  end.

(** ** The page and its DOM, as the bridge observes them *)

Record Style := { display : string; visibility : string }.

Record Element := {
  textContent : option string;       (* [null] for nodes without text *)
  computedStyle : option Style;      (* [window.getComputedStyle(el)] *)
  offsetParent : bool                (* [true] when it is not [null] *)
}.

(** A document answers selector queries; matches come in document order. *)
Record Document := { querySelectorAll : string -> list Element }.

Definition querySelector (d : Document) (selector : string) : option Element :=
  head (querySelectorAll d selector).

(** A page of the connected browser.  [document t] is the DOM that a
    [page.evaluate] or one polling round of [page.waitForFunction] sees at
    moment [t] ([Err] when the evaluation rejects); the [loc_] fields
    answer the calls on [page.locator(selector).first()]. *)
Record Page := {
  isClosed : bool;
  url : string;
  title : nat -> result string;
  hasFocus : nat -> result bool;
  document : nat -> result Document;
  loc_isVisible : nat -> string -> result bool;
  loc_click : nat -> string -> Z -> result unit;
  loc_isTextArea : nat -> string -> result bool;
  loc_fill : nat -> string -> string -> result unit;
  loc_type : nat -> string -> string -> result unit;
  loc_press : nat -> string -> string -> result unit
}.

Record Browser := {
  contexts : list (list Page);       (* [browser.contexts()], each with its [pages()] *)
  close : nat -> result unit
}.

(** Everything else the bridge consults outside itself. *)
Record World := {
  connectOverCDP : nat -> string -> result Browser;
  dateNow : nat -> Z;
  compileRegExp : string -> option RegExp;   (* [new RegExp(raw)], [None] when it throws *)
  pollingRounds : Z -> nat;                  (* further polling rounds within a timeout *)
  timeoutMessage : Z -> string;              (* the diagnostic of an expired wait *)
  thrownInPage : string -> string            (* the diagnostic of a wait whose page
                                                function threw, from what it threw *)
}.

Definition found {A} (o : option A) : bool :=
  match o with Some _ => true | None => false end.

(** ** Assistant messages and stream events *)

Record Model := { model_id : string; model_api : string; model_provider : string }.

Inductive StopReason := stop_reason_stop | stop_reason_error.

Record Cost := {
  cost_input : Z; cost_output : Z; cost_cacheRead : Z; cost_cacheWrite : Z; cost_total : Z
}.

Record Usage := {
  usage_input : Z; usage_output : Z; usage_cacheRead : Z; usage_cacheWrite : Z;
  usage_totalTokens : Z; usage_cost : Cost
}.

Record AssistantMessage := {
  am_role : Role;
  am_content : list ContentPart;
  am_api : string;
  am_provider : string;
  am_model : string;
  am_usage : Usage;
  am_stopReason : StopReason;
  am_timestamp : Z
}.

Inductive StreamEvent :=
| ev_start (partial : AssistantMessage)
| ev_text_start (contentIndex : nat) (partial : AssistantMessage)
| ev_text_delta (contentIndex : nat) (delta : string) (partial : AssistantMessage)
| ev_text_end (contentIndex : nat) (content : string) (partial : AssistantMessage)
| ev_done (reason : StopReason) (message : AssistantMessage)
| ev_error (reason : StopReason) (error : AssistantMessage).

(** The event stream of the host library, as far as the bridge drives it:
    [push] queues an event unless the stream is complete; a [done] or an
    [error] event completes it and fixes the final result; [end] completes
    it too. *)
Record EventStream := {
  queue : list StreamEvent;
  complete : bool;
  finalResult : option AssistantMessage
}.

Definition createAssistantMessageEventStream : EventStream :=
  {| queue := []; complete := false; finalResult := None |}.

Definition terminalResult (e : StreamEvent) : option AssistantMessage :=
  match e with
  | ev_done _ m => Some m
  | ev_error _ m => Some m
  | _ => None
  end.

Definition stream_push (e : StreamEvent) (st : EventStream) : EventStream :=
  if complete st then st
  else {| queue := queue st ++ [e];
          complete := found (terminalResult e);
          finalResult := match finalResult st with
                         | Some r => Some r
                         | None => terminalResult e
                         end |}.

Definition stream_end (r : AssistantMessage) (st : EventStream) : EventStream :=
  {| queue := queue st;
     complete := true;
     finalResult := match finalResult st with Some r0 => Some r0 | None => Some r end |}.

(** ** What an invocation does: a clock, the stream, the calls made *)

Inductive Call :=
| call_connect (t : nat) (cdpUrl : string)
| call_close (t : nat)
| call_click (t : nat) (selector : string) (timeout : Z)
| call_fill (t : nat) (selector : string) (value : string)
| call_type (t : nat) (selector : string) (text : string) (delay : Z)
| call_press (t : nat) (selector : string) (key : string).

Record BridgeState := {
  clock : nat;
  stream : EventStream;
  calls : list Call
}.

Definition initialState : BridgeState :=
  {| clock := 0%nat; stream := createAssistantMessageEventStream; calls := [] |}.

(** A computation of the bridge either returns or throws, and leaves a state. *)
Definition M (A : Type) : Type := BridgeState -> result A * BridgeState.

Definition ret {A} (a : A) : M A := fun s => (Ok a, s).

Definition bind {A B} (m : M A) (k : A -> M B) : M B :=
  fun s => match m s with
           | (Ok a, s') => k a s'
           | (Err e, s') => (Err e, s')
           end.

Notation "'let*' x := m 'in' k" := (bind m (fun x => k))
  (at level 10, x name, m at level 100, k at level 200).
Notation "'run' m 'in' k" := (bind m (fun _ => k))
  (at level 10, m at level 100, k at level 200).

Definition throw {A} (message : string) : M A := fun s => (Err message, s).

(** [try { m } catch (err) { h(message of err) }] *)
Definition try_catch {A} (m : M A) (h : string -> M A) : M A :=
  fun s => match m s with
           | (Ok a, s') => (Ok a, s')
           | (Err e, s') => h e s'
           end.

(** [try { m } finally { fin }]: [fin] always runs; when it throws, its
    diagnostic replaces the outcome of [m]. *)
Definition try_finally {A} (m : M A) (fin : M unit) : M A :=
  fun s => match m s with
           | (r, s') => match fin s' with
                        | (Ok _, s'') => (r, s'')
                        | (Err e, s'') => (Err e, s'')
                        end
           end.

(** An awaited call on the outside: answered at the current moment, after
    which time has moved on. *)
Definition await {A} (answer : nat -> result A) : M A :=
  fun s => (answer (clock s),
            {| clock := S (clock s); stream := stream s; calls := calls s |}).

(** The same, for a call that acts on the outside: it is recorded. *)
Definition perform {A} (c : nat -> Call) (answer : nat -> result A) : M A :=
  fun s => (answer (clock s),
            {| clock := S (clock s); stream := stream s;
               calls := calls s ++ [c (clock s)] |}).

Definition push (e : StreamEvent) : M unit :=
  fun s => (Ok tt, {| clock := clock s; stream := stream_push e (stream s); calls := calls s |}).

Definition endStream (r : AssistantMessage) : M unit :=
  fun s => (Ok tt, {| clock := clock s; stream := stream_end r (stream s); calls := calls s |}).

(** ** The provider and its configuration *)

Record BrowserUniversalOptions := {
  opt_cdpUrl : option string;
  opt_urlRegex : option RegExp;
  opt_timeoutMs : option Z
}.

Definition noOptions : BrowserUniversalOptions :=
  {| opt_cdpUrl := None; opt_urlRegex := None; opt_timeoutMs := None |}.

Record BrowserUniversalProvider := {
  cdpUrl : string;
  urlRegex : RegExp;
  timeoutMs : Z
}.

Record AbortSignal := { aborted : bool }.
Record StreamOptions := { signal : option AbortSignal }.

(** ** Reading the DOM: the functions evaluated in the page *)

(** The loop of [countAssistantBlocks]. *)
Fixpoint countBlocks (d : Document) (selectors : list string) : nat :=
  match selectors with
  | [] => 0%nat
  | selector :: rest =>
      let matches := querySelectorAll d selector in
      if (0 <? length matches)%nat then length matches else countBlocks d rest
  end.

(** The function polled for the start of a response.  It has two
    parameters; [previousCount] is [None] when it is called with one
    argument, and [matches.length > undefined] is false. *)
Definition responseStarted (selectors : list string) (previousCount : option nat)
    (d : Document) : result bool :=
  Ok (existsb (fun selector =>
                 match previousCount with
                 | Some count => (count <? length (querySelectorAll d selector))%nat
                 | None => false
                 end) selectors).

(** [isVisible] inside [waitForCompletion]. *)
Definition isVisible (d : Document) (selector : string) : bool :=
  match querySelector d selector with
  | None => false
  | Some el =>
      match computedStyle el with
      | None => false
      | Some style =>
          if String.eqb (display style) "none" || String.eqb (visibility style) "hidden"
          then false
          else offsetParent el
      end
  end.

(** The function polled by [waitForCompletion].  It has two parameters;
    [sendSelectors] is [None] when it is called with one argument, and
    [sendSelectors.some] then throws a [TypeError]. *)
Definition responseFinished (stopSelectors : list string)
    (sendSelectors : option (list string)) (d : Document) : result bool :=
  let stopVisible := existsb (isVisible d) stopSelectors in
  match sendSelectors with
  | None => Err "TypeError: Cannot read properties of undefined (reading 'some')"
  | Some sendSelectors =>
      let sendVisible := existsb (isVisible d) sendSelectors in
      let sendKnown :=
        existsb (fun selector => found (querySelector d selector)) sendSelectors in
      Ok (negb stopVisible && (sendVisible || negb sendKnown))
  end.

(** [el?.textContent?.trim()] *)
Definition trimmedText (el : option Element) : option string :=
  match el with
  | None => None
  | Some el => match textContent el with None => None | Some t => Some (trim t) end
  end.

(** The inner loop of [extractLatestAssistantText], on the matches listed
    from the last one down to the first. *)
Fixpoint latestText (backwards : list Element) : option string :=
  match backwards with
  | [] => None
  | el :: earlier =>
      match trimmedText (Some el) with
      | Some text => if truthy text then Some text else latestText earlier
      | None => latestText earlier
      end
  end.

(** The outer loop of [extractLatestAssistantText]. *)
Fixpoint extractText (d : Document) (selectors : list string) : string :=
  match selectors with
  | [] => EmptyString
  | selector :: rest =>
      match latestText (rev (querySelectorAll d selector)) with
      | Some text => text
      | None => extractText d rest
      end
  end.

(** The loop of [resolveModelLabel]. *)
Fixpoint labelText (d : Document) (selectors : list string) : option string :=
  match selectors with
  | [] => None
  | selector :: rest =>
      match trimmedText (querySelector d selector) with
      | Some text => if truthy text then Some text else labelText d rest
      | None => labelText d rest
      end
  end.

(** The test evaluated by [matchesDomHints]. *)
Definition someHint (d : Document) (selectors : list string) : bool :=
  existsb (fun selector => found (querySelector d selector)) selectors.

(** What the source hands to [page.waitForFunction] after the argument of
    the page function: a count, a list of rules, or an options object. *)
Inductive Value :=
| v_number (n : nat)
| v_strings (l : list string)
| v_options (timeout : Z).

(** [options.timeout]: [undefined] on a number and on an array. *)
Definition timeoutOf (options : Value) : option Z :=
  match options with
  | v_options timeout => Some timeout
  | _ => None
  end.

(** The timeout of the browser library when [options.timeout] is [undefined]. *)
Definition LIBRARY_TIMEOUT_MS : Z := 30000.

(** One polling wait: the condition is tried on the DOM of each moment
    from [t] on, until it holds, it throws, the evaluation rejects, or the
    rounds that fit in the timeout are used up. *)
Fixpoint poll (doc : nat -> result Document) (cond : Document -> result bool)
    (thrown : string -> string) (expired : string) (rounds : nat) (t : nat)
  : result unit * nat :=
  match doc t with
  | Err e => (Err e, S t)
  | Ok d =>
      match cond d with
      | Err e => (Err (thrown e), S t)
      | Ok true => (Ok tt, S t)
      | Ok false =>
          match rounds with
          | O => (Err expired, S t)
          | S r => poll doc cond thrown expired r (S t)
          end
      end
  end.

Section Bridge.

Variable world : World.

(** [new BrowserUniversalProvider(options)] under [process.env]. *)
Definition resolveEnvRegex (env : gmap string string) : option RegExp :=
  match trim <$> env !! "OPENCLAW_BROWSER_UNIVERSAL_URL_REGEX" with
  | None => None
  | Some raw => if negb (truthy raw) then None else compileRegExp world raw
  end.

Definition newProvider (options : BrowserUniversalOptions) (env : gmap string string)
  : BrowserUniversalProvider :=
  {| cdpUrl := default (default DEFAULT_CDP_URL (env !! "OPENCLAW_BROWSER_UNIVERSAL_CDP_URL"))
                       (opt_cdpUrl options);
     urlRegex := default (default DEFAULT_URL_REGEX (resolveEnvRegex env))
                         (opt_urlRegex options);
     timeoutMs := default DEFAULT_TIMEOUT_MS (opt_timeoutMs options) |}.

Definition throwIfAborted (signal : option AbortSignal) : M unit :=
  match signal with
  | Some sg => if aborted sg then throw "Browser universal run aborted" else ret tt
  | None => ret tt
  end.

Definition zeroUsage : Usage :=
  {| usage_input := 0; usage_output := 0; usage_cacheRead := 0; usage_cacheWrite := 0;
     usage_totalTokens := 0;
     usage_cost := {| cost_input := 0; cost_output := 0; cost_cacheRead := 0;
                      cost_cacheWrite := 0; cost_total := 0 |} |}.

(** [detectedModel?.trim() || model.id] *)
Definition resolvedModel (model : Model) (detectedModel : option string) : string :=
  match detectedModel with
  | Some l => if truthy (trim l) then trim l else model_id model
  | None => model_id model
  end.

Definition buildAssistantMessage (text : string) (model : Model)
    (detectedModel : option string) (stopReason : StopReason) : M AssistantMessage :=
  fun s =>
    (Ok {| am_role := Assistant;
           am_content := [TextPart text];
           am_api := model_api model;
           am_provider := model_provider model;
           am_model := resolvedModel model detectedModel;
           am_usage := zeroUsage;
           am_stopReason := stopReason;
           am_timestamp := dateNow world (clock s) |}, s).

Fixpoint resolveFocusedPage (pages : list Page) : M (option Page) :=
  match pages with
  | [] => ret None
  | page :: rest =>
      if isClosed page then resolveFocusedPage rest
      else
        let* focused := try_catch (await (hasFocus page)) (fun _ => ret false) in
        if focused then ret (Some page) else resolveFocusedPage rest
  end.

Definition resolvePageByRegex (pages : list Page) (regex : RegExp) : option Page :=
  find (fun page => negb (isClosed page) && test regex (url page)) pages.

Fixpoint resolveInputLocator (page : Page) (selectors : list string) : M string :=
  match selectors with
  | [] => throw "Browser universal input not found. Update selectors or focus the input."
  | selector :: rest =>
      let* visible := try_catch (await (fun t => loc_isVisible page t selector))
                                (fun _ => ret false) in
      if visible then ret selector else resolveInputLocator page rest
  end.

(** [page.evaluate(f, selectors)] for a function [f] that only reads. *)
Definition evaluate {A} (page : Page) (f : Document -> A) : M A :=
  await (fun t => match document page t with
                  | Ok d => Ok (f d)
                  | Err e => Err e
                  end).

Definition countAssistantBlocks (page : Page) (selectors : list string) : M nat :=
  evaluate page (fun d => countBlocks d selectors).

(** [page.waitForFunction(pageFunction, arg, options)] called with one
    argument more, [surplus].  The library hands [arg] alone to the page
    function, whose second parameter is therefore [undefined]; it reads the
    timeout from [options]; it does not look at [surplus]. *)
Definition waitForFunction {A B} (page : Page)
    (pageFunction : A -> option B -> Document -> result bool)
    (arg : A) (options : Value) (surplus : Value) : M unit :=
  fun s =>
    let timeout := default LIBRARY_TIMEOUT_MS (timeoutOf options) in
    let '(r, t) := poll (document page) (pageFunction arg None) (thrownInPage world)
                        (timeoutMessage world timeout) (pollingRounds world timeout)
                        (clock s) in
    (r, {| clock := t; stream := stream s; calls := calls s |}).

Definition waitForCompletion (page : Page) (timeoutMs : Z)
    (stopSelectors sendSelectors : list string) : M unit :=
  waitForFunction page responseFinished stopSelectors
                  (v_strings sendSelectors) (v_options timeoutMs).

Definition extractLatestAssistantText (page : Page) (selectors : list string) : M string :=
  evaluate page (fun d => extractText d selectors).

Definition resolveModelLabel (page : Page) (selectors : list string) : M (option string) :=
  evaluate page (fun d => labelText d selectors).

Definition matchesDomHints (page : Page) (selectors : list string) : M bool :=
  match selectors with
  | [] => ret false
  | _ => evaluate page (fun d => someHint d selectors)
  end.

(** [for (const profile of profiles) if (await matchesDomHints(...)) return profile] *)
Fixpoint firstFingerprint (page : Page) (profiles : list PlatformProfile)
  : M (option PlatformProfile) :=
  match profiles with
  | [] => ret None
  | profile :: rest =>
      let hints := default [] (p_domHints (selectors profile)) in
      let* hit := matchesDomHints page hints in
      if hit then ret (Some profile) else firstFingerprint page rest
  end.

Definition detectPlatform (page : Page) (urlRegex : RegExp) : M PlatformProfile :=
  let url := url page in
  let* title := try_catch (await (title page)) (fun _ => ret EmptyString) in
  let candidates :=
    List.filter (fun profile =>
                   existsb (fun hint => test hint url || test hint title) (urlHints profile))
                PLATFORM_PROFILES in
  let* byCandidate := firstFingerprint page candidates in
  match byCandidate with
  | Some profile => ret profile
  | None =>
      let* byAny := firstFingerprint page PLATFORM_PROFILES in
      match byAny with
      | Some profile => ret profile
      | None =>
          if test urlRegex url then
            match find (fun profile => existsb (fun hint => test hint url) (urlHints profile))
                       PLATFORM_PROFILES with
            | Some matched => ret matched
            | None => ret UNKNOWN_PROFILE
            end
          else ret UNKNOWN_PROFILE
      end
  end.

(** [runBridge] is embedded in named parts.  [readReply] is the
    extraction with its check; [scrapeReply] is the inner [try] block up
    to and including that check; [emitReply] is the rest of the block;
    [bridgeAttempt] is the outer [try] block. *)
Definition readReply (page : Page) (selectors : list string) : M string :=
  let* responseText := extractLatestAssistantText page selectors in
  if negb (truthy responseText)
  then throw "Browser universal: no assistant response found."
  else ret responseText.

Definition scrapeReply (self : BrowserUniversalProvider) (browser : Browser)
    (prompt : string) : M (string * option string) :=
  let timeoutMs := timeoutMs self in
  let pages := concat (contexts browser) in
  if (length pages =? 0)%nat
  then throw "No open pages found in the connected Chrome instance."
  else
    let* focusedPage := resolveFocusedPage pages in
    let matchedPage :=
      match focusedPage with
      | Some p => Some p
      | None => resolvePageByRegex pages (urlRegex self)
      end in
    match (match matchedPage with Some p => Some p | None => head pages end) with
    | None => throw "Unable to select an active tab for browser universal provider."
    | Some page =>
        let* profile := detectPlatform page (urlRegex self) in
        let strategy := resolveSelectorStrategy profile in
        let* label := resolveModelLabel page (modelLabel strategy) in
        let* initialCount := countAssistantBlocks page (assistant strategy) in
        let* input := resolveInputLocator page (input strategy) in
        run perform (fun t => call_click t input timeoutMs)
                    (fun t => loc_click page t input timeoutMs) in
        let* isTextArea := await (fun t => loc_isTextArea page t input) in
        run (if isTextArea : bool
             then perform (fun t => call_fill t input prompt)
                          (fun t => loc_fill page t input prompt)
             else
               run perform (fun t => call_fill t input EmptyString)
                           (fun t => loc_fill page t input EmptyString) in
               perform (fun t => call_type t input prompt 5)
                       (fun t => loc_type page t input prompt)) in
        run perform (fun t => call_press t input "Enter")
                    (fun t => loc_press page t input "Enter") in
        run waitForFunction page responseStarted (assistant strategy)
                            (v_number initialCount) (v_options timeoutMs) in
        run waitForCompletion page timeoutMs (stop strategy) (send strategy) in
        let* responseText := readReply page (assistant strategy) in
        ret (responseText, label)
    end.

Definition emitReply (model : Model) (responseText : string) (label : option string)
  : M unit :=
  let* message := buildAssistantMessage responseText model label stop_reason_stop in
  run push (ev_start message) in
  run push (ev_text_start 0 message) in
  run push (ev_text_delta 0 responseText message) in
  run push (ev_text_end 0 responseText message) in
  run push (ev_done stop_reason_stop message) in
  endStream message.

Definition bridgeAttempt (self : BrowserUniversalProvider) (model : Model)
    (prompt : string) (options : option StreamOptions) : M unit :=
  run throwIfAborted (options ≫= signal) in
  let* browser := perform (fun t => call_connect t (cdpUrl self))
                          (fun t => connectOverCDP world t (cdpUrl self)) in
  try_finally
    (let* scraped := scrapeReply self browser prompt in
     emitReply model (fst scraped) (snd scraped))
    (perform call_close (close browser)).

Definition runBridge (self : BrowserUniversalProvider) (model : Model)
    (context : Context) (options : option StreamOptions) : M unit :=
  let prompt := extractLatestUserPrompt context in
  if negb (truthy prompt) then
    let* error := buildAssistantMessage "Browser universal: empty prompt." model None
                                        stop_reason_error in
    run push (ev_error stop_reason_error error) in
    endStream error
  else
    try_catch
      (bridgeAttempt self model prompt options)
      (fun message =>
         let* error := buildAssistantMessage ("Browser universal error: " +:+ message)
                                             model None stop_reason_error in
         run push (ev_error stop_reason_error error) in
         endStream error).

(** [runStream]: a fresh stream, driven by [runBridge].  The outcome is
    whether [runBridge] itself threw, and the state it left. *)
Definition runStream (self : BrowserUniversalProvider) (model : Model)
    (context : Context) (options : option StreamOptions) : result unit * BridgeState :=
  runBridge self model context options initialState.

End Bridge.

(** ** The extraction as the design document words it *)

(** The trimmed text of an element, when it is not blank. *)
Definition nonBlankText (el : Element) : option string :=
  match textContent el with
  | Some t => if truthy (trim t) then Some (trim t) else None
  | None => None
  end.

(** The text of the last element, in document order, that has some. *)
Definition lastNonBlank (els : list Element) : option string :=
  last (omap nonBlankText els).

(** ** Vocabulary for the prompt and for detection *)

(** The most recent user turn of a conversation. *)
Definition latestUserTurn (context : Context) : option Message :=
  find isUser (rev (messages context)).

(** The text of a turn: the plain content, or its text parts in order. *)
Definition turnText (m : Message) : string :=
  match content m with
  | PlainContent s => s
  | PartsContent parts => join LF (map partText (List.filter isTextPart parts))
  end.

(** A turn with only whitespace or no text. *)
Definition blankTurn (m : Message) : bool := negb (truthy (trim (turnText m))).

(** A turn given as content parts that is blank. *)
Definition blankParts (m : Message) : bool :=
  match content m with
  | PlainContent _ => false
  | PartsContent _ => blankTurn m
  end.

(** The most recent user turn that is plain text or has non-blank parts. *)
Definition decidingTurn (context : Context) : option Message :=
  find (fun m => isUser m && negb (blankParts m)) (rev (messages context)).

(** Whether the fingerprint rules of a profile find an element. *)
Definition fingerprints (d : Document) (profile : PlatformProfile) : bool :=
  someHint d (default [] (p_domHints (selectors profile))).

(** Whether a URL hint of a profile matches one of the given texts. *)
Definition hinted (texts : list string) (profile : PlatformProfile) : bool :=
  existsb (fun hint => existsb (test hint) texts) (urlHints profile).

(** ** Vocabulary for the outcome of an invocation *)

(** A stream that has delivered [events] and is closed on [final]. *)
Definition finished (events : list StreamEvent) (final : AssistantMessage) : EventStream :=
  {| queue := events; complete := true; finalResult := Some final |}.

(** The synthetic message of a failure, built at moment [t]. *)
Definition errorMessage (world : World) (model : Model) (text : string) (t : nat)
  : AssistantMessage :=
  {| am_role := Assistant;
     am_content := [TextPart text];
     am_api := model_api model;
     am_provider := model_provider model;
     am_model := model_id model;
     am_usage := zeroUsage;
     am_stopReason := stop_reason_error;
     am_timestamp := dateNow world t |}.

(** The message of a reply, built at moment [t]. *)
Definition replyMessage (world : World) (model : Model) (responseText : string)
    (label : option string) (t : nat) : AssistantMessage :=
  {| am_role := Assistant;
     am_content := [TextPart responseText];
     am_api := model_api model;
     am_provider := model_provider model;
     am_model := resolvedModel model label;
     am_usage := zeroUsage;
     am_stopReason := stop_reason_stop;
     am_timestamp := dateNow world t |}.

(** The five events of a reply. *)
Definition replyEvents (responseText : string) (message : AssistantMessage)
  : list StreamEvent :=
  [ev_start message;
   ev_text_start 0 message;
   ev_text_delta 0 responseText message;
   ev_text_end 0 responseText message;
   ev_done stop_reason_stop message].

(** Whether the caller has cancelled. *)
Definition cancelled (options : option StreamOptions) : bool :=
  match options ≫= signal with
  | Some sg => aborted sg
  | None => false
  end.

(** The state in which the inner [try] block starts: the connection was
    requested at moment 0 and nothing has been emitted. *)
Definition connected (self : BrowserUniversalProvider) : BridgeState :=
  {| clock := 1; stream := createAssistantMessageEventStream;
     calls := [call_connect 0 (cdpUrl self)] |}.

(** The diagnostic that leaves [try { ... } finally { await browser.close() }]
    when the block threw [thrown] and the release was attempted at [t]. *)
Definition afterRelease (browser : Browser) (t : nat) (thrown : string) : string :=
  match close browser t with
  | Ok _ => thrown
  | Err e => e
  end.

(** The assistant message an event carries. *)
Definition eventMessage (e : StreamEvent) : AssistantMessage :=
  match e with
  | ev_start m | ev_text_start _ m | ev_text_delta _ _ m | ev_text_end _ _ m
  | ev_done _ m | ev_error _ m => m
  end.

(** ** Vocabulary for what a computation may touch *)

Definition call_time (c : Call) : nat :=
  match c with
  | call_connect t _ | call_close t | call_click t _ _ | call_fill t _ _
  | call_type t _ _ _ | call_press t _ _ => t
  end.

(** The calls of the prompt injection. *)
Definition is_page_call (c : Call) : bool :=
  match c with
  | call_click _ _ _ | call_fill _ _ _ | call_type _ _ _ _ | call_press _ _ _ => true
  | call_connect _ _ | call_close _ => false
  end.

Definition no_call (c : Call) : bool := false.

(** [touched allowed s s']: from [s] to [s'] the stream is left alone, time
    has not moved backwards, and only [allowed] calls were recorded, each at
    a moment in between. *)
Definition touched (allowed : Call -> bool) (s s' : BridgeState) : Prop :=
  stream s' = stream s
  /\ (clock s <= clock s')%nat
  /\ exists l,
      calls s' = calls s ++ l
      /\ Forall (fun c => allowed c = true /\ (clock s <= call_time c < clock s')%nat) l.

Definition outside {A} (allowed : Call -> bool) (m : M A) : Prop :=
  forall s, touched allowed s (snd (m s)).

(** A string that does not start with white space. *)
Definition trimmedHead (s : string) : Prop :=
  match s with
  | EmptyString => True
  | String c _ => isWhiteSpace c = false
  end.


(** ** Registering the provider *)

(** The module flag [browserUniversalRegistered] and the registrations made
    through [registerApiProvider], in order. *)
Record ProviderRegistry := {
  browserUniversalRegistered : bool;
  registered : list (BrowserUniversalProvider * string)
}.

Definition emptyRegistry : ProviderRegistry :=
  {| browserUniversalRegistered := false; registered := [] |}.

(** [registerBrowserUniversalProvider(options)] under [process.env]. *)
Definition registerBrowserUniversalProvider (world : World) (env : gmap string string)
    (options : option BrowserUniversalOptions) (r : ProviderRegistry) : ProviderRegistry :=
  if browserUniversalRegistered r then r
  else
    let provider := newProvider world (default noOptions options) env in
    {| browserUniversalRegistered := true;
       registered := registered r ++ [(provider, "openclaw-browser-universal")] |}.

(** ** Computations over the state of the other components *)

Definition Run (S A : Type) : Type := S -> result A * S.

Definition pure {S A} (a : A) : Run S A := fun s => (Ok a, s).

Definition andThen {S A B} (m : Run S A) (k : A -> Run S B) : Run S B :=
  fun s => match m s with
           | (Ok a, s') => k a s'
           | (Err e, s') => (Err e, s')
           end.

Definition raise {S A} (message : string) : Run S A := fun s => (Err message, s).

Notation "'let+' x := m 'in' k" := (andThen m (fun x => k))
  (at level 10, x name, m at level 100, k at level 200).
Notation "'do+' m 'in' k" := (andThen m (fun _ => k))
  (at level 10, m at level 100, k at level 200).

(** [String.prototype.toLowerCase] on code units below 256: the letters A
    to Z and the capital letters of Latin-1 move up by 32. *)
Definition unitToLowerCase (c : ascii) : ascii :=
  let n := nat_of_ascii c in
  if ((65 <=? n)%nat && (n <=? 90)%nat)
     || ((192 <=? n)%nat && (n <=? 222)%nat && negb (n =? 215)%nat)
  then ascii_of_nat (n + 32) else c.

Fixpoint toLowerCase (s : string) : string :=
  match s with
  | EmptyString => EmptyString
  | String c r => String (unitToLowerCase c) (toLowerCase r)
  end.

(** A number that is a non-negative integer, in a template literal. *)
Definition numberToString (n : N) : string := NilEmpty.string_of_uint (N.to_uint n).

(** ** The browser client of the kernel *)

Module Kernel.

(** A page of the browser, as far as the client looks at it; [op] answers
    the calls made on it. *)
Inductive PageOp :=
| op_waitForSelector (selector : string)
| op_focus (selector : string)
| op_keyboard_type (text : string)
| op_click (selector : string).

Record Page := {
  page_id : nat;
  page_url : string;
  innerText : nat -> result (option string);   (* [None]: no [document.body] *)
  op : nat -> PageOp -> result unit
}.

Record Browser := { pages : nat -> result (list Page) }.

Record BrowserVersionInfo := { webSocketDebuggerUrl : option string }.

(** The answer of [fetch]: [ok], and what [json()] resolves to ([None] for
    the JSON value [null]). *)
Record Response := { ok : bool; json : result (option BrowserVersionInfo) }.

Record Host := {
  fetch : nat -> string -> result Response;
  puppeteer_connect : nat -> string -> result Browser;
  env : gmap string string;
  DEFAULT_PROFILE_DIR : string   (* [path.join(os.homedir(), ".eagle", "browser-profile")] *)
}.

Definition DEFAULT_CDP_PORT : N := 9222.
Definition DEFAULT_CDP_ENDPOINT : string := "http://127.0.0.1".

Record BrowserClientOptions := {
  opt_cdpPort : option N;
  opt_profileDir : option string;
  opt_chromeExecutable : option string
}.

(** The fields of a client; [browser] is the only one that changes. *)
Record BrowserClient := {
  browser : option Browser;
  cdpPort : N;
  profileDir : string;
  chromeExecutable : option string
}.

Inductive Effect :=
| eff_fetch (t : nat) (url : string)
| eff_spawn (t : nat) (executable : string) (args : list string)
| eff_connect (t : nat) (browserWSEndpoint : string)
| eff_pages (t : nat)
| eff_page (t : nat) (page : nat) (o : PageOp)
| eff_read (t : nat) (page : nat).

Record ClientState := {
  self : BrowserClient;
  now : nat;
  effects : list Effect
}.

Definition newBrowserClient (host : Host) (options : BrowserClientOptions) : BrowserClient :=
  {| browser := None;
     cdpPort := default DEFAULT_CDP_PORT (opt_cdpPort options);
     profileDir := default (DEFAULT_PROFILE_DIR host) (opt_profileDir options);
     chromeExecutable := opt_chromeExecutable options |}.

Definition start (client : BrowserClient) : ClientState :=
  {| self := client; now := 0%nat; effects := [] |}.

(** An awaited call on the outside, recorded. *)
Definition call {A} (e : nat -> Effect) (answer : nat -> result A) : Run ClientState A :=
  fun st => (answer (now st),
             {| self := self st; now := S (now st); effects := effects st ++ [e (now st)] |}).

(** [await response.json()] *)
Definition settle {A} (answer : result A) : Run ClientState A :=
  fun st => (answer, {| self := self st; now := S (now st); effects := effects st |}).

Definition attempt {A} (m : Run ClientState A) (h : string -> Run ClientState A)
  : Run ClientState A :=
  fun st => match m st with
            | (Ok a, st') => (Ok a, st')
            | (Err e, st') => h e st'
            end.

Definition getSelf : Run ClientState BrowserClient := fun st => (Ok (self st), st).

Definition setBrowser (b : Browser) : Run ClientState unit :=
  fun st => (Ok tt,
             {| self := {| browser := Some b; cdpPort := cdpPort (self st);
                           profileDir := profileDir (self st);
                           chromeExecutable := chromeExecutable (self st) |};
                now := now st; effects := effects st |}).

Section Client.

Variable host : Host.

Definition isChatPage (url : string) : bool :=
  let lower := toLowerCase url in
  includes "chatgpt.com" lower || includes "claude.ai" lower
  || includes "gemini.google.com" lower.

Definition fetchVersionInfo : Run ClientState (option BrowserVersionInfo) :=
  let+ this := getSelf in
  attempt
    (let+ response := call (fun t => eff_fetch t (DEFAULT_CDP_ENDPOINT +:+ ":"
                                                   +:+ numberToString (cdpPort this)
                                                   +:+ "/json/version"))
                           (fun t => fetch host t (DEFAULT_CDP_ENDPOINT +:+ ":"
                                                   +:+ numberToString (cdpPort this)
                                                   +:+ "/json/version")) in
     if negb (ok response) then pure None
     else settle (json response))
    (fun _ => pure None).

(** [candidates.find((candidate) => Boolean(candidate))] *)
Definition resolveChromeExecutable : option string :=
  let candidates := [
    env host !! "CHROME_PATH";
    env host !! "CHROMIUM_PATH";
    Some "/Applications/Google Chrome.app/Contents/MacOS/Google Chrome";
    Some "/Applications/Chromium.app/Contents/MacOS/Chromium";
    Some "/usr/bin/google-chrome";
    Some "/usr/bin/chromium";
    Some "/usr/bin/chromium-browser";
    Some "google-chrome";
    Some "chromium";
    Some "chromium-browser"
  ] in
  match find (fun candidate => match candidate with
                               | Some c => truthy c
                               | None => false
                               end) candidates with
  | Some found => found
  | None => None
  end.

Definition launchChrome : Run ClientState unit :=
  let+ this := getSelf in
  let args := [
    "--remote-debugging-port=" +:+ numberToString (cdpPort this);
    "--user-data-dir=" +:+ profileDir this;
    "--no-first-run"
  ] in
  let executable :=
    match chromeExecutable this with
    | Some e => Some e
    | None => resolveChromeExecutable
    end in
  match executable with
  | Some e =>
      if truthy e
      then fun st => (Ok tt, {| self := self st; now := now st;
                                effects := effects st ++ [eff_spawn (now st) e args] |})
      else raise "Unable to resolve Chrome/Chromium executable for auto-launch."
  | None => raise "Unable to resolve Chrome/Chromium executable for auto-launch."
  end.

(** [versionInfo?.webSocketDebuggerUrl], when it is not empty. *)
Definition endpointOf (info : option BrowserVersionInfo) : option string :=
  match info with
  | Some i => match webSocketDebuggerUrl i with
              | Some u => if truthy u then Some u else None
              | None => None
              end
  | None => None
  end.

Definition connect : Run ClientState Browser :=
  let+ this := getSelf in
  match browser this with
  | Some b => pure b
  | None =>
      let+ versionInfo := fetchVersionInfo in
      do+ (match endpointOf versionInfo with
           | None => launchChrome
           | Some _ => pure tt
           end) in
      let+ refreshedInfo := fetchVersionInfo in
      match endpointOf refreshedInfo with
      | None =>
          raise ("Failed to discover Chrome CDP endpoint on " +:+ DEFAULT_CDP_ENDPOINT
                 +:+ ":" +:+ numberToString (cdpPort this) +:+ ".")
      | Some wsUrl =>
          let+ b := call (fun t => eff_connect t wsUrl)
                         (fun t => puppeteer_connect host t wsUrl) in
          do+ setBrowser b in
          pure b
      end
  end.

Definition getActivePage : Run ClientState Page :=
  let+ b := connect in
  let+ ps := call eff_pages (pages b) in
  if (length ps =? 0)%nat then raise "No Chrome pages available to attach to."
  else
    match find (fun page => isChatPage (page_url page)) ps with
    | Some match_ => pure match_
    | None =>
        match head ps with
        | Some p => pure p
        | None => raise "No Chrome pages available to attach to."
        end
    end.

(** *** [BrowserActions] on a client *)

Definition readScreen : Run ClientState string :=
  let+ page := getActivePage in
  let+ text := call (fun t => eff_read t (page_id page)) (innerText page) in
  pure (default EmptyString text).

Definition typeInput (selector text : string) : Run ClientState unit :=
  let+ page := getActivePage in
  do+ call (fun t => eff_page t (page_id page) (op_waitForSelector selector))
           (fun t => op page t (op_waitForSelector selector)) in
  do+ call (fun t => eff_page t (page_id page) (op_focus selector))
           (fun t => op page t (op_focus selector)) in
  call (fun t => eff_page t (page_id page) (op_keyboard_type text))
       (fun t => op page t (op_keyboard_type text)).

Definition clickElement (selector : string) : Run ClientState unit :=
  let+ page := getActivePage in
  do+ call (fun t => eff_page t (page_id page) (op_waitForSelector selector))
           (fun t => op page t (op_waitForSelector selector)) in
  call (fun t => eff_page t (page_id page) (op_click selector))
       (fun t => op page t (op_click selector)).

End Client.

End Kernel.

(** ** JSON values *)

#[warnings="-register-all"]
Inductive JSON :=
| JNull
| JBool (b : bool)
| JNumber (n : float)
| JString (s : string)
| JArray (items : list JSON)
| JObject (members : list (string * JSON)).

(** ** The local turn log *)

Module KnowledgeGraph.

Record KnowledgeGraphTurn := {
  sessionId : option string;
  sessionKey : option string;
  provider : option string;
  model : option string;
  prompt : string;
  response : string;
  metadata : option JSON
}.

Record KnowledgeGraphConfig := { enabled : bool; dbPath : string }.

Definition KNOWLEDGE_GRAPH_SCHEMA : string := "
CREATE TABLE IF NOT EXISTS kg_turns (
  id TEXT PRIMARY KEY,
  session_id TEXT,
  session_key TEXT,
  provider TEXT,
  model TEXT,
  prompt TEXT NOT NULL,
  response TEXT NOT NULL,
  metadata_json TEXT,
  created_at INTEGER NOT NULL
);

CREATE TABLE IF NOT EXISTS kg_documents (
  id TEXT PRIMARY KEY,
  kind TEXT NOT NULL,
  title TEXT,
  url TEXT,
  content TEXT,
  metadata_json TEXT,
  created_at INTEGER NOT NULL
);

CREATE TABLE IF NOT EXISTS kg_nodes (
  id TEXT PRIMARY KEY,
  node_type TEXT NOT NULL,
  label TEXT NOT NULL,
  data_json TEXT,
  created_at INTEGER NOT NULL
);

CREATE TABLE IF NOT EXISTS kg_edges (
  id TEXT PRIMARY KEY,
  source_id TEXT NOT NULL,
  target_id TEXT NOT NULL,
  edge_type TEXT NOT NULL,
  data_json TEXT,
  created_at INTEGER NOT NULL
);

CREATE INDEX IF NOT EXISTS kg_turns_session_idx ON kg_turns(session_id, created_at);
CREATE INDEX IF NOT EXISTS kg_documents_kind_idx ON kg_documents(kind, created_at);
CREATE INDEX IF NOT EXISTS kg_edges_source_idx ON kg_edges(source_id);
CREATE INDEX IF NOT EXISTS kg_edges_target_idx ON kg_edges(target_id);
".

Definition DEFAULT_DB_FILE : string := "graph.sqlite".

(** The values bound to the nine parameters of the INSERT statement. *)
Record TurnRow := {
  row_id : string;
  row_session_id : option string;
  row_session_key : option string;
  row_provider : option string;
  row_model : option string;
  row_prompt : string;
  row_response : string;
  row_metadata_json : option string;
  row_created_at : Z
}.

(** What is done to the file system and to a database; a database is
    named by the moment at which it was opened. *)
Inductive Effect :=
| eff_mkdir (t : nat) (dir : string)
| eff_open (t : nat) (path : string)
| eff_exec (t : nat) (db : nat) (sql : string)
| eff_insert (t : nat) (db : nat) (row : TurnRow).

(** The outside.  [isTruthyEnvValue], [resolveStateDir] and
    [resolveUserPath] belong to modules of the repository that are not part
    of the sources at hand, and are taken as given, like [path.join] and
    [path.dirname]. *)
Record Host := {
  env : gmap string string;
  isTruthyEnvValue : option string -> bool;
  resolveStateDir : string;
  resolveUserPath : string -> string;
  path_join : list string -> string;
  path_dirname : string -> string;
  mkdirSync : nat -> string -> result unit;
  openDatabase : nat -> string -> result unit;
  exec : nat -> nat -> string -> result unit;
  stmt_run : nat -> nat -> TurnRow -> result unit;
  dateNow : nat -> Z;
  randomUUID : nat -> string;
  stringify : JSON -> result string
}.

(** The module variable [cachedDb], a clock, and the effects so far. *)
Record State := {
  cachedDb : option (string * nat);
  now : nat;
  effects : list Effect
}.

Definition fresh : State := {| cachedDb := None; now := 0%nat; effects := [] |}.

Definition call {A} (e : nat -> Effect) (answer : nat -> result A) : Run State A :=
  fun st => (answer (now st),
             {| cachedDb := cachedDb st; now := S (now st);
                effects := effects st ++ [e (now st)] |}).

Definition getState : Run State State := fun st => (Ok st, st).

Definition setCachedDb (c : string * nat) : Run State unit :=
  fun st => (Ok tt, {| cachedDb := Some c; now := now st; effects := effects st |}).

Section Log.

Variable host : Host.

Definition resolveKnowledgeGraphConfig : KnowledgeGraphConfig :=
  let db := trim <$> env host !! "OPENCLAW_KG_DB" in
  let enabled :=
    isTruthyEnvValue host (env host !! "OPENCLAW_KG_ENABLED")
    || isTruthyEnvValue host (env host !! "OPENCLAW_KG_DB_ENABLED")
    || match db with Some v => truthy v | None => false end in
  let stateDir := resolveStateDir host in
  let fallback := path_join host [stateDir; "knowledge-graph"; DEFAULT_DB_FILE] in
  let dbPath :=
    resolveUserPath host (match db with
                          | Some v => if truthy v then v else fallback
                          | None => fallback
                          end) in
  {| enabled := enabled; dbPath := dbPath |}.

Definition ensureDbDir (dbPath : string) : Run State unit :=
  let dir := path_dirname host dbPath in
  call (fun t => eff_mkdir t dir) (fun t => mkdirSync host t dir).

Definition openNew (dbPath : string) : Run State nat :=
  do+ ensureDbDir dbPath in
  let+ st := getState in
  let db := now st in
  do+ call (fun t => eff_open t dbPath) (fun t => openDatabase host t dbPath) in
  do+ call (fun t => eff_exec t db "PRAGMA journal_mode=WAL;")
           (fun t => exec host t db "PRAGMA journal_mode=WAL;") in
  do+ call (fun t => eff_exec t db "PRAGMA foreign_keys=ON;")
           (fun t => exec host t db "PRAGMA foreign_keys=ON;") in
  do+ call (fun t => eff_exec t db KNOWLEDGE_GRAPH_SCHEMA)
           (fun t => exec host t db KNOWLEDGE_GRAPH_SCHEMA) in
  do+ setCachedDb (dbPath, db) in
  pure db.

Definition getDatabase (dbPath : string) : Run State nat :=
  let+ st := getState in
  match cachedDb st with
  | Some (path, db) => if String.eqb path dbPath then pure db else openNew dbPath
  | None => openNew dbPath
  end.

Definition persistKnowledgeGraphTurn (config : KnowledgeGraphConfig)
    (turn : KnowledgeGraphTurn) : Run State unit :=
  if negb (enabled config) then pure tt
  else
    let+ db := getDatabase (dbPath config) in
    let+ st := getState in
    let now_ := dateNow host (now st) in
    let id := randomUUID host (now st) in
    let+ metadata_json :=
      (match metadata turn with
       | Some m => fun s => (match stringify host m with
                             | Ok text => Ok (Some text)
                             | Err e => Err e
                             end, s)
       | None => pure None
       end) in
    let row := {| row_id := id;
                  row_session_id := sessionId turn;
                  row_session_key := sessionKey turn;
                  row_provider := provider turn;
                  row_model := model turn;
                  row_prompt := prompt turn;
                  row_response := response turn;
                  row_metadata_json := metadata_json;
                  row_created_at := now_ |} in
    call (fun t => eff_insert t db row) (fun t => stmt_run host t db row).

(** Persisting turns one after the other, stopping at the first that throws. *)
Fixpoint persistAll (config : KnowledgeGraphConfig) (turns : list KnowledgeGraphTurn)
  : Run State unit :=
  match turns with
  | [] => pure tt
  | turn :: rest =>
      do+ persistKnowledgeGraphTurn config turn in
      persistAll config rest
  end.

End Log.

End KnowledgeGraph.

(** ** The settings of the control UI *)

Module UiStorage.

Definition KEY : string := "openclaw.control.settings.v1".

Inductive ThemeMode := theme_light | theme_dark | theme_system.

Record UiSettings := {
  gatewayUrl : string;
  token : string;
  sessionKey : string;
  lastActiveSessionKey : string;
  theme : ThemeMode;
  chatFocusMode : bool;
  chatShowThinking : bool;
  browserMode : bool;
  browserAutoDetect : bool;
  browserAutoLaunch : bool;
  browserNotifyOnDetect : bool;
  browserCdpUrl : string;
  browserUrlRegex : string;
  splitRatio : float;
  navCollapsed : bool;
  navGroupsCollapsed : JSON
}.

Record Location := { protocol : string; host : string }.

(** [localStorage]: its items, and whether access to it is denied, in
    which case every call on it throws. *)
Record Storage := { denied : option string; items : gmap string string }.

Definition getItem (key : string) (storage : Storage) : result (option string) :=
  match denied storage with
  | Some e => Err e
  | None => Ok (items storage !! key)
  end.

Definition setItem (key value : string) (storage : Storage) : result Storage :=
  match denied storage with
  | Some e => Err e
  | None => Ok {| denied := None; items := <[key := value]> (items storage) |}
  end.

Record Platform := {
  location : Location;
  JSON_parse : string -> result JSON;
  JSON_stringify : JSON -> string
}.

(** [parsed.key], for a value that is not [null]: [None] is [undefined]. *)
Definition member (parsed : JSON) (key : string) : option JSON :=
  match parsed with
  | JObject members =>
      match find (fun kv => String.eqb (fst kv) key) members with
      | Some kv => Some (snd kv)
      | None => None
      end
  | _ => None
  end.

(** [typeof v === "string" && v.trim() ? v.trim() : d] *)
Definition trimmedOr (v : option JSON) (d : string) : string :=
  match v with
  | Some (JString s) => if truthy (trim s) then trim s else d
  | _ => d
  end.

(** [typeof v === "string" ? v : d] *)
Definition stringOr (v : option JSON) (d : string) : string :=
  match v with
  | Some (JString s) => s
  | _ => d
  end.

(** [typeof v === "boolean" ? v : d] *)
Definition booleanOr (v : option JSON) (d : bool) : bool :=
  match v with
  | Some (JBool b) => b
  | _ => d
  end.

Definition themeOr (v : option JSON) (d : ThemeMode) : ThemeMode :=
  match v with
  | Some (JString s) =>
      if String.eqb s "light" then theme_light
      else if String.eqb s "dark" then theme_dark
      else if String.eqb s "system" then theme_system
      else d
  | _ => d
  end.

Definition ratioOr (v : option JSON) (d : float) : float :=
  match v with
  | Some (JNumber n) => if PrimFloat.leb 0.4%float n && PrimFloat.leb n 0.7%float then n else d
  | _ => d
  end.

(** [typeof v === "object" && v !== null ? v : d] *)
Definition objectOr (v : option JSON) (d : JSON) : JSON :=
  match v with
  | Some (JObject members) => JObject members
  | Some (JArray elements) => JArray elements
  | _ => d
  end.

Definition defaultSettings (platform : Platform) : UiSettings :=
  let proto := if String.eqb (protocol (location platform)) "https:" then "wss" else "ws" in
  {| gatewayUrl := proto +:+ "://" +:+ host (location platform);
     token := EmptyString;
     sessionKey := "main";
     lastActiveSessionKey := "main";
     theme := theme_system;
     chatFocusMode := false;
     chatShowThinking := true;
     browserMode := false;
     browserAutoDetect := true;
     browserAutoLaunch := true;
     browserNotifyOnDetect := true;
     browserCdpUrl := EmptyString;
     browserUrlRegex := EmptyString;
     splitRatio := 0.6%float;
     navCollapsed := false;
     navGroupsCollapsed := JObject [] |}.

(** The object literal returned inside the [try] block of [loadSettings]. *)
Definition readSettings (defaults : UiSettings) (parsed : JSON) : UiSettings :=
  {| gatewayUrl := trimmedOr (member parsed "gatewayUrl") (gatewayUrl defaults);
     token := stringOr (member parsed "token") (token defaults);
     sessionKey := trimmedOr (member parsed "sessionKey") (sessionKey defaults);
     lastActiveSessionKey :=
       trimmedOr (member parsed "lastActiveSessionKey")
                 (trimmedOr (member parsed "sessionKey") (lastActiveSessionKey defaults));
     theme := themeOr (member parsed "theme") (theme defaults);
     chatFocusMode := booleanOr (member parsed "chatFocusMode") (chatFocusMode defaults);
     chatShowThinking := booleanOr (member parsed "chatShowThinking")
                                   (chatShowThinking defaults);
     browserMode := booleanOr (member parsed "browserMode") (browserMode defaults);
     browserAutoDetect := booleanOr (member parsed "browserAutoDetect")
                                    (browserAutoDetect defaults);
     browserAutoLaunch := booleanOr (member parsed "browserAutoLaunch")
                                    (browserAutoLaunch defaults);
     browserNotifyOnDetect := booleanOr (member parsed "browserNotifyOnDetect")
                                        (browserNotifyOnDetect defaults);
     browserCdpUrl := stringOr (member parsed "browserCdpUrl") (browserCdpUrl defaults);
     browserUrlRegex := stringOr (member parsed "browserUrlRegex")
                                 (browserUrlRegex defaults);
     splitRatio := ratioOr (member parsed "splitRatio") (splitRatio defaults);
     navCollapsed := booleanOr (member parsed "navCollapsed") (navCollapsed defaults);
     navGroupsCollapsed := objectOr (member parsed "navGroupsCollapsed")
                                    (navGroupsCollapsed defaults) |}.

(** [loadSettings]: whatever is thrown inside the [try] block, by
    [localStorage], by [JSON.parse] or by reading a property of [null],
    gives the defaults. *)
Definition loadSettings (platform : Platform) (storage : Storage) : UiSettings :=
  let defaults := defaultSettings platform in
  match getItem KEY storage with
  | Err _ => defaults
  | Ok None => defaults
  | Ok (Some raw) =>
      if negb (truthy raw) then defaults
      else
        match JSON_parse platform raw with
        | Err _ => defaults
        | Ok JNull => defaults
        | Ok parsed => readSettings defaults parsed
        end
  end.

Definition themeName (t : ThemeMode) : string :=
  match t with
  | theme_light => "light"
  | theme_dark => "dark"
  | theme_system => "system"
  end.

(** The settings as the object handed to [JSON.stringify]. *)
Definition settingsObject (next : UiSettings) : JSON :=
  JObject [
    ("gatewayUrl", JString (gatewayUrl next));
    ("token", JString (token next));
    ("sessionKey", JString (sessionKey next));
    ("lastActiveSessionKey", JString (lastActiveSessionKey next));
    ("theme", JString (themeName (theme next)));
    ("chatFocusMode", JBool (chatFocusMode next));
    ("chatShowThinking", JBool (chatShowThinking next));
    ("browserMode", JBool (browserMode next));
    ("browserAutoDetect", JBool (browserAutoDetect next));
    ("browserAutoLaunch", JBool (browserAutoLaunch next));
    ("browserNotifyOnDetect", JBool (browserNotifyOnDetect next));
    ("browserCdpUrl", JString (browserCdpUrl next));
    ("browserUrlRegex", JString (browserUrlRegex next));
    ("splitRatio", JNumber (splitRatio next));
    ("navCollapsed", JBool (navCollapsed next));
    ("navGroupsCollapsed", navGroupsCollapsed next)
  ].

Definition saveSettings (platform : Platform) (next : UiSettings) (storage : Storage)
  : result Storage :=
  setItem KEY (JSON_stringify platform (settingsObject next)) storage.

End UiStorage.

(** ** Vocabulary for the effects of the browser client *)

Definition is_spawn (e : Kernel.Effect) : bool :=
  match e with Kernel.eff_spawn _ _ _ => true | _ => false end.

Definition is_fetch (e : Kernel.Effect) : bool :=
  match e with Kernel.eff_fetch _ _ => true | _ => false end.

Definition is_connect (e : Kernel.Effect) : bool :=
  match e with Kernel.eff_connect _ _ => true | _ => false end.

(** What [connect] does after the first probe and the launch, if any. *)
Definition reconnect (host : Kernel.Host) (port : N) : Run Kernel.ClientState Kernel.Browser :=
  let+ refreshedInfo := Kernel.fetchVersionInfo host in
  match Kernel.endpointOf refreshedInfo with
  | None =>
      raise ("Failed to discover Chrome CDP endpoint on "
             +:+ Kernel.DEFAULT_CDP_ENDPOINT +:+ ":" +:+ numberToString port +:+ ".")
  | Some wsUrl =>
      let+ b := Kernel.call (fun t => Kernel.eff_connect t wsUrl)
                  (fun t => Kernel.puppeteer_connect host t wsUrl) in
      do+ Kernel.setBrowser b in
      pure b
  end.

(** A string of code units below 128. *)
Fixpoint allAscii (s : string) : bool :=
  match s with
  | EmptyString => true
  | String c r => (nat_of_ascii c <? 128)%nat && allAscii r
  end.

(** ** Vocabulary for the turn log *)

(** The row written for a turn at moment [t]. *)
Definition rowOf (host : KnowledgeGraph.Host) (turn : KnowledgeGraph.KnowledgeGraphTurn)
    (t : nat) (metadata_json : option string) : KnowledgeGraph.TurnRow :=
  {| KnowledgeGraph.row_id := KnowledgeGraph.randomUUID host t;
     KnowledgeGraph.row_session_id := KnowledgeGraph.sessionId turn;
     KnowledgeGraph.row_session_key := KnowledgeGraph.sessionKey turn;
     KnowledgeGraph.row_provider := KnowledgeGraph.provider turn;
     KnowledgeGraph.row_model := KnowledgeGraph.model turn;
     KnowledgeGraph.row_prompt := KnowledgeGraph.prompt turn;
     KnowledgeGraph.row_response := KnowledgeGraph.response turn;
     KnowledgeGraph.row_metadata_json := metadata_json;
     KnowledgeGraph.row_created_at := KnowledgeGraph.dateNow host t |}.

(** [turn.metadata ? JSON.stringify(turn.metadata) : null] *)
Definition metadataJson (host : KnowledgeGraph.Host)
    (turn : KnowledgeGraph.KnowledgeGraphTurn) : result (option string) :=
  match KnowledgeGraph.metadata turn with
  | Some m => match KnowledgeGraph.stringify host m with
              | Ok text => Ok (Some text)
              | Err e => Err e
              end
  | None => Ok None
  end.

(** The five effects of opening the database at [path] from moment [t] on. *)
Definition setupEffects (host : KnowledgeGraph.Host) (path : string) (t : nat)
  : list KnowledgeGraph.Effect :=
  [KnowledgeGraph.eff_mkdir t (KnowledgeGraph.path_dirname host path);
   KnowledgeGraph.eff_open (S t) path;
   KnowledgeGraph.eff_exec (S (S t)) (S t) "PRAGMA journal_mode=WAL;";
   KnowledgeGraph.eff_exec (S (S (S t))) (S t) "PRAGMA foreign_keys=ON;";
   KnowledgeGraph.eff_exec (S (S (S (S t)))) (S t) KnowledgeGraph.KNOWLEDGE_GRAPH_SCHEMA].

(** A host on which no call of the turn log fails. *)
Definition reliable (host : KnowledgeGraph.Host) : Prop :=
  (forall t dir, KnowledgeGraph.mkdirSync host t dir = Ok tt)
  /\ (forall t path, KnowledgeGraph.openDatabase host t path = Ok tt)
  /\ (forall t db sql, KnowledgeGraph.exec host t db sql = Ok tt)
  /\ (forall t db row, KnowledgeGraph.stmt_run host t db row = Ok tt)
  /\ (forall m, exists text, KnowledgeGraph.stringify host m = Ok text).

Definition is_insert (e : KnowledgeGraph.Effect) : bool :=
  match e with KnowledgeGraph.eff_insert _ _ _ => true | _ => false end.

Definition is_open (e : KnowledgeGraph.Effect) : bool :=
  match e with KnowledgeGraph.eff_open _ _ => true | _ => false end.

(** The prompt and the response of an inserted row. *)
Definition insertedTurn (e : KnowledgeGraph.Effect) : option (string * string) :=
  match e with
  | KnowledgeGraph.eff_insert _ _ row =>
      Some (KnowledgeGraph.row_prompt row, KnowledgeGraph.row_response row)
  | _ => None
  end.

(** ** Vocabulary for the settings *)

(** Settings as [loadSettings] returns them: the three keys trimmed and not
    empty, the split ratio within its bounds, the collapsed groups an object
    or an array. *)
Definition wellFormed (next : UiStorage.UiSettings) : Prop :=
  trim (UiStorage.gatewayUrl next) = UiStorage.gatewayUrl next
  /\ truthy (UiStorage.gatewayUrl next) = true
  /\ trim (UiStorage.sessionKey next) = UiStorage.sessionKey next
  /\ truthy (UiStorage.sessionKey next) = true
  /\ trim (UiStorage.lastActiveSessionKey next) = UiStorage.lastActiveSessionKey next
  /\ truthy (UiStorage.lastActiveSessionKey next) = true
  /\ PrimFloat.leb 0.4%float (UiStorage.splitRatio next) = true
  /\ PrimFloat.leb (UiStorage.splitRatio next) 0.7%float = true
  /\ match UiStorage.navGroupsCollapsed next with
     | JObject _ | JArray _ => True
     | _ => False
     end.

(** ** Concrete pages and worlds, used to exercise the definitions *)

Module Scenario.

Definition shown (text : string) : Element :=
  {| textContent := Some text;
     computedStyle := Some {| display := "block"; visibility := "visible" |};
     offsetParent := true |}.

(** A document given by the table of its non-empty selector matches. *)
Fixpoint matchesIn (table : list (string * list Element)) (selector : string)
  : list Element :=
  match table with
  | [] => []
  | (sel, els) :: rest => if String.eqb sel selector then els else matchesIn rest selector
  end.

Definition documentOf (table : list (string * list Element)) : Document :=
  {| querySelectorAll := matchesIn table |}.

(** A page whose controls answer every call, showing [before] until
    moment [change] and [after] from then on. *)
Definition pageOf (address : string) (focused : bool) (change : nat)
    (before after : Document) : Page :=
  {| isClosed := false;
     url := address;
     title := fun _ => Ok "Chat";
     hasFocus := fun _ => Ok focused;
     document := fun t => Ok (if (t <? change)%nat then before else after);
     loc_isVisible := fun _ _ => Ok true;
     loc_click := fun _ _ _ => Ok tt;
     loc_isTextArea := fun _ _ => Ok true;
     loc_fill := fun _ _ _ => Ok tt;
     loc_type := fun _ _ _ => Ok tt;
     loc_press := fun _ _ _ => Ok tt |}.

Definition browserOf (pages : list Page) : Browser :=
  {| contexts := [pages]; close := fun _ => Ok tt |}.

Definition worldOf (connection : result Browser) : World :=
  {| connectOverCDP := fun _ _ => connection;
     dateNow := fun t => 1700000000000 + Z.of_nat t;
     compileRegExp := fun raw => if String.prefix "(" raw then None
                                 else Some (icaseAny [lower raw]);
     pollingRounds := fun timeout => Z.to_nat (timeout / 10000);
     timeoutMessage := fun timeout =>
       "page.waitForFunction: Timeout "
       +:+ numberToString (Z.to_N timeout) +:+ "ms exceeded.";
     thrownInPage := fun e => "page.waitForFunction: " +:+ e |}.

Definition provider : BrowserUniversalProvider :=
  {| cdpUrl := DEFAULT_CDP_URL; urlRegex := DEFAULT_URL_REGEX;
     timeoutMs := DEFAULT_TIMEOUT_MS |}.

Definition model : Model :=
  {| model_id := "browser-universal"; model_api := "browser-universal";
     model_provider := "openclaw-browser-universal" |}.

Definition says (text : string) : Context :=
  {| messages := [{| role := User; content := PlainContent text |}] |}.

(** A ChatGPT tab: an input, a model switcher, no reply yet. *)
Definition chatBefore : Document :=
  documentOf [
    ("#prompt-textarea", [shown EmptyString]);
    ("button[data-testid=" +:+ q "model-switcher" +:+ "]", [shown " GPT-4o "])
  ].

(** The same tab once the reply is complete. *)
Definition chatAfter : Document :=
  documentOf [
    ("#prompt-textarea", [shown EmptyString]);
    ("button[data-testid=" +:+ q "model-switcher" +:+ "]", [shown " GPT-4o "]);
    ("[data-message-author-role=" +:+ q "assistant" +:+ "]", [shown "hi there"]);
    ("button[aria-label*=" +:+ q "Send" +:+ "]", [shown "Send"])
  ].

Definition chatPage : Page :=
  pageOf "https://chatgpt.com/c/1" true 12 chatBefore chatAfter.

Definition chatWorld : World := worldOf (Ok (browserOf [chatPage])).

(** A response rule matching two blocks, the later one blank. *)
Definition blankTail : Document :=
  documentOf [(".markdown", [shown "first reply"; shown "   "])].

(** A response rule matching two replies. *)
Definition twoReplies : Document :=
  documentOf [(".markdown", [shown "first reply"; shown "second reply"])].

(** A page without any stop or send control. *)
Definition bare : Document := documentOf [].

(** A conversation whose latest user turn is blank content parts, after
    an earlier user turn with text. *)
Definition blankLatest : Context :=
  {| messages := [
       {| role := User; content := PlainContent "hello" |};
       {| role := Assistant; content := PartsContent [TextPart "hi"] |};
       {| role := User; content := PartsContent [TextPart "   "; OtherPart "image"] |}
     ] |}.

(** A tab at a ChatGPT address whose DOM is the one of Claude. *)
Definition claudeLike : Document :=
  documentOf [("[data-testid=" +:+ q "chat-messages" +:+ "]", [shown "..."])].

Definition redirectedPage : Page :=
  pageOf "https://chatgpt.com/redirect" true 0 claudeLike claudeLike.

(** A tab at a Claude address whose DOM carries the marks of ChatGPT and
    of Claude. *)
Definition bothMarks : Document :=
  documentOf [("#prompt-textarea", [shown EmptyString]);
              ("[data-testid=" +:+ q "chat-messages" +:+ "]", [shown "..."])].

Definition claudePage : Page :=
  pageOf "https://claude.ai/chat/1" true 0 bothMarks bothMarks.

(** A tab at a ChatGPT address whose DOM has no mark of any platform. *)
Definition plainPage : Page :=
  pageOf "https://chatgpt.com/" true 0 bare bare.

(** A browser without any open page. *)
Definition emptyWorld : World := worldOf (Ok (browserOf [])).

(** A browser without any open page whose release fails. *)
Definition stuckBrowser : Browser :=
  {| contexts := [[]]; close := fun _ => Err "Target closed" |}.

Definition stuckWorld : World := worldOf (Ok stuckBrowser).

(** A world in which the browser cannot be reached. *)
Definition offlineWorld : World := worldOf (Err "connect ECONNREFUSED 127.0.0.1:9222").

(** A host on which Chrome already listens, showing two tabs. *)
Definition chatTab : Kernel.Page :=
  {| Kernel.page_id := 2; Kernel.page_url := "https://Claude.AI/chat/7";
     Kernel.innerText := fun _ => Ok (Some "Hello");
     Kernel.op := fun _ _ => Ok tt |}.

Definition otherTab : Kernel.Page :=
  {| Kernel.page_id := 1; Kernel.page_url := "https://example.org/";
     Kernel.innerText := fun _ => Ok None;
     Kernel.op := fun _ o => match o with
                             | Kernel.op_waitForSelector _ => Err "waiting for selector failed"
                             | _ => Ok tt
                             end |}.

Definition chrome : Kernel.Browser :=
  {| Kernel.pages := fun _ => Ok [otherTab; chatTab] |}.

Definition listening : Kernel.Host :=
  {| Kernel.fetch := fun _ _ =>
       Ok {| Kernel.ok := true;
             Kernel.json := Ok (Some {| Kernel.webSocketDebuggerUrl :=
                                          Some "ws://127.0.0.1:9222/devtools/browser/1" |}) |};
     Kernel.puppeteer_connect := fun _ _ => Ok chrome;
     Kernel.env := ∅;
     Kernel.DEFAULT_PROFILE_DIR := "/home/user/.eagle/browser-profile" |}.

(** A host on which nothing listens, before and after a launch. *)
Definition deaf : Kernel.Host :=
  {| Kernel.fetch := fun _ _ => Err "fetch failed";
     Kernel.puppeteer_connect := fun _ _ => Err "unreachable";
     Kernel.env := <["CHROMIUM_PATH" := "/opt/chromium/chrome"]> ∅;
     Kernel.DEFAULT_PROFILE_DIR := "/home/user/.eagle/browser-profile" |}.

Definition noClientOptions : Kernel.BrowserClientOptions :=
  {| Kernel.opt_cdpPort := None; Kernel.opt_profileDir := None;
     Kernel.opt_chromeExecutable := None |}.

(** A host of the turn log on which everything succeeds. *)
Definition disk : KnowledgeGraph.Host :=
  {| KnowledgeGraph.env := <["OPENCLAW_KG_DB" := " /data/kg.sqlite "]> ∅;
     KnowledgeGraph.isTruthyEnvValue := fun v => match v with
                                                 | Some "1" => true
                                                 | _ => false
                                                 end;
     KnowledgeGraph.resolveStateDir := "/home/user/.openclaw";
     KnowledgeGraph.resolveUserPath := fun path => path;
     KnowledgeGraph.path_join := String.concat "/";
     KnowledgeGraph.path_dirname := fun _ => "/data";
     KnowledgeGraph.mkdirSync := fun _ _ => Ok tt;
     KnowledgeGraph.openDatabase := fun _ _ => Ok tt;
     KnowledgeGraph.exec := fun _ _ _ => Ok tt;
     KnowledgeGraph.stmt_run := fun _ _ _ => Ok tt;
     KnowledgeGraph.dateNow := fun t => 1700000000000 + Z.of_nat t;
     KnowledgeGraph.randomUUID := fun t => "uuid-" +:+ numberToString (N.of_nat t);
     KnowledgeGraph.stringify := fun _ => Ok "{}" |}.

(** The same host with a disk on which no database can be opened. *)
Definition readOnlyDisk : KnowledgeGraph.Host :=
  {| KnowledgeGraph.env := KnowledgeGraph.env disk;
     KnowledgeGraph.isTruthyEnvValue := KnowledgeGraph.isTruthyEnvValue disk;
     KnowledgeGraph.resolveStateDir := KnowledgeGraph.resolveStateDir disk;
     KnowledgeGraph.resolveUserPath := KnowledgeGraph.resolveUserPath disk;
     KnowledgeGraph.path_join := KnowledgeGraph.path_join disk;
     KnowledgeGraph.path_dirname := KnowledgeGraph.path_dirname disk;
     KnowledgeGraph.mkdirSync := fun _ _ => Ok tt;
     KnowledgeGraph.openDatabase := fun _ _ => Err "unable to open database file";
     KnowledgeGraph.exec := fun _ _ _ => Ok tt;
     KnowledgeGraph.stmt_run := fun _ _ _ => Ok tt;
     KnowledgeGraph.dateNow := KnowledgeGraph.dateNow disk;
     KnowledgeGraph.randomUUID := KnowledgeGraph.randomUUID disk;
     KnowledgeGraph.stringify := KnowledgeGraph.stringify disk |}.

Definition turnOf (prompt response : string) : KnowledgeGraph.KnowledgeGraphTurn :=
  {| KnowledgeGraph.sessionId := Some "s1"; KnowledgeGraph.sessionKey := None;
     KnowledgeGraph.provider := Some "browser-universal"; KnowledgeGraph.model := None;
     KnowledgeGraph.prompt := prompt; KnowledgeGraph.response := response;
     KnowledgeGraph.metadata := None |}.

(** Settings of a user, and a platform whose JSON text for them reads back
    as the same value. *)
Definition mine : UiStorage.UiSettings :=
  {| UiStorage.gatewayUrl := "wss://gateway.example.org";
     UiStorage.token := " secret ";
     UiStorage.sessionKey := "work";
     UiStorage.lastActiveSessionKey := "work/2";
     UiStorage.theme := UiStorage.theme_dark;
     UiStorage.chatFocusMode := true;
     UiStorage.chatShowThinking := false;
     UiStorage.browserMode := true;
     UiStorage.browserAutoDetect := false;
     UiStorage.browserAutoLaunch := true;
     UiStorage.browserNotifyOnDetect := false;
     UiStorage.browserCdpUrl := "http://127.0.0.1:9333";
     UiStorage.browserUrlRegex := "claude";
     UiStorage.splitRatio := 0.5%float;
     UiStorage.navCollapsed := true;
     UiStorage.navGroupsCollapsed := JObject [("agents", JBool true)] |}.

Definition browserTab : UiStorage.Platform :=
  {| UiStorage.location := {| UiStorage.protocol := "https:";
                              UiStorage.host := "localhost:18789" |};
     UiStorage.JSON_parse := fun raw =>
       if String.eqb raw "{mine}" then Ok (UiStorage.settingsObject mine)
       else if String.eqb raw "null" then Ok JNull
       else Err "Unexpected token";
     UiStorage.JSON_stringify := fun _ => "{mine}" |}.

Definition emptyStorage : UiStorage.Storage :=
  {| UiStorage.denied := None; UiStorage.items := ∅ |}.

(** A storage holding the text [null] under the settings key, and one
    holding settings written before the last active session was recorded. *)
Definition nullStorage : UiStorage.Storage :=
  {| UiStorage.denied := None; UiStorage.items := {[ UiStorage.KEY := "null" ]} |}.

Definition legacyStorage : UiStorage.Storage :=
  {| UiStorage.denied := None; UiStorage.items := {[ UiStorage.KEY := "{legacy}" ]} |}.

Definition legacyTab : UiStorage.Platform :=
  {| UiStorage.location := {| UiStorage.protocol := "http:";
                              UiStorage.host := "localhost:18789" |};
     UiStorage.JSON_parse := fun raw =>
       if String.eqb raw "{legacy}"
       then Ok (JObject [("sessionKey", JString " team "); ("theme", JString "light")])
       else Err "Unexpected token";
     UiStorage.JSON_stringify := fun _ => "{}" |}.

End Scenario.

(** * Properties *)

(** ** The rule merge *)

Section MergeFacts.

Implicit Types l seen base specific : list string.

Lemma filter_filter_comm (P Q : string -> bool) l :
  List.filter P (List.filter Q l) = List.filter Q (List.filter P l).
Proof.
  induction l as [|x l IH]; simpl; [reflexivity|].
  destruct (P x) eqn:HP, (Q x) eqn:HQ; simpl; rewrite ?HP, ?HQ, IH; reflexivity.
Qed.

Lemma filter_absorb (P Q : string -> bool) l :
  (forall y, P y = true -> Q y = true) ->
  List.filter P (List.filter Q l) = List.filter P l.
Proof.
  intros H. induction l as [|x l IH]; simpl; [reflexivity|].
  destruct (Q x) eqn:HQ; simpl.
  - rewrite IH. reflexivity.
  - destruct (P x) eqn:HP; [|exact IH].
    apply H in HP. congruence.
Qed.

Lemma filter_pointwise (P Q : string -> bool) l :
  (forall y, P y = Q y) -> List.filter P l = List.filter Q l.
Proof. intros H. induction l as [|x l IH]; simpl; rewrite ?H, ?IH; reflexivity. Qed.

Lemma filter_all (P : string -> bool) l :
  (forall y, In y l -> P y = true) -> List.filter P l = l.
Proof.
  induction l as [|x l IH]; simpl; intros H; [reflexivity|].
  rewrite (H x (or_introl eq_refl)), IH; auto.
Qed.

Lemma filter_none (P : string -> bool) l :
  (forall y, In y l -> P y = false) -> List.filter P l = [].
Proof.
  induction l as [|x l IH]; simpl; intros H; [reflexivity|].
  rewrite (H x (or_introl eq_refl)), IH; auto.
Qed.

Lemma setHas_In seen x : setHas seen x = true <-> In x seen.
Proof.
  unfold setHas. rewrite existsb_exists. split.
  - intros (y & Hy & E). apply String.eqb_eq in E. subst. exact Hy.
  - intros H. exists x. split; [exact H | apply String.eqb_refl].
Qed.

Lemma setHas_app seen x y :
  setHas (seen ++ [x]) y = setHas seen y || String.eqb x y.
Proof.
  unfold setHas. rewrite existsb_app. simpl.
  rewrite orb_false_r, (String.eqb_sym y x). reflexivity.
Qed.

Lemma keepFirst_filter (P : string -> bool) l :
  keepFirst (List.filter P l) = List.filter P (keepFirst l).
Proof.
  induction l as [|x l IH]; simpl; [reflexivity|].
  destruct (P x) eqn:HP; simpl; rewrite IH, ?HP.
  - f_equal. apply filter_filter_comm.
  - symmetry. apply filter_absorb.
    intros y Hy. destruct (String.eqb_spec x y); [subst; congruence | reflexivity].
Qed.

(** Adding to a [Set] one by one keeps exactly the first occurrences. *)
Lemma fold_setAdd l : forall seen,
  fold_left setAdd l seen
  = seen ++ List.filter (fun y => negb (setHas seen y)) (keepFirst l).
Proof.
  induction l as [|x l IH]; intros seen; simpl.
  - symmetry. apply app_nil_r.
  - unfold setAdd at 2. destruct (setHas seen x) eqn:Hx; simpl.
    + rewrite IH. f_equal. symmetry. apply filter_absorb.
      intros y Hy. destruct (String.eqb_spec x y); [subst; rewrite Hx in Hy; discriminate | reflexivity].
    + rewrite IH, <- app_assoc. simpl. do 2 f_equal.
      generalize (keepFirst l) as k. intros k.
      induction k as [|y k IHk]; simpl; [reflexivity|].
      rewrite setHas_app.
      destruct (x =? y)%string; simpl;
        destruct (setHas seen y); simpl; rewrite ?IHk; reflexivity.
Qed.

Lemma arrayFromSet_keepFirst l : arrayFromSet l = keepFirst l.
Proof.
  unfold arrayFromSet. rewrite fold_setAdd. simpl.
  apply filter_all. reflexivity.
Qed.

Lemma keepFirst_In l x : In x (keepFirst l) <-> In x l.
Proof.
  induction l as [|y l IH]; simpl; [tauto|].
  rewrite filter_In, IH. split.
  - intros [H|[H _]]; auto.
  - intros [H|H]; [auto|].
    destruct (String.eqb_spec y x); [auto | right; auto].
Qed.

Lemma keepFirst_idem l : keepFirst (keepFirst l) = keepFirst l.
Proof.
  induction l as [|x l IH]; simpl; [reflexivity|].
  rewrite keepFirst_filter, IH. f_equal.
  apply filter_absorb. auto.
Qed.

Lemma keepFirst_app l1 l2 :
  keepFirst (l1 ++ l2)
  = keepFirst l1 ++ List.filter (fun y => negb (setHas l1 y)) (keepFirst l2).
Proof.
  rewrite <- (arrayFromSet_keepFirst (l1 ++ l2)). unfold arrayFromSet.
  rewrite fold_left_app, !fold_setAdd. simpl.
  rewrite (filter_all _ (keepFirst l1)) by reflexivity.
  f_equal. apply filter_pointwise. intros y. f_equal.
  apply eq_true_iff_eq. rewrite !setHas_In. apply keepFirst_In.
Qed.

Lemma keepFirst_absorb l1 l2 :
  (forall y, In y l2 -> In y l1) -> keepFirst (keepFirst l1 ++ l2) = keepFirst l1.
Proof.
  intros H. rewrite keepFirst_app, keepFirst_idem.
  rewrite filter_none; [apply app_nil_r|].
  intros y Hy. apply keepFirst_In, H, keepFirst_In in Hy.
  apply setHas_In in Hy. rewrite Hy. reflexivity.
Qed.

Lemma filter_sublist (P : string -> bool) l : sublist (List.filter P l) l.
Proof.
  induction l as [|x l IH]; simpl; [constructor|].
  destruct (P x); [apply sublist_skip | apply sublist_cons]; exact IH.
Qed.

Lemma keepFirst_sublist l : sublist (keepFirst l) l.
Proof.
  induction l as [|x l IH]; simpl; [constructor|].
  apply sublist_skip. etransitivity; [apply filter_sublist | exact IH].
Qed.

Lemma filter_NoDup (P : string -> bool) l : NoDup l -> NoDup (List.filter P l).
Proof.
  intros H. eapply sublist_NoDup; [exact H | apply filter_sublist].
Qed.

Lemma keepFirst_NoDup l : NoDup (keepFirst l).
Proof.
  induction l as [|x l IH]; simpl; constructor.
  - rewrite list_elem_of_In, filter_In. intros [_ H].
    rewrite String.eqb_refl in H. discriminate.
  - apply filter_NoDup, IH.
Qed.

(** Whenever a profile gives rules, or the generic list has no repeats,
    [mergeSelectors] is the override-first merge without duplicates. *)
Lemma mergeSelectors_keepFirst base specific :
  specific <> [] \/ keepFirst base = base ->
  mergeSelectors base (Some specific) = keepFirst (specific ++ base).
Proof.
  intros H. unfold mergeSelectors. destruct specific as [|x sp].
  - destruct H as [H|H]; [congruence | symmetry; exact H].
  - exact (arrayFromSet_keepFirst ((x :: sp) ++ base)).
Qed.

Lemma generic_rules_distinct c :
  keepFirst (rules c BASE_SELECTORS) = rules c BASE_SELECTORS.
Proof. destruct c; vm_compute; reflexivity. Qed.

Lemma resolved_rules profile c :
  rules c (resolveSelectorStrategy profile)
  = keepFirst (overrides c (selectors profile) ++ rules c BASE_SELECTORS).
Proof.
  unfold overrides.
  destruct c; simpl;
    match goal with
    | |- mergeSelectors ?b ?o = _ =>
        destruct o as [sp|]; simpl;
        [ apply mergeSelectors_keepFirst; right
        | symmetry ]
    end;
    first [ apply (generic_rules_distinct CatInput)
          | apply (generic_rules_distinct CatStop)
          | apply (generic_rules_distinct CatSend)
          | apply (generic_rules_distinct CatAssistant)
          | apply (generic_rules_distinct CatModelLabel)
          | apply (generic_rules_distinct CatDomHints) ].
Qed.

End MergeFacts.

(** C4. For every profile and every category, the resolved rule list is the
    profile's override rules in their authored order followed by the generic
    rules, every rule kept at its first occurrence only; overrides [a,b] over
    generic [b,c,a] give [a,b,c]; merging the resolved list over the generic
    list once more changes nothing, and the resolved list is a subsequence of
    overrides-then-generic with the same rules and no repeat. *)
Theorem merge_override_first_without_duplicates :
  (forall profile c,
      rules c (resolveSelectorStrategy profile)
      = keepFirst (overrides c (selectors profile) ++ rules c BASE_SELECTORS))
  /\ mergeSelectors ["b"; "c"; "a"] (Some ["a"; "b"]) = ["a"; "b"; "c"]
  /\ (forall profile c,
         mergeSelectors (rules c BASE_SELECTORS)
                        (Some (rules c (resolveSelectorStrategy profile)))
         = rules c (resolveSelectorStrategy profile))
  /\ (forall profile c,
         sublist (rules c (resolveSelectorStrategy profile))
                 (overrides c (selectors profile) ++ rules c BASE_SELECTORS)
         /\ NoDup (rules c (resolveSelectorStrategy profile))
         /\ forall x, In x (rules c (resolveSelectorStrategy profile))
                      <-> In x (overrides c (selectors profile) ++ rules c BASE_SELECTORS)).
Proof.
  split; [exact resolved_rules|].
  split; [vm_compute; reflexivity|].
  split.
  - intros profile c.
    rewrite mergeSelectors_keepFirst by (right; apply generic_rules_distinct).
    rewrite resolved_rules. apply keepFirst_absorb.
    intros y Hy. apply in_or_app. right. exact Hy.
  - intros profile c. rewrite resolved_rules.
    split; [apply keepFirst_sublist|].
    split; [apply keepFirst_NoDup|].
    intros x. apply keepFirst_In.
Qed.


(** ** Waiting on the page *)

Section PollFacts.

Variables (doc : nat -> result Document) (cond : Document -> result bool)
          (thrown : string -> string) (expired : string).

Lemma poll_time rounds : forall t, (t < snd (poll doc cond thrown expired rounds t))%nat.
Proof.
  induction rounds as [|r IH]; intros t; simpl;
    destruct (doc t) as [d|e]; simpl; try lia;
    destruct (cond d) as [[|]|e]; simpl; try lia.
  specialize (IH (S t)). lia.
Qed.

(** A wait whose condition never answers true does not end well. *)
Lemma poll_fails rounds :
  (forall d, cond d <> Ok true) ->
  forall t, exists e, fst (poll doc cond thrown expired rounds t) = Err e.
Proof.
  intros Hnever. induction rounds as [|r IH]; intros t; simpl;
    destruct (doc t) as [d|e]; simpl; eauto;
    specialize (Hnever d); destruct (cond d) as [[|]|e]; simpl; eauto; congruence.
Qed.

(** A wait whose condition throws on the first DOM ends there. *)
Lemma poll_thrown rounds t d e :
  doc t = Ok d -> cond d = Err e ->
  poll doc cond thrown expired rounds t = (Err (thrown e), S t).
Proof. intros Hd He. destruct rounds; simpl; rewrite Hd, He; reflexivity. Qed.

(** A wait whose condition is false on every DOM it sees uses up its
    rounds and expires. *)
Lemma poll_expired rounds : forall t,
  (forall j, (t <= j <= t + rounds)%nat -> exists d, doc j = Ok d /\ cond d = Ok false) ->
  poll doc cond thrown expired rounds t = (Err expired, S (t + rounds)).
Proof.
  induction rounds as [|r IH]; intros t H; simpl.
  - destruct (H t ltac:(lia)) as (d & -> & ->). rewrite Nat.add_0_r. reflexivity.
  - destruct (H t ltac:(lia)) as (d & -> & ->).
    rewrite IH by (intros j Hj; apply H; lia).
    f_equal. lia.
Qed.

End PollFacts.

Lemma existsb_false_iff {A} (f : A -> bool) l :
  existsb f l = false <-> forall x, In x l -> f x = false.
Proof.
  induction l as [|y l IH]; simpl.
  - split; [intros _ x [] | reflexivity].
  - rewrite orb_false_iff, IH. split.
    + intros [Hy Hl] x [<-|Hx]; auto.
    + intros H. split; [apply H; auto | intros x Hx; apply H; auto].
Qed.

(** [isVisible]: the first match of the rule has a computed style, is
    neither undisplayed nor hidden, and has an offset parent. *)
Lemma isVisible_iff d selector :
  isVisible d selector = true
  <-> exists el style,
        querySelector d selector = Some el
        /\ computedStyle el = Some style
        /\ display style <> "none"
        /\ visibility style <> "hidden"
        /\ offsetParent el = true.
Proof.
  unfold isVisible. split.
  - destruct (querySelector d selector) as [el|]; [|discriminate].
    destruct (computedStyle el) as [style|] eqn:Hs; [|discriminate].
    destruct (String.eqb_spec (display style) "none") as [|Hd]; [discriminate|].
    destruct (String.eqb_spec (visibility style) "hidden") as [|Hv]; [discriminate|].
    simpl. intros Ho. exists el, style. repeat split; assumption.
  - intros (el & style & -> & -> & Hd & Hv & Ho).
    apply String.eqb_neq in Hd, Hv. rewrite Hd, Hv. exact Ho.
Qed.

(** The function of [waitForCompletion] when it is handed both lists. *)
Lemma responseFinished_iff stopSelectors sendSelectors d :
  responseFinished stopSelectors (Some sendSelectors) d = Ok true
  <-> (forall s, In s stopSelectors -> isVisible d s = false)
      /\ ((exists s, In s sendSelectors /\ isVisible d s = true)
          \/ (forall s, In s sendSelectors -> querySelectorAll d s = [])).
Proof.
  unfold responseFinished.
  assert (Hq : forall s, found (querySelector d s) = false <-> querySelectorAll d s = []).
  { intros s. unfold querySelector. destruct (querySelectorAll d s); simpl; split; congruence. }
  split.
  - intros [= H]. revert H.
    rewrite andb_true_iff, negb_true_iff, orb_true_iff, negb_true_iff.
    rewrite !existsb_false_iff, existsb_exists.
    intros [H1 H2]. split; [exact H1|].
    destruct H2 as [H2|H2]; [left; exact H2 | right; intros s Hs; apply Hq, H2, Hs].
  - intros [H1 H2]. f_equal.
    rewrite andb_true_iff, negb_true_iff, orb_true_iff, negb_true_iff.
    rewrite !existsb_false_iff, existsb_exists.
    split; [exact H1|].
    destruct H2 as [H2|H2]; [left; exact H2 | right; intros s Hs; apply Hq, H2, Hs].
Qed.

Lemma waitForFunction_fails {A B} world page
    (pageFunction : A -> option B -> Document -> result bool) arg options surplus s :
  (forall d, pageFunction arg None d <> Ok true) ->
  exists e, fst (waitForFunction world page pageFunction arg options surplus s) = Err e.
Proof.
  intros Hnever. unfold waitForFunction.
  destruct (poll_fails (document page) (pageFunction arg None) (thrownInPage world)
              (timeoutMessage world (default LIBRARY_TIMEOUT_MS (timeoutOf options)))
              (pollingRounds world (default LIBRARY_TIMEOUT_MS (timeoutOf options)))
              Hnever (clock s)) as [e He].
  destruct (poll _ _ _ _ _ _) as [r t]. simpl in *. eauto.
Qed.

(** C6, as the code runs.  [waitForCompletion] hands the stop rules and the
    send rules to [page.waitForFunction] as two arguments, and the library
    passes on only the first: the page function finds its list of send rules
    undefined and throws.  So the second phase never concludes: the wait
    never ends well, and on every DOM that can be read, also one in which no
    stop rule and no send rule match anything, it rejects at its first round
    with the diagnostic of that [TypeError].  The page function itself, were
    it handed both lists, would answer true exactly when no stop rule finds a
    visible element and either some send rule finds a visible element or no
    send rule matches anything. *)
Theorem completion_never_concludes :
  forall (world : World) (page : Page) (timeoutMs : Z)
         (stopSelectors sendSelectors : list string) (s : BridgeState),
    (exists e, fst (waitForCompletion world page timeoutMs stopSelectors sendSelectors s)
               = Err e)
    /\ (forall d,
          document page (clock s) = Ok d ->
          waitForCompletion world page timeoutMs stopSelectors sendSelectors s
          = (Err (thrownInPage world
                    "TypeError: Cannot read properties of undefined (reading 'some')"),
             {| clock := S (clock s); stream := stream s; calls := calls s |}))
    /\ (forall d,
          let visible selector :=
            exists el style,
              querySelector d selector = Some el
              /\ computedStyle el = Some style
              /\ display style <> "none"
              /\ visibility style <> "hidden"
              /\ offsetParent el = true in
          responseFinished stopSelectors (Some sendSelectors) d = Ok true
          <-> (forall sel, In sel stopSelectors -> ~ visible sel)
              /\ ((exists sel, In sel sendSelectors /\ visible sel)
                  \/ (forall sel, In sel sendSelectors -> querySelectorAll d sel = []))).
Proof.
  intros world page timeoutMs stopSelectors sendSelectors s. split; [|split].
  - apply waitForFunction_fails. intros d. discriminate.
  - intros d Hd. unfold waitForCompletion, waitForFunction.
    rewrite (poll_thrown _ _ _ _ _ _ d _ Hd eq_refl). reflexivity.
  - intros d visible. rewrite responseFinished_iff.
    assert (Hv : forall sel, isVisible d sel = true <-> visible sel)
      by (intros sel; apply isVisible_iff).
    split; intros [H1 H2]; split.
    + intros sel Hsel Hvis. apply Hv in Hvis. rewrite (H1 sel Hsel) in Hvis. discriminate.
    + destruct H2 as [(sel & Hsel & Hvis)|H2]; [left|right; exact H2].
      exists sel. split; [exact Hsel | apply Hv, Hvis].
    + intros sel Hsel. destruct (isVisible d sel) eqn:E; [|reflexivity].
      exfalso. apply (H1 sel Hsel), Hv, E.
    + destruct H2 as [(sel & Hsel & Hvis)|H2]; [left|right; exact H2].
      exists sel. split; [exact Hsel | apply Hv, Hvis].
Qed.

(** A DOM with neither stop nor send control: the wait rejects at once. *)
Lemma completion_never_concludes_witness :
  waitForCompletion Scenario.chatWorld
    (Scenario.pageOf "https://example.org/" true 0 Scenario.bare Scenario.bare) 120000
    (stop BASE_SELECTORS) (send BASE_SELECTORS) initialState
  = (Err "page.waitForFunction: TypeError: Cannot read properties of undefined (reading 'some')",
     {| clock := 1; stream := stream initialState; calls := calls initialState |}).
Proof.
  apply (proj1 (proj2 (completion_never_concludes Scenario.chatWorld
                         (Scenario.pageOf "https://example.org/" true 0
                            Scenario.bare Scenario.bare)
                         120000 (stop BASE_SELECTORS) (send BASE_SELECTORS) initialState))
           Scenario.bare).
  reflexivity.
Defined.

(** ** Reading the reply *)

Lemma latestText_rev els : latestText (rev els) = lastNonBlank els.
Proof.
  unfold lastNonBlank.
  induction els as [|el els IH] using rev_ind; [reflexivity|].
  rewrite rev_app_distr, omap_app. simpl.
  unfold nonBlankText. destruct (textContent el) as [t|]; simpl.
  - destruct (truthy (trim t)); simpl.
    + rewrite last_snoc. reflexivity.
    + rewrite app_nil_r. exact IH.
  - rewrite app_nil_r. exact IH.
Qed.

Lemma extractText_find d selectors :
  extractText d selectors
  = match find (fun sel => found (lastNonBlank (querySelectorAll d sel))) selectors with
    | Some sel => default EmptyString (lastNonBlank (querySelectorAll d sel))
    | None => EmptyString
    end.
Proof.
  induction selectors as [|sel rest IH]; simpl; [reflexivity|].
  rewrite latestText_rev.
  destruct (lastNonBlank (querySelectorAll d sel)) as [t|] eqn:E; simpl;
    [rewrite E; reflexivity | exact IH].
Qed.

Lemma nonBlankText_truthy el t : nonBlankText el = Some t -> truthy t = true.
Proof.
  unfold nonBlankText. destruct (textContent el) as [raw|]; [|discriminate].
  destruct (truthy (trim raw)) eqn:H; [|discriminate]. intros [= <-]. exact H.
Qed.

Lemma lastNonBlank_truthy els t : lastNonBlank els = Some t -> truthy t = true.
Proof.
  unfold lastNonBlank. intros H.
  apply last_Some_elem_of, list_elem_of_omap in H.
  destruct H as (el & _ & H). eapply nonBlankText_truthy, H.
Qed.

(** C7, as it holds: the response rules are tried in declared order; the
    first rule matching an element with non-blank text decides, and the
    trimmed text of the last such element is returned; when no rule has one
    the extraction is empty and the reading fails with the empty-response
    diagnostic; with two matches "first reply" and "second reply" the result
    is "second reply". *)
Theorem extraction_takes_last_non_blank :
  forall (d : Document) (selectors : list string),
    extractText d selectors
    = match find (fun sel => found (lastNonBlank (querySelectorAll d sel))) selectors with
      | Some sel => default EmptyString (lastNonBlank (querySelectorAll d sel))
      | None => EmptyString
      end
    /\ (forall page s,
          document page (clock s) = Ok d ->
          fst (readReply page selectors s)
          = match find (fun sel => found (lastNonBlank (querySelectorAll d sel))) selectors with
            | Some sel => Ok (default EmptyString (lastNonBlank (querySelectorAll d sel)))
            | None => Err "Browser universal: no assistant response found."
            end)
    /\ (forall sel a b,
          querySelectorAll d sel = [a; b] ->
          textContent a = Some "first reply" ->
          textContent b = Some "second reply" ->
          extractText d [sel] = "second reply").
Proof.
  intros d selectors. split; [apply extractText_find|]. split.
  - intros page s Hd.
    unfold readReply, extractLatestAssistantText, evaluate, bind, await.
    rewrite Hd. simpl. rewrite extractText_find.
    destruct (find _ selectors) as [sel|] eqn:Hf; [|reflexivity].
    apply find_some in Hf. destruct Hf as [_ Hf].
    destruct (lastNonBlank (querySelectorAll d sel)) as [t|] eqn:Ht; [|discriminate].
    simpl. rewrite (lastNonBlank_truthy _ _ Ht). reflexivity.
  - intros sel a b Hq Ha Hb. simpl. rewrite Hq. simpl.
    unfold trimmedText. rewrite Hb. reflexivity.
Qed.

Lemma extraction_takes_last_non_blank_witness :
  extractText Scenario.twoReplies [".markdown"] = "second reply".
Proof.
  apply (proj2 (proj2 (extraction_takes_last_non_blank Scenario.twoReplies [".markdown"]))
           ".markdown" (Scenario.shown "first reply") (Scenario.shown "second reply"));
    reflexivity.
Defined.

(** The first response rule matches two elements and the last of them is
    blank: the text returned is the one of the earlier element, not the
    trimmed text of the last matching element. *)
Lemma extraction_returns_earlier_element :
  querySelectorAll Scenario.blankTail ".markdown"
  = [Scenario.shown "first reply"; Scenario.shown "   "]
  /\ trimmedText (last (querySelectorAll Scenario.blankTail ".markdown")) = Some EmptyString
  /\ extractText Scenario.blankTail [".markdown"; ".prose"] = "first reply".
Proof. repeat split. Qed.

(** ** Configuration *)

(** C8, as it holds: the endpoint is the call-time option, else the
    environment variable, else http://127.0.0.1:9222; the URL pattern is the
    call-time option, else the environment variable when it is non-blank and
    compiles, else the default pattern; the timeout is the call-time option,
    else 120000 ms, whatever the environment holds. *)
Theorem configuration_precedence :
  forall (world : World) (options : BrowserUniversalOptions) (env : gmap string string),
    let self := newProvider world options env in
    (forall u, opt_cdpUrl options = Some u -> cdpUrl self = u)
    /\ (forall v, opt_cdpUrl options = None ->
                  env !! "OPENCLAW_BROWSER_UNIVERSAL_CDP_URL" = Some v -> cdpUrl self = v)
    /\ (opt_cdpUrl options = None ->
        env !! "OPENCLAW_BROWSER_UNIVERSAL_CDP_URL" = None ->
        cdpUrl self = "http://127.0.0.1:9222")
    /\ (forall r, opt_urlRegex options = Some r -> urlRegex self = r)
    /\ (forall raw r, opt_urlRegex options = None ->
                      env !! "OPENCLAW_BROWSER_UNIVERSAL_URL_REGEX" = Some raw ->
                      truthy (trim raw) = true ->
                      compileRegExp world (trim raw) = Some r ->
                      urlRegex self = r)
    /\ (forall raw, opt_urlRegex options = None ->
                    env !! "OPENCLAW_BROWSER_UNIVERSAL_URL_REGEX" = Some raw ->
                    truthy (trim raw) = false \/ compileRegExp world (trim raw) = None ->
                    urlRegex self = DEFAULT_URL_REGEX)
    /\ (opt_urlRegex options = None ->
        env !! "OPENCLAW_BROWSER_UNIVERSAL_URL_REGEX" = None ->
        urlRegex self = DEFAULT_URL_REGEX)
    /\ (forall t, opt_timeoutMs options = Some t -> timeoutMs self = t)
    /\ (opt_timeoutMs options = None -> timeoutMs self = 120000)
    /\ (forall env', timeoutMs (newProvider world options env') = timeoutMs self).
Proof.
  intros world options env self. subst self. unfold newProvider, resolveEnvRegex. simpl.
  repeat split.
  - intros u ->. reflexivity.
  - intros v -> ->. reflexivity.
  - intros -> ->. reflexivity.
  - intros r ->. reflexivity.
  - intros raw r -> -> Ht Hc. simpl. rewrite Ht, Hc. reflexivity.
  - intros raw -> -> [Ht|Hc]; simpl.
    + rewrite Ht. reflexivity.
    + destruct (truthy (trim raw)); simpl; [rewrite Hc|]; reflexivity.
  - intros -> ->. reflexivity.
  - intros t ->. reflexivity.
  - intros ->. reflexivity.
Qed.

(** An environment pattern that does not compile leaves the default. *)
Lemma configuration_precedence_witness :
  urlRegex (newProvider Scenario.chatWorld noOptions
              (<["OPENCLAW_BROWSER_UNIVERSAL_URL_REGEX" := "(unclosed"]> ∅))
  = DEFAULT_URL_REGEX.
Proof.
  apply (proj1 (proj2 (proj2 (proj2 (proj2 (proj2
           (configuration_precedence Scenario.chatWorld noOptions
              (<["OPENCLAW_BROWSER_UNIVERSAL_URL_REGEX" := "(unclosed"]> ∅))))))) "(unclosed").
  - reflexivity.
  - reflexivity.
  - right. reflexivity.
Defined.

(** With no call-time option the timeout is the default under every
    environment, also one that names a timeout. *)
Lemma timeout_has_no_environment_override :
  timeoutMs (newProvider Scenario.chatWorld noOptions
               (<["OPENCLAW_BROWSER_UNIVERSAL_TIMEOUT_MS" := "5000"]> ∅)) = 120000
  /\ ~ (exists env, timeoutMs (newProvider Scenario.chatWorld noOptions env) <> 120000).
Proof.
  split; [reflexivity|]. intros [env H]. apply H. reflexivity.
Qed.

(** ** What the parts of an invocation may touch *)

Lemma touched_refl allowed s : touched allowed s s.
Proof.
  split; [reflexivity|]. split; [lia|].
  exists []. split; [symmetry; apply app_nil_r | constructor].
Qed.

Lemma touched_tick allowed s :
  touched allowed s {| clock := S (clock s); stream := stream s; calls := calls s |}.
Proof.
  split; [reflexivity|]. split; [simpl; lia|].
  exists []. split; [symmetry; apply app_nil_r | constructor].
Qed.

Lemma touched_trans allowed s1 s2 s3 :
  touched allowed s1 s2 -> touched allowed s2 s3 -> touched allowed s1 s3.
Proof.
  intros (Hs1 & Hc1 & l1 & Hl1 & Hf1) (Hs2 & Hc2 & l2 & Hl2 & Hf2).
  split; [congruence|]. split; [lia|].
  exists (l1 ++ l2). split; [rewrite Hl2, Hl1, app_assoc; reflexivity|].
  apply Forall_app. split.
  - eapply Forall_impl; [exact Hf1|]. simpl. intros c [? ?]. split; [assumption | lia].
  - eapply Forall_impl; [exact Hf2|]. simpl. intros c [? ?]. split; [assumption | lia].
Qed.

Section OutsideFacts.

Context {A B : Type}.
Variable allowed : Call -> bool.

Lemma outside_ret (a : A) : outside allowed (ret a).
Proof. intros s. apply touched_refl. Qed.

Lemma outside_throw message : outside allowed (@throw A message).
Proof. intros s. apply touched_refl. Qed.

Lemma outside_await (answer : nat -> result A) : outside allowed (await answer).
Proof. intros s. apply touched_tick. Qed.

Lemma outside_perform (c : nat -> Call) (answer : nat -> result A) :
  (forall t, allowed (c t) = true /\ call_time (c t) = t) ->
  outside allowed (perform c answer).
Proof.
  intros Hc s. simpl. split; [reflexivity|]. split; [simpl; lia|].
  exists [c (clock s)]. split; [reflexivity|].
  constructor; [|constructor]. destruct (Hc (clock s)) as [-> ->].
  split; [reflexivity | simpl; lia].
Qed.

Lemma outside_bind (m : M A) (k : A -> M B) :
  outside allowed m -> (forall a, outside allowed (k a)) -> outside allowed (bind m k).
Proof.
  intros Hm Hk s. unfold bind. specialize (Hm s).
  destruct (m s) as [[a|e] s1] eqn:E; simpl in *.
  - eapply touched_trans; [exact Hm | apply Hk].
  - exact Hm.
Qed.

Lemma outside_try_catch (m : M A) (h : string -> M A) :
  outside allowed m -> (forall e, outside allowed (h e)) -> outside allowed (try_catch m h).
Proof.
  intros Hm Hh s. unfold try_catch. specialize (Hm s).
  destruct (m s) as [[a|e] s1] eqn:E; simpl in *.
  - exact Hm.
  - eapply touched_trans; [exact Hm | apply Hh].
Qed.

End OutsideFacts.

Lemma outside_evaluate {A} allowed page (f : Document -> A) : outside allowed (evaluate page f).
Proof. apply outside_await. Qed.

Lemma outside_waitForFunction {A B} allowed world page
    (pageFunction : A -> option B -> Document -> result bool) arg options surplus :
  outside allowed (waitForFunction world page pageFunction arg options surplus).
Proof.
  intros s. unfold waitForFunction.
  pose proof (poll_time (document page) (pageFunction arg None) (thrownInPage world)
                (timeoutMessage world (default LIBRARY_TIMEOUT_MS (timeoutOf options)))
                (pollingRounds world (default LIBRARY_TIMEOUT_MS (timeoutOf options)))
                (clock s)) as Ht.
  destruct (poll _ _ _ _ _ _) as [r t]. simpl in *.
  split; [reflexivity|]. split; [simpl; lia|].
  exists []. split; [symmetry; apply app_nil_r | constructor].
Qed.

Lemma outside_weaken {A} (allowed allowed' : Call -> bool) (m : M A) :
  (forall c, allowed c = true -> allowed' c = true) ->
  outside allowed m -> outside allowed' m.
Proof.
  intros Hw Hm s. destruct (Hm s) as (Hs & Hc & l & Hl & Hf).
  split; [exact Hs|]. split; [exact Hc|]. exists l. split; [exact Hl|].
  eapply Forall_impl; [exact Hf|]. simpl. intros c [? ?]. split; [apply Hw; assumption | assumption].
Qed.


Ltac outside_step :=
  match goal with
  | |- outside _ (bind _ _) => apply outside_bind; [|intros ?]
  | |- outside _ (try_catch _ _) => apply outside_try_catch; [|intros ?]
  | |- outside _ (ret _) => apply outside_ret
  | |- outside _ (throw _) => apply outside_throw
  | |- outside _ (await _) => apply outside_await
  | |- outside _ (evaluate _ _) => apply outside_evaluate
  | |- outside _ (perform _ _) => apply outside_perform; intros ?; split; reflexivity
  | |- outside _ (waitForFunction _ _ _ _ _ _) => apply outside_waitForFunction
  | |- outside _ (if ?b then _ else _) => destruct b
  | |- outside _ (match ?x with _ => _ end) => destruct x
  end.

Lemma outside_resolveFocusedPage allowed pages : outside allowed (resolveFocusedPage pages).
Proof.
  induction pages as [|page rest IH]; simpl; [apply outside_ret|].
  destruct (isClosed page); [exact IH|].
  repeat outside_step. exact IH.
Qed.

Lemma outside_resolveInputLocator allowed page selectors :
  outside allowed (resolveInputLocator page selectors).
Proof.
  induction selectors as [|selector rest IH]; simpl; [apply outside_throw|].
  repeat outside_step. exact IH.
Qed.

Lemma outside_matchesDomHints allowed page selectors :
  outside allowed (matchesDomHints page selectors).
Proof. unfold matchesDomHints. repeat outside_step. Qed.

Lemma outside_firstFingerprint allowed page profiles :
  outside allowed (firstFingerprint page profiles).
Proof.
  induction profiles as [|profile rest IH]; simpl; [apply outside_ret|].
  apply outside_bind; [apply outside_matchesDomHints|].
  intros hit. destruct hit; [apply outside_ret | exact IH].
Qed.

Lemma outside_detectPlatform allowed page urlRegex :
  outside allowed (detectPlatform page urlRegex).
Proof.
  unfold detectPlatform.
  apply outside_bind; [repeat outside_step|]. intros title.
  apply outside_bind; [apply outside_firstFingerprint|]. intros byCandidate.
  destruct byCandidate; [apply outside_ret|].
  apply outside_bind; [apply outside_firstFingerprint|]. intros byAny.
  repeat outside_step.
Qed.

Lemma outside_readReply allowed page selectors : outside allowed (readReply page selectors).
Proof. unfold readReply, extractLatestAssistantText. repeat outside_step. Qed.

(** The injection and the two waits, as they follow the reading of the
    model label in [scrapeReply]. *)
Lemma outside_injection world page strategy prompt timeoutMs (label : option string) :
  outside is_page_call
    (let* initialCount := countAssistantBlocks page (assistant strategy) in
     let* input := resolveInputLocator page (input strategy) in
     run perform (fun t => call_click t input timeoutMs)
                 (fun t => loc_click page t input timeoutMs) in
     let* isTextArea := await (fun t => loc_isTextArea page t input) in
     run (if isTextArea : bool
          then perform (fun t => call_fill t input prompt)
                       (fun t => loc_fill page t input prompt)
          else
            run perform (fun t => call_fill t input EmptyString)
                        (fun t => loc_fill page t input EmptyString) in
            perform (fun t => call_type t input prompt 5)
                    (fun t => loc_type page t input prompt)) in
     run perform (fun t => call_press t input "Enter")
                 (fun t => loc_press page t input "Enter") in
     run waitForFunction world page responseStarted (assistant strategy)
                         (v_number initialCount) (v_options timeoutMs) in
     run waitForCompletion world page timeoutMs (stop strategy) (send strategy) in
     let* responseText := readReply page (assistant strategy) in
     ret (responseText, label)).
Proof.
  unfold countAssistantBlocks, waitForCompletion.
  apply outside_bind; [apply outside_evaluate|]. intros initialCount.
  apply outside_bind; [apply outside_resolveInputLocator|]. intros input.
  apply outside_bind; [outside_step|]. intros _.
  apply outside_bind; [outside_step|]. intros isTextArea.
  apply outside_bind; [destruct isTextArea; repeat outside_step|]. intros _.
  apply outside_bind; [outside_step|]. intros _.
  apply outside_bind; [outside_step|]. intros _.
  apply outside_bind; [outside_step|]. intros _.
  apply outside_bind; [apply outside_readReply|]. intros responseText.
  apply outside_ret.
Qed.

Lemma outside_scrapeReply world self browser prompt :
  outside is_page_call (scrapeReply world self browser prompt).
Proof.
  unfold scrapeReply.
  destruct (length (concat (contexts browser)) =? 0)%nat; [apply outside_throw|].
  apply outside_bind; [apply outside_resolveFocusedPage|]. intros focusedPage.
  destruct (match match focusedPage with
                  | Some p => Some p
                  | None => resolvePageByRegex (concat (contexts browser)) (urlRegex self)
                  end with
            | Some p => Some p
            | None => head (concat (contexts browser))
            end) as [page|]; [|apply outside_throw].
  apply outside_bind; [apply outside_detectPlatform|]. intros profile.
  apply outside_bind; [apply outside_evaluate|]. intros label.
  apply outside_injection.
Qed.

(** ** The ways an invocation can go

    One lemma for each way out of [runBridge].  The last one says what the
    rest of the inner block does with a scraped text; [scrapeReply_fails]
    below shows that the block never gets that far. *)

Section Outcomes.

Variables (world : World) (self : BrowserUniversalProvider) (model : Model)
          (context : Context) (options : option StreamOptions).

Let prompt := extractLatestUserPrompt context.

Lemma throwIfAborted_cancelled s :
  throwIfAborted (options ≫= signal) s
  = (if cancelled options then Err "Browser universal run aborted" else Ok tt, s).
Proof.
  unfold throwIfAborted, cancelled.
  destruct (options ≫= signal) as [sg|]; [destruct (aborted sg)|]; reflexivity.
Qed.

Lemma outcome_empty_prompt :
  truthy prompt = false ->
  runStream world self model context options
  = (Ok tt,
     {| clock := 0;
        stream := finished
                    [ev_error stop_reason_error
                       (errorMessage world model "Browser universal: empty prompt." 0)]
                    (errorMessage world model "Browser universal: empty prompt." 0);
        calls := [] |}).
Proof.
  intros H. unfold runStream, runBridge. fold prompt. rewrite H. reflexivity.
Qed.

Lemma outcome_cancelled :
  truthy prompt = true ->
  cancelled options = true ->
  runStream world self model context options
  = (Ok tt,
     {| clock := 0;
        stream := finished
                    [ev_error stop_reason_error
                       (errorMessage world model
                          "Browser universal error: Browser universal run aborted" 0)]
                    (errorMessage world model
                       "Browser universal error: Browser universal run aborted" 0);
        calls := [] |}).
Proof.
  intros H Hc. unfold runStream, runBridge, bridgeAttempt, try_catch, bind.
  fold prompt. rewrite H. simpl.
  rewrite throwIfAborted_cancelled, Hc. reflexivity.
Qed.

Lemma outcome_connect_failed e :
  truthy prompt = true ->
  cancelled options = false ->
  connectOverCDP world 0 (cdpUrl self) = Err e ->
  runStream world self model context options
  = (Ok tt,
     {| clock := 1;
        stream := finished
                    [ev_error stop_reason_error
                       (errorMessage world model ("Browser universal error: " +:+ e) 1)]
                    (errorMessage world model ("Browser universal error: " +:+ e) 1);
        calls := [call_connect 0 (cdpUrl self)] |}).
Proof.
  intros H Hc He. unfold runStream, runBridge, bridgeAttempt, try_catch, bind.
  fold prompt. rewrite H. simpl.
  rewrite throwIfAborted_cancelled, Hc. simpl. rewrite He. reflexivity.
Qed.

Lemma outcome_scrape_failed browser e s2 :
  truthy prompt = true ->
  cancelled options = false ->
  connectOverCDP world 0 (cdpUrl self) = Ok browser ->
  scrapeReply world self browser prompt (connected self) = (Err e, s2) ->
  runStream world self model context options
  = (Ok tt,
     {| clock := S (clock s2);
        stream := finished
                    [ev_error stop_reason_error
                       (errorMessage world model
                          ("Browser universal error: " +:+ afterRelease browser (clock s2) e)
                          (S (clock s2)))]
                    (errorMessage world model
                       ("Browser universal error: " +:+ afterRelease browser (clock s2) e)
                       (S (clock s2)));
        calls := calls s2 ++ [call_close (clock s2)] |}).
Proof.
  intros H Hc Hb Hs.
  pose proof (outside_scrapeReply world self browser prompt (connected self)) as Ht.
  rewrite Hs in Ht. destruct Ht as (Hstream & _). simpl in Hstream.
  unfold runStream, runBridge, bridgeAttempt, try_catch, try_finally, bind.
  fold prompt. rewrite H. simpl.
  rewrite throwIfAborted_cancelled, Hc. simpl. rewrite Hb.
  change {| clock := 1; stream := createAssistantMessageEventStream;
            calls := [call_connect 0 (cdpUrl self)] |} with (connected self).
  rewrite Hs. unfold afterRelease. simpl.
  destruct (close browser (clock s2)); simpl; rewrite Hstream; reflexivity.
Qed.

Lemma outcome_reply browser responseText label s2 :
  truthy prompt = true ->
  cancelled options = false ->
  connectOverCDP world 0 (cdpUrl self) = Ok browser ->
  scrapeReply world self browser prompt (connected self) = (Ok (responseText, label), s2) ->
  runStream world self model context options
  = (Ok tt,
     {| clock := S (clock s2);
        stream := finished
                    (replyEvents responseText
                       (replyMessage world model responseText label (clock s2)))
                    (replyMessage world model responseText label (clock s2));
        calls := calls s2 ++ [call_close (clock s2)] |}).
Proof.
  intros H Hc Hb Hs.
  pose proof (outside_scrapeReply world self browser prompt (connected self)) as Ht.
  rewrite Hs in Ht. destruct Ht as (Hstream & _). simpl in Hstream.
  unfold runStream, runBridge, bridgeAttempt, try_catch, try_finally, bind.
  fold prompt. rewrite H. simpl.
  rewrite throwIfAborted_cancelled, Hc. simpl. rewrite Hb.
  change {| clock := 1; stream := createAssistantMessageEventStream;
            calls := [call_connect 0 (cdpUrl self)] |} with (connected self).
  rewrite Hs. simpl.
  destruct (close browser (clock s2)); simpl; rewrite Hstream; reflexivity.
Qed.

End Outcomes.

(** ** Trimming *)

Lemma trimEnd_idem s : trimEnd (trimEnd s) = trimEnd s.
Proof.
  induction s as [|c r IH]; simpl; [reflexivity|].
  destruct (trimEnd r) as [|c' r'] eqn:E.
  - destruct (isWhiteSpace c) eqn:W; simpl; [reflexivity|]. rewrite W. reflexivity.
  - simpl in IH |- *. rewrite IH. reflexivity.
Qed.

Lemma trimStart_head s : trimmedHead (trimStart s).
Proof.
  induction s as [|c r IH]; simpl; [exact I|].
  destruct (isWhiteSpace c) eqn:W; [exact IH | exact W].
Qed.

Lemma trimStart_fixed s : trimmedHead s -> trimStart s = s.
Proof. destruct s as [|c r]; simpl; [reflexivity|]. intros ->. reflexivity. Qed.

Lemma trimEnd_head s : trimmedHead s -> trimmedHead (trimEnd s).
Proof.
  destruct s as [|c r]; simpl; [intros H; exact H|]. intros W.
  destruct (trimEnd r); [rewrite W|]; exact W.
Qed.

Lemma trim_idem s : trim (trim s) = trim s.
Proof.
  unfold trim.
  rewrite (trimStart_fixed (trimEnd (trimStart s))) by apply trimEnd_head, trimStart_head.
  apply trimEnd_idem.
Qed.

(** ** The model label *)

Lemma trimmedText_nonBlank o :
  match trimmedText o with
  | Some text => if truthy text then Some text else None
  | None => None
  end = o ≫= nonBlankText.
Proof.
  destruct o as [el|]; [|reflexivity]. simpl. unfold nonBlankText.
  destruct (textContent el); reflexivity.
Qed.

Lemma labelText_find d selectors :
  labelText d selectors
  = match find (fun sel => found (querySelector d sel ≫= nonBlankText)) selectors with
    | Some sel => querySelector d sel ≫= nonBlankText
    | None => None
    end.
Proof.
  induction selectors as [|sel rest IH]; [reflexivity|].
  cbn [labelText find].
  pose proof (trimmedText_nonBlank (querySelector d sel)) as E.
  destruct (trimmedText (querySelector d sel)) as [text|].
  - destruct (truthy text); rewrite <- E; cbn [found]; [exact E | exact IH].
  - rewrite <- E. cbn [found]. exact IH.
Qed.

Lemma nonBlankText_trimmed el l : nonBlankText el = Some l -> truthy l = true /\ trim l = l.
Proof.
  unfold nonBlankText. destruct (textContent el) as [raw|]; [|discriminate].
  destruct (truthy (trim raw)) eqn:H; [|discriminate].
  intros [= <-]. split; [exact H | apply trim_idem].
Qed.

Lemma labelText_resolved model d selectors :
  resolvedModel model (labelText d selectors)
  = match labelText d selectors with Some l => l | None => model_id model end.
Proof.
  destruct (labelText d selectors) as [l|] eqn:E; [|reflexivity].
  rewrite labelText_find in E.
  destruct (find _ selectors) as [sel|]; [|discriminate].
  destruct (querySelector d sel) as [el|]; [|discriminate]. simpl in E.
  apply nonBlankText_trimmed in E. destruct E as [Ht Hl].
  unfold resolvedModel. rewrite Hl, Ht. reflexivity.
Qed.

(** ** The inner block never returns *)

Lemma bind_ok_inv {A B} (m : M A) (k : A -> M B) s b s' :
  bind m k s = (Ok b, s') -> exists a s1, m s = (Ok a, s1) /\ k a s1 = (Ok b, s').
Proof.
  unfold bind. destruct (m s) as [[a|e] s1]; [eauto | discriminate].
Qed.

(** The page function of the first wait, as the library calls it. *)
Lemma responseStarted_undefined selectors d : responseStarted selectors None d = Ok false.
Proof.
  unfold responseStarted. f_equal.
  induction selectors as [|sel rest IH]; [reflexivity | exact IH].
Qed.

(** The inner [try] block always throws: its first wait cannot end well. *)
Lemma scrapeReply_fails world self browser prompt s :
  exists thrown, fst (scrapeReply world self browser prompt s) = Err thrown.
Proof.
  destruct (scrapeReply world self browser prompt s) as [[r|thrown] s'] eqn:H;
    [exfalso | eauto].
  unfold scrapeReply in H.
  destruct (length (concat (contexts browser)) =? 0)%nat; [discriminate|].
  apply bind_ok_inv in H. destruct H as (focusedPage & s1 & _ & H).
  destruct (match match focusedPage with
                  | Some p => Some p
                  | None => resolvePageByRegex (concat (contexts browser)) (urlRegex self)
                  end with
            | Some p => Some p
            | None => head (concat (contexts browser))
            end) as [page|]; [|discriminate].
  do 8 (apply bind_ok_inv in H; destruct H as (? & ? & _ & H)).
  apply bind_ok_inv in H. destruct H as (? & ? & Hwait & _).
  match type of Hwait with
  | waitForFunction ?w ?pg ?f ?a ?o ?x ?st = _ =>
      destruct (waitForFunction_fails w pg f a o x st) as [e He];
        [intros d; rewrite responseStarted_undefined; discriminate|]
  end.
  rewrite Hwait in He. discriminate.
Qed.

(** Every invocation ends with a single error event built from the
    configured model. *)
Lemma runStream_error world self model context options :
  exists text t final,
    stream final = finished [ev_error stop_reason_error (errorMessage world model text t)]
                            (errorMessage world model text t)
    /\ runStream world self model context options = (Ok tt, final).
Proof.
  destruct (truthy (extractLatestUserPrompt context)) eqn:Hp.
  2: { do 3 eexists. split; [|apply outcome_empty_prompt, Hp]. reflexivity. }
  destruct (cancelled options) eqn:Hc.
  { do 3 eexists. split; [|apply outcome_cancelled; assumption]. reflexivity. }
  destruct (connectOverCDP world 0 (cdpUrl self)) as [browser|e] eqn:Hb.
  2: { do 3 eexists. split; [|eapply outcome_connect_failed; eassumption]. reflexivity. }
  destruct (scrapeReply world self browser (extractLatestUserPrompt context) (connected self))
    as [[r|thrown] s2] eqn:Hs.
  - destruct (scrapeReply_fails world self browser (extractLatestUserPrompt context)
                (connected self)) as [thrown Ht].
    rewrite Hs in Ht. discriminate.
  - do 3 eexists. split; [|eapply outcome_scrape_failed; eassumption]. reflexivity.
Qed.

(** What the rest of the inner block does with a text. *)
Lemma emitReply_fresh world model responseText label s :
  stream s = createAssistantMessageEventStream ->
  stream (snd (emitReply world model responseText label s))
  = finished (replyEvents responseText (replyMessage world model responseText label (clock s)))
             (replyMessage world model responseText label (clock s)).
Proof. intros H. unfold emitReply, bind, push, endStream. simpl. rewrite H. reflexivity. Qed.

(** ** The reply as a stream *)

(** C1, as the code runs.  No invocation reaches a scraped reply text.  The
    first wait hands the rules and the count taken before submission to
    [page.waitForFunction] as two arguments; the library passes on only the
    rules, the page function compares every number of matches with an
    undefined count, and answers false on every DOM.  So the inner block
    always throws, and every invocation delivers exactly one error event and
    nothing else.  The statements that push the events of a reply are there
    all the same: run on a text with a fresh stream they deliver start,
    content-start, one content-delta with the whole text, content-end with
    the whole text and done with stop reason "stop", and close the stream. *)
Theorem reply_is_never_streamed :
  forall world self model context options,
    (forall browser prompt s,
        exists thrown, fst (scrapeReply world self browser prompt s) = Err thrown)
    /\ (exists error,
          am_stopReason error = stop_reason_error
          /\ fst (runStream world self model context options) = Ok tt
          /\ stream (snd (runStream world self model context options))
             = {| queue := [ev_error stop_reason_error error];
                  complete := true;
                  finalResult := Some error |})
    /\ (forall responseText label s,
          stream s = createAssistantMessageEventStream ->
          exists message,
            am_content message = [TextPart responseText]
            /\ am_stopReason message = stop_reason_stop
            /\ stream (snd (emitReply world model responseText label s))
               = {| queue := [ev_start message;
                              ev_text_start 0 message;
                              ev_text_delta 0 responseText message;
                              ev_text_end 0 responseText message;
                              ev_done stop_reason_stop message];
                    complete := true;
                    finalResult := Some message |}).
Proof.
  intros world self model context options. split; [|split].
  - intros browser prompt s. apply scrapeReply_fails.
  - destruct (runStream_error world self model context options)
      as (text & t & final & Hst & Hrun).
    exists (errorMessage world model text t).
    rewrite Hrun. simpl. rewrite Hst. repeat split.
  - intros responseText label s Hs.
    exists (replyMessage world model responseText label (clock s)).
    rewrite (emitReply_fresh world model responseText label s Hs). repeat split.
Qed.

(** A ChatGPT tab on which the reply "hi there" appears after the prompt
    was submitted: the invocation delivers the timeout of the first wait. *)
Lemma reply_is_never_streamed_witness :
  (exists error,
      am_stopReason error = stop_reason_error
      /\ fst (runStream Scenario.chatWorld Scenario.provider Scenario.model
                (Scenario.says "hello") None) = Ok tt
      /\ stream (snd (runStream Scenario.chatWorld Scenario.provider Scenario.model
                        (Scenario.says "hello") None))
         = {| queue := [ev_error stop_reason_error error];
              complete := true;
              finalResult := Some error |})
  /\ extractText Scenario.chatAfter (assistant BASE_SELECTORS) = "hi there"
  /\ map (fun e => am_content (eventMessage e))
         (queue (stream (snd (runStream Scenario.chatWorld Scenario.provider Scenario.model
                                (Scenario.says "hello") None))))
     = [[TextPart ("Browser universal error: "
                   +:+ "page.waitForFunction: Timeout 30000ms exceeded.")]].
Proof.
  split; [|split; reflexivity].
  exact (proj1 (proj2 (reply_is_never_streamed Scenario.chatWorld Scenario.provider
                         Scenario.model (Scenario.says "hello") None))).
Defined.

(** ** The empty prompt *)

Lemma scanPrompt_find backwards :
  scanPrompt backwards
  = match find (fun m => isUser m && negb (blankParts m)) backwards with
    | Some m => trim (turnText m)
    | None => EmptyString
    end.
Proof.
  induction backwards as [|[r c] earlier IH]; [reflexivity|].
  cbn [scanPrompt find]. unfold blankParts, blankTurn, turnText, isUser. cbn [role content].
  destruct r; cbn [negb andb]; try exact IH.
  destruct c as [s|parts]; cbn [negb]; [reflexivity|].
  destruct (truthy (trim (join LF (map partText (List.filter isTextPart parts))))) eqn:E;
    cbn [negb]; [reflexivity | exact IH].
Qed.

(** C2, as it holds: when the most recent user turn that is plain text or
    has non-blank text parts is blank, or there is no such turn, the stream
    delivers exactly one error event, with the empty-prompt diagnostic, and
    no call is made on the browser: the connection is never requested. *)
Theorem empty_prompt_short_circuits :
  forall world self model context options,
    (forall m, decidingTurn context = Some m -> blankTurn m = true) ->
    fst (runStream world self model context options) = Ok tt
    /\ calls (snd (runStream world self model context options)) = []
    /\ exists error,
        am_content error = [TextPart "Browser universal: empty prompt."]
        /\ am_stopReason error = stop_reason_error
        /\ stream (snd (runStream world self model context options))
           = {| queue := [ev_error stop_reason_error error];
                complete := true;
                finalResult := Some error |}.
Proof.
  intros world self model context options H.
  assert (Hp : truthy (extractLatestUserPrompt context) = false).
  { unfold extractLatestUserPrompt. rewrite scanPrompt_find.
    unfold decidingTurn in H.
    destruct (find _ (rev (messages context))) as [m|]; [|reflexivity].
    specialize (H m eq_refl). unfold blankTurn in H.
    apply negb_true_iff in H. exact H. }
  rewrite (outcome_empty_prompt world self model context options Hp).
  split; [reflexivity|]. split; [reflexivity|].
  exists (errorMessage world model "Browser universal: empty prompt." 0).
  repeat split.
Qed.

Lemma empty_prompt_short_circuits_witness :
  fst (runStream Scenario.chatWorld Scenario.provider Scenario.model
         (Scenario.says "   ") None) = Ok tt
  /\ calls (snd (runStream Scenario.chatWorld Scenario.provider Scenario.model
                   (Scenario.says "   ") None)) = []
  /\ exists error,
      am_content error = [TextPart "Browser universal: empty prompt."]
      /\ am_stopReason error = stop_reason_error
      /\ stream (snd (runStream Scenario.chatWorld Scenario.provider Scenario.model
                        (Scenario.says "   ") None))
         = {| queue := [ev_error stop_reason_error error];
              complete := true;
              finalResult := Some error |}.
Proof.
  apply (empty_prompt_short_circuits Scenario.chatWorld Scenario.provider Scenario.model
           (Scenario.says "   ") None).
  intros m H. vm_compute in H. injection H as <-. reflexivity.
Defined.

(** The latest user turn holds only whitespace and a part that is not
    text, yet the prompt is taken from the user turn before it and the
    connection is requested. *)
Lemma blank_latest_turn_reaches_browser :
  (exists m, latestUserTurn Scenario.blankLatest = Some m /\ blankTurn m = true)
  /\ extractLatestUserPrompt Scenario.blankLatest = "hello"
  /\ calls (snd (runStream Scenario.offlineWorld Scenario.provider Scenario.model
                   Scenario.blankLatest None))
     = [call_connect 0 "http://127.0.0.1:9222"].
Proof.
  split; [eexists; split; reflexivity|]. split; reflexivity.
Qed.

(** ** Failures *)

(** C3, as it holds: whatever fails in the pipeline (the abort check, the
    connection, or anything thrown while selecting the page, locating the
    input or waiting), [runBridge] itself does not throw: the stream
    delivers exactly one error event, whose message has stop reason "error",
    and no event of a reply.  Its text is "Browser universal error: "
    followed by the message of the failure; except that, when the inner
    block has thrown and the release of the connection fails as well, it is
    followed by the message of the failed release, which takes the place of
    the first. *)
Theorem failure_becomes_single_error_event :
  forall world self model context options (message : string),
    truthy (extractLatestUserPrompt context) = true ->
    (cancelled options = true /\ message = "Browser universal run aborted")
    \/ (cancelled options = false /\ connectOverCDP world 0 (cdpUrl self) = Err message)
    \/ (exists browser thrown s2,
           cancelled options = false
           /\ connectOverCDP world 0 (cdpUrl self) = Ok browser
           /\ scrapeReply world self browser (extractLatestUserPrompt context) (connected self)
              = (Err thrown, s2)
           /\ (close browser (clock s2) = Ok tt /\ message = thrown
               \/ close browser (clock s2) = Err message)) ->
    fst (runStream world self model context options) = Ok tt
    /\ exists error,
        am_content error = [TextPart ("Browser universal error: " +:+ message)]
        /\ am_stopReason error = stop_reason_error
        /\ stream (snd (runStream world self model context options))
           = {| queue := [ev_error stop_reason_error error];
                complete := true;
                finalResult := Some error |}.
Proof.
  intros world self model context options message Hp
         [[Hc ->] | [[Hc He] | (browser & thrown & s2 & Hc & Hb & Hs & Hm)]].
  - rewrite (outcome_cancelled world self model context options Hp Hc).
    split; [reflexivity|].
    exists (errorMessage world model
              ("Browser universal error: " +:+ "Browser universal run aborted") 0).
    repeat split.
  - rewrite (outcome_connect_failed world self model context options message Hp Hc He).
    split; [reflexivity|].
    exists (errorMessage world model ("Browser universal error: " +:+ message) 1).
    repeat split.
  - rewrite (outcome_scrape_failed world self model context options browser thrown s2
               Hp Hc Hb Hs).
    assert (Hrel : afterRelease browser (clock s2) thrown = message).
    { unfold afterRelease. destruct Hm as [[-> ->] | ->]; reflexivity. }
    rewrite Hrel. split; [reflexivity|].
    exists (errorMessage world model ("Browser universal error: " +:+ message) (S (clock s2))).
    repeat split.
Qed.

(** A browser without pages: the page selection fails. *)
Lemma failure_becomes_single_error_event_witness :
  fst (runStream Scenario.emptyWorld Scenario.provider Scenario.model
         (Scenario.says "hello") None) = Ok tt
  /\ exists error,
      am_content error
      = [TextPart ("Browser universal error: "
                   +:+ "No open pages found in the connected Chrome instance.")]
      /\ am_stopReason error = stop_reason_error
      /\ stream (snd (runStream Scenario.emptyWorld Scenario.provider Scenario.model
                        (Scenario.says "hello") None))
         = {| queue := [ev_error stop_reason_error error];
              complete := true;
              finalResult := Some error |}.
Proof.
  apply (failure_becomes_single_error_event Scenario.emptyWorld Scenario.provider
           Scenario.model (Scenario.says "hello") None
           "No open pages found in the connected Chrome instance.").
  - reflexivity.
  - right. right.
    exists (Scenario.browserOf []),
           "No open pages found in the connected Chrome instance.",
           (connected Scenario.provider).
    split; [reflexivity|]. split; [reflexivity|]. split; [reflexivity|].
    left. split; reflexivity.
Defined.

(** The page selection fails with its diagnostic and the release of the
    connection fails after it: the one event delivered carries the message
    of the release, and the diagnostic of the page selection is lost. *)
Lemma release_failure_replaces_diagnostic :
  fst (scrapeReply Scenario.stuckWorld Scenario.provider Scenario.stuckBrowser "hello"
         (connected Scenario.provider))
  = Err "No open pages found in the connected Chrome instance."
  /\ map (fun e => am_content (eventMessage e))
         (queue (stream (snd (runStream Scenario.stuckWorld Scenario.provider Scenario.model
                                (Scenario.says "hello") None))))
     = [[TextPart "Browser universal error: Target closed"]].
Proof. split; reflexivity. Qed.

(** ** Releasing the connection *)

(** C9, as it holds: once the connection is acquired, whatever happens
    next, the calls made are the connection, then calls of the prompt
    injection only, then one release, which is the last call; when the
    connection fails, the stream delivers exactly one error event with stop
    reason "error", the only call made is the connection attempt, and no
    release is attempted, there being no handle to release. *)
Theorem connection_released_once_acquired :
  forall world self model context options,
    truthy (extractLatestUserPrompt context) = true ->
    cancelled options = false ->
    (forall browser,
        connectOverCDP world 0 (cdpUrl self) = Ok browser ->
        exists l t,
          calls (snd (runStream world self model context options))
          = call_connect 0 (cdpUrl self) :: l ++ [call_close t]
          /\ Forall (fun c => is_page_call c = true) l)
    /\ (forall e,
          connectOverCDP world 0 (cdpUrl self) = Err e ->
          calls (snd (runStream world self model context options))
          = [call_connect 0 (cdpUrl self)]
          /\ exists error,
              am_stopReason error = stop_reason_error
              /\ stream (snd (runStream world self model context options))
                 = {| queue := [ev_error stop_reason_error error];
                      complete := true;
                      finalResult := Some error |}).
Proof.
  intros world self model context options Hp Hc. split.
  - intros browser Hb.
    pose proof (outside_scrapeReply world self browser (extractLatestUserPrompt context)
                  (connected self)) as Ht.
    destruct (scrapeReply world self browser (extractLatestUserPrompt context)
                (connected self)) as [[[r label]|thrown] s2] eqn:Hs.
    + rewrite (outcome_reply world self model context options browser r label s2 Hp Hc Hb Hs).
      destruct Ht as (_ & _ & l & Hl & Hf). simpl in Hl |- *.
      exists l, (clock s2). split; [rewrite Hl; reflexivity|].
      eapply Forall_impl; [exact Hf|]. simpl. intros c [? _]. assumption.
    + rewrite (outcome_scrape_failed world self model context options browser thrown s2
                 Hp Hc Hb Hs).
      destruct Ht as (_ & _ & l & Hl & Hf). simpl in Hl |- *.
      exists l, (clock s2). split; [rewrite Hl; reflexivity|].
      eapply Forall_impl; [exact Hf|]. simpl. intros c [? _]. assumption.
  - intros e He.
    rewrite (outcome_connect_failed world self model context options e Hp Hc He).
    split; [reflexivity|].
    exists (errorMessage world model ("Browser universal error: " +:+ e) 1).
    repeat split.
Qed.

Lemma connection_released_once_acquired_witness :
  exists l t,
    calls (snd (runStream Scenario.chatWorld Scenario.provider Scenario.model
                  (Scenario.says "hello") None))
    = call_connect 0 "http://127.0.0.1:9222" :: l ++ [call_close t]
    /\ Forall (fun c => is_page_call c = true) l.
Proof.
  apply (proj1 (connection_released_once_acquired Scenario.chatWorld Scenario.provider
                  Scenario.model (Scenario.says "hello") None eq_refl eq_refl)
           (Scenario.browserOf [Scenario.chatPage])).
  reflexivity.
Defined.

(** The connection fails: one error event is delivered, and the only call
    made is the connection attempt; no release is invoked. *)
Lemma release_not_invoked_when_connect_fails :
  connectOverCDP Scenario.offlineWorld 0 "http://127.0.0.1:9222"
  = Err "connect ECONNREFUSED 127.0.0.1:9222"
  /\ calls (snd (runStream Scenario.offlineWorld Scenario.provider Scenario.model
                   (Scenario.says "hello") None))
     = [call_connect 0 "http://127.0.0.1:9222"]
  /\ ~ (exists t, In (call_close t)
                     (calls (snd (runStream Scenario.offlineWorld Scenario.provider
                                    Scenario.model (Scenario.says "hello") None)))).
Proof.
  split; [reflexivity|]. split; [reflexivity|].
  intros [t [H|[]]]. discriminate.
Qed.

(** ** The model identifier *)

(** The shapes in which [runBridge] can leave the stream, read off its
    text alone: a single error event built from the configured model, or
    the events pushed after the inner block. *)
Lemma runStream_cases world self model context options :
  (exists text t final,
      stream final = finished [ev_error stop_reason_error (errorMessage world model text t)]
                              (errorMessage world model text t)
      /\ runStream world self model context options = (Ok tt, final))
  \/ (exists browser responseText label s2,
         connectOverCDP world 0 (cdpUrl self) = Ok browser
         /\ scrapeReply world self browser (extractLatestUserPrompt context) (connected self)
            = (Ok (responseText, label), s2)
         /\ runStream world self model context options
            = (Ok tt,
               {| clock := S (clock s2);
                  stream := finished
                              (replyEvents responseText
                                 (replyMessage world model responseText label (clock s2)))
                              (replyMessage world model responseText label (clock s2));
                  calls := calls s2 ++ [call_close (clock s2)] |})).
Proof.
  destruct (truthy (extractLatestUserPrompt context)) eqn:Hp.
  2: { left. do 3 eexists. split; [|apply outcome_empty_prompt, Hp]. reflexivity. }
  destruct (cancelled options) eqn:Hc.
  { left. do 3 eexists. split; [|apply outcome_cancelled; assumption]. reflexivity. }
  destruct (connectOverCDP world 0 (cdpUrl self)) as [browser|e] eqn:Hb.
  2: { left. do 3 eexists. split; [|eapply outcome_connect_failed; eassumption]. reflexivity. }
  destruct (scrapeReply world self browser (extractLatestUserPrompt context) (connected self))
    as [[[r label]|thrown] s2] eqn:Hs.
  - right. exists browser, r, label, s2. split; [reflexivity|]. split; [exact Hs|].
    apply (outcome_reply world self model context options browser); assumption.
  - left. do 3 eexists. split; [|eapply outcome_scrape_failed; eassumption]. reflexivity.
Qed.

(** C10, as the code runs.  Every event of every invocation carries the
    configured model id, and no invocation delivers a done event: the label
    read from the page never reaches a message, because the inner block
    throws at its first wait, after the label was read.  The reading and the
    use of the label are there all the same: the label is the trimmed text
    of the first element of the first rule whose first element has
    non-blank text, and a message built with it carries it as model, or the
    configured model id when there is none. *)
Theorem label_never_reaches_a_message :
  forall world self model context options,
    Forall (fun e => am_model (eventMessage e) = model_id model)
           (queue (stream (snd (runStream world self model context options))))
    /\ Forall (fun e => match e with ev_done _ _ => False | _ => True end)
              (queue (stream (snd (runStream world self model context options))))
    /\ (forall d selectors,
          labelText d selectors
          = match find (fun sel => found (querySelector d sel ≫= nonBlankText)) selectors with
            | Some sel => querySelector d sel ≫= nonBlankText
            | None => None
            end)
    /\ (forall d selectors text stopReason s,
          exists message,
            fst (buildAssistantMessage world text model (labelText d selectors) stopReason s)
            = Ok message
            /\ am_model message
               = match labelText d selectors with
                 | Some l => l
                 | None => model_id model
                 end).
Proof.
  intros world self model context options.
  destruct (runStream_error world self model context options)
    as (text & t & final & Hst & Hrun).
  rewrite Hrun. simpl. rewrite Hst. simpl.
  split; [repeat constructor|]. split; [repeat constructor|].
  split; [apply labelText_find|].
  intros d selectors text' stopReason s. eexists. split; [reflexivity|].
  simpl. apply labelText_resolved.
Qed.

(** The model switcher of the tab reads " GPT-4o " and a reply appears on
    the page: the one event delivered carries the configured model id. *)
Lemma label_never_reaches_a_message_witness :
  Forall (fun e => am_model (eventMessage e) = "browser-universal")
         (queue (stream (snd (runStream Scenario.chatWorld Scenario.provider Scenario.model
                               (Scenario.says "hello") None))))
  /\ labelText Scenario.chatBefore
       (modelLabel (resolveSelectorStrategy (nth 0 PLATFORM_PROFILES UNKNOWN_PROFILE)))
     = Some "GPT-4o"
  /\ length (queue (stream (snd (runStream Scenario.chatWorld Scenario.provider Scenario.model
                                   (Scenario.says "hello") None)))) = 1%nat.
Proof.
  split; [|split; reflexivity].
  exact (proj1 (label_never_reaches_a_message Scenario.chatWorld Scenario.provider
                  Scenario.model (Scenario.says "hello") None)).
Defined.

(** ** Detecting the platform *)

Lemma existsb_pointwise {A} (f g : A -> bool) l :
  (forall x, f x = g x) -> existsb f l = existsb g l.
Proof. intros H. induction l as [|x l IH]; simpl; rewrite ?H, ?IH; reflexivity. Qed.

Lemma find_pointwise {A} (f g : A -> bool) l :
  (forall x, f x = g x) -> find f l = find g l.
Proof. intros H. induction l as [|x l IH]; simpl; rewrite ?H, ?IH; reflexivity. Qed.

Section StableDom.

Variables (page : Page) (d : Document).
Hypothesis stable : forall t, document page t = Ok d.

Lemma matchesDomHints_stable hints s :
  fst (matchesDomHints page hints s) = Ok (someHint d hints).
Proof.
  destruct hints as [|h hints]; [reflexivity|].
  unfold matchesDomHints, evaluate, await. simpl. rewrite stable. reflexivity.
Qed.

Lemma firstFingerprint_stable profiles : forall s,
  fst (firstFingerprint page profiles s) = Ok (find (fingerprints d) profiles).
Proof.
  induction profiles as [|profile rest IH]; intros s; [reflexivity|].
  cbn [firstFingerprint find]. unfold bind.
  pose proof (matchesDomHints_stable (default [] (p_domHints (selectors profile))) s) as Hm.
  destruct (matchesDomHints page (default [] (p_domHints (selectors profile))) s)
    as [[hit|e] s1]; simpl in Hm; [|discriminate].
  injection Hm as ->. unfold fingerprints at 1.
  destruct (someHint d (default [] (p_domHints (selectors profile)))); [reflexivity | apply IH].
Qed.

(** With a DOM that stays as it is, detection is: the first candidate
    that fingerprints, else the first profile that fingerprints, else the
    URL-hinted profile under the fallback pattern, else unknown. *)
Lemma detectPlatform_stable urlRegex s :
  let titleText := match title page (clock s) with Ok t => t | Err _ => EmptyString end in
  fst (detectPlatform page urlRegex s)
  = Ok match find (fingerprints d)
                  (List.filter (hinted [url page; titleText]) PLATFORM_PROFILES) with
       | Some profile => profile
       | None =>
           match find (fingerprints d) PLATFORM_PROFILES with
           | Some profile => profile
           | None =>
               if test urlRegex (url page)
               then default UNKNOWN_PROFILE (find (hinted [url page]) PLATFORM_PROFILES)
               else UNKNOWN_PROFILE
           end
       end.
Proof.
  intros titleText. unfold detectPlatform.
  assert (Htitle : exists s1,
             try_catch (await (title page)) (fun _ => ret EmptyString) s = (Ok titleText, s1)).
  { unfold try_catch, await, titleText. simpl.
    destruct (title page (clock s)); eexists; reflexivity. }
  destruct Htitle as [s1 Htitle]. unfold bind at 1. rewrite Htitle.
  set (candidates := List.filter _ PLATFORM_PROFILES).
  assert (Hcand : candidates
                  = List.filter (hinted [url page; titleText]) PLATFORM_PROFILES).
  { subst candidates. apply List.filter_ext. intros profile. unfold hinted.
    apply existsb_pointwise. intros hint. simpl.
    rewrite orb_false_r. reflexivity. }
  rewrite <- Hcand. unfold bind at 1.
  pose proof (firstFingerprint_stable candidates s1) as H1.
  destruct (firstFingerprint page candidates s1) as [[byCandidate|e] s2];
    cbn [fst] in H1; [|discriminate].
  replace byCandidate with (find (fingerprints d) candidates) by congruence.
  destruct (find (fingerprints d) candidates) as [profile|]; [reflexivity|].
  unfold bind.
  pose proof (firstFingerprint_stable PLATFORM_PROFILES s2) as H2.
  destruct (firstFingerprint page PLATFORM_PROFILES s2) as [[byAny|e] s3];
    cbn [fst] in H2; [|discriminate].
  replace byAny with (find (fingerprints d) PLATFORM_PROFILES) by congruence.
  destruct (find (fingerprints d) PLATFORM_PROFILES) as [profile|]; [reflexivity|].
  destruct (test urlRegex (url page)); [|reflexivity].
  rewrite (find_pointwise (hinted [url page])
             (fun profile => existsb (fun hint => test hint (url page)) (urlHints profile))).
  - destruct (find _ PLATFORM_PROFILES) as [matched|]; reflexivity.
  - intros profile. unfold hinted. apply existsb_pointwise. intros hint. simpl.
    apply orb_false_r.
Qed.

End StableDom.

(** C5. On a page whose URL matches a hint of profile [X], where no
    profile hinted by the URL or the title fingerprints, and where [Y] is the
    first profile of the registry whose fingerprint rules find an element of
    the DOM, detection returns [Y], which is not [X]. *)
Theorem fingerprint_preferred_over_url :
  forall (page : Page) (urlRegex : RegExp) (d : Document) (s : BridgeState)
         (X Y : PlatformProfile),
    (forall t, document page t = Ok d) ->
    In X PLATFORM_PROFILES ->
    hinted [url page] X = true ->
    (forall c,
        In c PLATFORM_PROFILES ->
        hinted [url page;
                match title page (clock s) with Ok t => t | Err _ => EmptyString end] c = true ->
        fingerprints d c = false) ->
    find (fingerprints d) PLATFORM_PROFILES = Some Y ->
    fst (detectPlatform page urlRegex s) = Ok Y
    /\ fingerprints d Y = true
    /\ fingerprints d X = false.
Proof.
  intros page urlRegex d s X Y Hstable HX HhX Hcand HY.
  rewrite (detectPlatform_stable page d Hstable urlRegex s). cbv zeta.
  set (titleText := match title page (clock s) with Ok t => t | Err _ => EmptyString end) in *.
  assert (Hnone : find (fingerprints d)
                       (List.filter (hinted [url page; titleText]) PLATFORM_PROFILES) = None).
  { destruct (find _ (List.filter _ PLATFORM_PROFILES)) as [c|] eqn:E; [|reflexivity].
    apply find_some in E. destruct E as [Hin Hf].
    apply filter_In in Hin. destruct Hin as [Hin Hh].
    rewrite (Hcand c Hin Hh) in Hf. discriminate. }
  rewrite Hnone, HY. split; [reflexivity|]. split.
  - apply find_some in HY. apply HY.
  - apply Hcand; [exact HX|].
    unfold hinted in *. rewrite existsb_exists in HhX |- *.
    destruct HhX as (hint & Hin & Hh). exists hint. split; [exact Hin|].
    simpl in Hh |- *. rewrite orb_false_r in Hh. rewrite Hh. reflexivity.
Qed.

(** A tab at a ChatGPT address showing the DOM of Claude is detected as Claude. *)
Lemma fingerprint_preferred_over_url_witness :
  exists X Y,
    id X = chatgpt /\ id Y = claude
    /\ hinted [url Scenario.redirectedPage] X = true
    /\ fst (detectPlatform Scenario.redirectedPage DEFAULT_URL_REGEX initialState) = Ok Y
    /\ fingerprints Scenario.claudeLike Y = true
    /\ fingerprints Scenario.claudeLike X = false.
Proof.
  exists (nth 0 PLATFORM_PROFILES UNKNOWN_PROFILE), (nth 1 PLATFORM_PROFILES UNKNOWN_PROFILE).
  split; [reflexivity|]. split; [reflexivity|]. split; [reflexivity|].
  apply (fingerprint_preferred_over_url Scenario.redirectedPage DEFAULT_URL_REGEX
           Scenario.claudeLike initialState).
  - intros t. simpl. destruct (t <? 0)%nat; reflexivity.
  - left. reflexivity.
  - reflexivity.
  - intros c [<-|[<-|[<-|[]]]] H; solve [reflexivity | discriminate H].
  - reflexivity.
Defined.

(** * Further properties of the provider *)

(** ** Choosing the page and the input *)

(** X1. [resolveFocusedPage] never throws.  The page it returns is the
    first open page whose focus probe answered true: every page before it was
    closed or was probed and did not answer true (a probe that throws counts
    as not focused); without a result, this holds of all pages. *)
Theorem focused_page_is_first_open_focused :
  forall (pages : list Page) (s : BridgeState),
  exists r s',
    resolveFocusedPage pages s = (Ok r, s')
    /\ match r with
       | Some page =>
           exists before after,
             pages = before ++ page :: after
             /\ isClosed page = false
             /\ (clock s < clock s')%nat
             /\ hasFocus page (clock s' - 1) = Ok true
             /\ Forall (fun p => isClosed p = true
                                 \/ exists t, (clock s <= t < clock s' - 1)%nat
                                              /\ hasFocus p t <> Ok true) before
       | None =>
           Forall (fun p => isClosed p = true
                            \/ exists t, (clock s <= t < clock s')%nat
                                         /\ hasFocus p t <> Ok true) pages
       end.
Proof.
  induction pages as [|page rest IH]; intros s.
  - exists None, s. split; [reflexivity | constructor].
  - cbn [resolveFocusedPage]. destruct (isClosed page) eqn:Hclosed.
    + destruct (IH s) as (r & s' & Hrun & Hr). exists r, s'. split; [exact Hrun|].
      destruct r as [p|].
      * destruct Hr as (before & after & -> & Hp & Hlt & Hfocus & Hbefore).
        exists (page :: before), after. repeat split; try assumption.
        constructor; [left; exact Hclosed | exact Hbefore].
      * constructor; [left; exact Hclosed | exact Hr].
    + set (s1 := {| clock := S (clock s); stream := stream s; calls := calls s |}).
      unfold bind, try_catch, await. fold s1.
      destruct (hasFocus page (clock s)) as [[|]|e] eqn:Hprobe; cbn [ret].
      * exists (Some page), s1. split; [reflexivity|].
        exists [], rest. simpl. rewrite Nat.sub_0_r.
        repeat split; try assumption; try lia. constructor.
      * destruct (IH s1) as (r & s' & Hrun & Hr). exists r, s'. split; [exact Hrun|].
        assert (Hmono : (clock s1 <= clock s')%nat).
        { pose proof (outside_resolveFocusedPage no_call rest s1) as Ht.
          rewrite Hrun in Ht. apply Ht. }
        simpl in Hmono.
        destruct r as [p|].
        -- destruct Hr as (before & after & -> & Hp & Hlt & Hfocus & Hbefore). simpl in Hlt.
           exists (page :: before), after. repeat split; try assumption; try lia.
           constructor.
           ++ right. exists (clock s). split; [lia | congruence].
           ++ eapply Forall_impl; [exact Hbefore|]. simpl.
              intros q [Hq | (t & Ht & Hq)]; [left; exact Hq | right; exists t; split; [lia | exact Hq]].
        -- constructor.
           ++ right. exists (clock s). split; [lia | congruence].
           ++ eapply Forall_impl; [exact Hr|]. simpl.
              intros q [Hq | (t & Ht & Hq)]; [left; exact Hq | right; exists t; split; [lia | exact Hq]].
      * destruct (IH s1) as (r & s' & Hrun & Hr). exists r, s'. split; [exact Hrun|].
        assert (Hmono : (clock s1 <= clock s')%nat).
        { pose proof (outside_resolveFocusedPage no_call rest s1) as Ht.
          rewrite Hrun in Ht. apply Ht. }
        simpl in Hmono.
        destruct r as [p|].
        -- destruct Hr as (before & after & -> & Hp & Hlt & Hfocus & Hbefore). simpl in Hlt.
           exists (page :: before), after. repeat split; try assumption; try lia.
           constructor.
           ++ right. exists (clock s). split; [lia | congruence].
           ++ eapply Forall_impl; [exact Hbefore|]. simpl.
              intros q [Hq | (t & Ht & Hq)]; [left; exact Hq | right; exists t; split; [lia | exact Hq]].
        -- constructor.
           ++ right. exists (clock s). split; [lia | congruence].
           ++ eapply Forall_impl; [exact Hr|]. simpl.
              intros q [Hq | (t & Ht & Hq)]; [left; exact Hq | right; exists t; split; [lia | exact Hq]].
Qed.

(** X2. [resolveInputLocator] probes the input rules in order, one moment
    each.  It returns the first rule whose probe answered visible, every rule
    before it having been probed without that answer (a probe that throws
    counts as not visible); when no rule is visible it throws the
    input-not-found diagnostic after having probed them all. *)
Theorem input_is_first_visible_rule :
  forall (page : Page) (selectors : list string) (s : BridgeState),
    let probed (from : nat) (rules : list string) :=
      forall i sel, rules !! i = Some sel -> loc_isVisible page (from + i) sel <> Ok true in
    match resolveInputLocator page selectors s with
    | (Ok selector, s') =>
        exists before after,
          selectors = before ++ selector :: after
          /\ probed (clock s) before
          /\ loc_isVisible page (clock s + length before) selector = Ok true
          /\ clock s' = S (clock s + length before)
    | (Err e, s') =>
        e = "Browser universal input not found. Update selectors or focus the input."
        /\ probed (clock s) selectors
        /\ clock s' = (clock s + length selectors)%nat
    end.
Proof.
  intros page selectors. induction selectors as [|selector rest IH]; intros s probed.
  - simpl. split; [reflexivity|]. split; [|lia].
    intros i sel H. discriminate.
  - cbn [resolveInputLocator]. unfold bind, try_catch, await.
    set (s1 := {| clock := S (clock s); stream := stream s; calls := calls s |}).
    assert (Hstep : loc_isVisible page (clock s) selector <> Ok true ->
                    match resolveInputLocator page rest s1 with
                    | (Ok sel, s') =>
                        exists before after,
                          selector :: rest = before ++ sel :: after
                          /\ probed (clock s) before
                          /\ loc_isVisible page (clock s + length before) sel = Ok true
                          /\ clock s' = S (clock s + length before)
                    | (Err e, s') =>
                        e = "Browser universal input not found. Update selectors or focus the input."
                        /\ probed (clock s) (selector :: rest)
                        /\ clock s' = (clock s + length (selector :: rest))%nat
                    end).
    { intros Hno. specialize (IH s1). cbv zeta in IH.
      assert (Hshift : forall rules,
                 (forall i sel, rules !! i = Some sel ->
                                loc_isVisible page (clock s1 + i) sel <> Ok true) ->
                 probed (clock s) (selector :: rules)).
      { intros rules H [|i] sel Hi.
        - injection Hi as <-. rewrite Nat.add_0_r. exact Hno.
        - replace (clock s + S i)%nat with (clock s1 + i)%nat by (simpl; lia).
          apply H. exact Hi. }
      destruct (resolveInputLocator page rest s1) as [[sel|e] s'].
      - destruct IH as (before & after & -> & Hb & Hv & Hc).
        exists (selector :: before), after. split; [reflexivity|].
        split; [apply Hshift, Hb|]. simpl in Hv, Hc |- *.
        replace (clock s + S (length before))%nat with (S (clock s + length before)) by lia.
        split; [exact Hv | rewrite Hc; lia].
      - destruct IH as (-> & Hb & Hc). split; [reflexivity|].
        split; [apply Hshift, Hb|]. simpl in Hc |- *. lia. }
    destruct (loc_isVisible page (clock s) selector) as [[|]|e] eqn:Hprobe; cbn [ret].
    + exists [], rest. simpl. rewrite Nat.add_0_r.
      split; [reflexivity|]. split; [|split; [exact Hprobe | reflexivity]].
      intros i sel H. discriminate.
    + apply Hstep. discriminate.
    + apply Hstep. discriminate.
Qed.

(** ** The start of a response *)

Lemma countBlocks_first d before selector after :
  (forall sel, In sel before -> querySelectorAll d sel = []) ->
  querySelectorAll d selector <> [] ->
  countBlocks d (before ++ selector :: after) = length (querySelectorAll d selector).
Proof.
  intros Hbefore Hsel. induction before as [|b before IH]; simpl.
  - destruct (querySelectorAll d selector) as [|el els]; [congruence | reflexivity].
  - rewrite (Hbefore b (or_introl eq_refl)). simpl. apply IH.
    intros sel H. apply Hbefore. right. exact H.
Qed.

(** X3. The count taken before submission is the number of matches of the
    first response rule that matches anything.  It never reaches the page:
    the first wait hands it to [page.waitForFunction] in the place of the
    options, so that the page function compares every number of matches
    with an undefined count and answers false on every DOM, and the timeout
    handed over after the count is not read.  The wait never ends well; on a
    page whose DOM can be read throughout it expires under the timeout of
    the library, whatever the timeout of the provider and however many
    replies the page shows. *)
Theorem response_start_is_never_seen :
  forall (d : Document) (before : list string) (selector : string) (after : list string),
    (forall sel, In sel before -> querySelectorAll d sel = []) ->
    querySelectorAll d selector <> [] ->
    let selectors := before ++ selector :: after in
    countBlocks d selectors = length (querySelectorAll d selector)
    /\ (forall d', responseStarted selectors None d' = Ok false)
    /\ (forall world page timeoutMs s,
          let wait := waitForFunction world page responseStarted selectors
                        (v_number (countBlocks d selectors)) (v_options timeoutMs) in
          (exists e, fst (wait s) = Err e)
          /\ ((forall j, (clock s <= j <= clock s + pollingRounds world LIBRARY_TIMEOUT_MS)%nat ->
                         exists d', document page j = Ok d') ->
              wait s
              = (Err (timeoutMessage world LIBRARY_TIMEOUT_MS),
                 {| clock := S (clock s + pollingRounds world LIBRARY_TIMEOUT_MS);
                    stream := stream s; calls := calls s |}))).
Proof.
  intros d before selector after Hbefore Hsel selectors. subst selectors.
  split; [apply countBlocks_first; assumption|].
  split; [intros d'; apply responseStarted_undefined|].
  intros world page timeoutMs s wait. subst wait. split.
  - apply waitForFunction_fails. intros d'. rewrite responseStarted_undefined. discriminate.
  - intros Hread. unfold waitForFunction. cbn [timeoutOf default].
    rewrite poll_expired; [reflexivity|].
    intros j Hj. destruct (Hread j Hj) as [d' Hd']. exists d'.
    split; [exact Hd' | apply responseStarted_undefined].
Qed.

(** One reply block counted before submission, two blocks on the page
    from then on: the wait expires all the same, under 30 s and not under
    the 120 s handed over. *)
Lemma response_start_is_never_seen_witness :
  let d := Scenario.documentOf
             [("[data-message-author-role=" +:+ q "assistant" +:+ "]", [Scenario.shown "old"])] in
  countBlocks d (assistant BASE_SELECTORS) = 1%nat
  /\ waitForFunction Scenario.chatWorld
       (Scenario.pageOf "https://chatgpt.com/c/1" true 0 d Scenario.twoReplies)
       responseStarted (assistant BASE_SELECTORS) (v_number 1) (v_options 120000) initialState
     = (Err "page.waitForFunction: Timeout 30000ms exceeded.",
        {| clock := 4; stream := stream initialState; calls := calls initialState |}).
Proof.
  cbv zeta.
  pose proof (response_start_is_never_seen
                (Scenario.documentOf
                   [("[data-message-author-role=" +:+ q "assistant" +:+ "]",
                     [Scenario.shown "old"])])
                [] ("[data-message-author-role=" +:+ q "assistant" +:+ "]")
                [".markdown"; ".prose"; "article"]) as H.
  cbv zeta in H.
  destruct H as (Hcount & _ & Hwait).
  - intros sel [].
  - discriminate.
  - split; [exact Hcount|].
    destruct (Hwait Scenario.chatWorld
                (Scenario.pageOf "https://chatgpt.com/c/1" true 0
                   (Scenario.documentOf
                      [("[data-message-author-role=" +:+ q "assistant" +:+ "]",
                        [Scenario.shown "old"])])
                   Scenario.twoReplies)
                120000 initialState) as [_ Hexp].
    rewrite Hcount in Hexp. apply Hexp.
    intros j _. eexists. reflexivity.
Defined.

(** ** One terminal event *)

(** X4. Every invocation returns without throwing and leaves the stream
    closed with exactly one terminal event, [done] or [error], which is the
    last event delivered and whose message is the final result. *)
Theorem exactly_one_terminal_event :
  forall world self model context options,
    fst (runStream world self model context options) = Ok tt
    /\ complete (stream (snd (runStream world self model context options))) = true
    /\ exists events terminal message,
        queue (stream (snd (runStream world self model context options)))
        = events ++ [terminal]
        /\ Forall (fun e => terminalResult e = None) events
        /\ terminalResult terminal = Some message
        /\ finalResult (stream (snd (runStream world self model context options)))
           = Some message.
Proof.
  intros world self model context options.
  destruct (runStream_cases world self model context options)
    as [(text & t & final & Hst & ->) | (browser & r & label & s2 & _ & _ & ->)]; simpl.
  - rewrite Hst. split; [reflexivity|]. split; [reflexivity|].
    exists [], (ev_error stop_reason_error (errorMessage world model text t)),
           (errorMessage world model text t).
    repeat split. constructor.
  - split; [reflexivity|]. split; [reflexivity|].
    set (m := replyMessage world model r label (clock s2)).
    exists [ev_start m; ev_text_start 0 m; ev_text_delta 0 r m; ev_text_end 0 r m],
           (ev_done stop_reason_stop m), m.
    repeat split. repeat constructor.
Qed.

(** ** The prompt injection *)






(** ** More on detection *)

Lemma find_filter_first {A} (f g : A -> bool) before y after :
  g y = true -> f y = true ->
  (forall p, In p before -> g p = true -> f p = false) ->
  find f (List.filter g (before ++ y :: after)) = Some y.
Proof.
  intros Hg Hf Hbefore. induction before as [|b before IH]; simpl.
  - rewrite Hg. simpl. rewrite Hf. reflexivity.
  - destruct (g b) eqn:Hb; simpl.
    + rewrite (Hbefore b (or_introl eq_refl) Hb). apply IH.
      intros p Hp. apply Hbefore. right. exact Hp.
    + apply IH. intros p Hp. apply Hbefore. right. exact Hp.
Qed.

(** X6. With a DOM that stays as it is during detection: among the
    profiles hinted by the URL or the title of the page, the first that
    fingerprints is returned, whether or not a profile placed before it in
    the registry, and not hinted, fingerprints as well. *)
Theorem hinted_fingerprint_comes_first :
  forall (page : Page) (urlRegex : RegExp) (d : Document) (s : BridgeState)
         (before : list PlatformProfile) (Y : PlatformProfile) (after : list PlatformProfile),
    (forall t, document page t = Ok d) ->
    PLATFORM_PROFILES = before ++ Y :: after ->
    hinted [url page; match title page (clock s) with Ok t => t | Err _ => EmptyString end] Y
    = true ->
    fingerprints d Y = true ->
    (forall p, In p before ->
               hinted [url page;
                       match title page (clock s) with Ok t => t | Err _ => EmptyString end] p
               = true ->
               fingerprints d p = false) ->
    fst (detectPlatform page urlRegex s) = Ok Y.
Proof.
  intros page urlRegex d s before Y after Hstable Hreg Hhint Hfp Hbefore.
  rewrite (detectPlatform_stable page d Hstable urlRegex s). cbv zeta.
  rewrite Hreg at 1.
  rewrite (find_filter_first (fingerprints d) _ before Y after Hhint Hfp Hbefore).
  reflexivity.
Qed.

(** A tab at a Claude address with the marks of both ChatGPT and Claude is
    detected as Claude, though ChatGPT comes first in the registry. *)
Lemma hinted_fingerprint_comes_first_witness :
  exists Y,
    id Y = claude
    /\ find (fingerprints Scenario.bothMarks) PLATFORM_PROFILES
       = Some (nth 0 PLATFORM_PROFILES UNKNOWN_PROFILE)
    /\ fst (detectPlatform Scenario.claudePage DEFAULT_URL_REGEX initialState) = Ok Y.
Proof.
  exists (nth 1 PLATFORM_PROFILES UNKNOWN_PROFILE).
  split; [reflexivity|]. split; [reflexivity|].
  apply (hinted_fingerprint_comes_first Scenario.claudePage DEFAULT_URL_REGEX
           Scenario.bothMarks initialState
           [nth 0 PLATFORM_PROFILES UNKNOWN_PROFILE]
           (nth 1 PLATFORM_PROFILES UNKNOWN_PROFILE)
           [nth 2 PLATFORM_PROFILES UNKNOWN_PROFILE]).
  - intros t. simpl. destruct (t <? 0)%nat; reflexivity.
  - reflexivity.
  - reflexivity.
  - reflexivity.
  - intros p [<-|[]] H. discriminate H.
Defined.

(** X7. With a DOM that stays as it is and on which no profile
    fingerprints: when the fallback pattern does not match the URL the
    result is the unknown profile, even if the URL or the title is hinted;
    when it matches, the result is the first profile with a hint matching
    the URL (the title is not consulted), or the unknown profile when there
    is none. *)
Theorem detection_without_fingerprint :
  forall (page : Page) (urlRegex : RegExp) (d : Document) (s : BridgeState),
    (forall t, document page t = Ok d) ->
    (forall p, In p PLATFORM_PROFILES -> fingerprints d p = false) ->
    (test urlRegex (url page) = false ->
     fst (detectPlatform page urlRegex s) = Ok UNKNOWN_PROFILE)
    /\ (test urlRegex (url page) = true ->
        forall X, find (hinted [url page]) PLATFORM_PROFILES = Some X ->
                  fst (detectPlatform page urlRegex s) = Ok X)
    /\ (find (hinted [url page]) PLATFORM_PROFILES = None ->
        fst (detectPlatform page urlRegex s) = Ok UNKNOWN_PROFILE).
Proof.
  intros page urlRegex d s Hstable Hnone.
  assert (Hfind : forall l, (forall p, In p l -> In p PLATFORM_PROFILES) ->
                            find (fingerprints d) l = None).
  { intros l Hl. destruct (find (fingerprints d) l) as [p|] eqn:E; [|reflexivity].
    apply find_some in E. destruct E as [Hin Hf].
    rewrite (Hnone p (Hl p Hin)) in Hf. discriminate. }
  rewrite (detectPlatform_stable page d Hstable urlRegex s). cbv zeta.
  rewrite (Hfind (List.filter _ PLATFORM_PROFILES))
    by (intros p Hp; apply filter_In in Hp; apply Hp).
  rewrite (Hfind PLATFORM_PROFILES) by auto.
  split; [intros ->; reflexivity|]. split.
  - intros -> X ->. reflexivity.
  - intros ->. destruct (test urlRegex (url page)); reflexivity.
Qed.

(** A ChatGPT address without any mark: ChatGPT under the default pattern,
    unknown under a pattern of another site. *)
Lemma detection_without_fingerprint_witness :
  fst (detectPlatform Scenario.plainPage (icaseAny ["example.org"]) initialState)
  = Ok UNKNOWN_PROFILE
  /\ fst (detectPlatform Scenario.plainPage DEFAULT_URL_REGEX initialState)
     = Ok (nth 0 PLATFORM_PROFILES UNKNOWN_PROFILE).
Proof.
  assert (Hstable : forall t, document Scenario.plainPage t = Ok Scenario.bare).
  { intros t. simpl. destruct (t <? 0)%nat; reflexivity. }
  assert (Hnone : forall p, In p PLATFORM_PROFILES -> fingerprints Scenario.bare p = false).
  { intros p [<-|[<-|[<-|[]]]]; reflexivity. }
  split.
  - apply (proj1 (detection_without_fingerprint Scenario.plainPage (icaseAny ["example.org"])
                    Scenario.bare initialState Hstable Hnone)).
    reflexivity.
  - apply (proj1 (proj2 (detection_without_fingerprint Scenario.plainPage DEFAULT_URL_REGEX
                           Scenario.bare initialState Hstable Hnone))).
    + reflexivity.
    + reflexivity.
Defined.

(** ** More on the resolved rules *)

Lemma keepFirst_nil l : keepFirst l = [] -> l = [].
Proof. destruct l; [reflexivity | discriminate]. Qed.

(** X8. For every profile: each category other than the fingerprint has at
    least one resolved rule; the resolved list starts with the profile's own
    rules (without their repeats) and continues with generic rules that the
    profile does not list; and a profile without overrides resolves to the
    generic rule set. *)
Theorem resolved_rules_start_with_overrides :
  forall (profile : PlatformProfile),
    (forall c, c <> CatDomHints -> rules c (resolveSelectorStrategy profile) <> [])
    /\ (forall c, exists rest,
           rules c (resolveSelectorStrategy profile)
           = keepFirst (overrides c (selectors profile)) ++ rest
           /\ sublist rest (rules c BASE_SELECTORS)
           /\ forall x, In x rest -> ~ In x (overrides c (selectors profile)))
    /\ (selectors profile = noSelectors ->
        resolveSelectorStrategy profile = BASE_SELECTORS).
Proof.
  intros profile. split; [|split].
  - intros c Hc H. rewrite resolved_rules in H. apply keepFirst_nil in H.
    apply app_eq_nil in H. destruct H as [_ H]. destruct c; try discriminate H.
    apply Hc. reflexivity.
  - intros c. rewrite resolved_rules, keepFirst_app, generic_rules_distinct.
    eexists. split; [reflexivity|]. split; [apply filter_sublist|].
    intros x Hx Hin. apply filter_In in Hx. destruct Hx as [_ Hx].
    apply setHas_In in Hin. rewrite Hin in Hx. discriminate.
  - intros H. unfold resolveSelectorStrategy. rewrite H. reflexivity.
Qed.

(** ** More on the prompt *)

Lemma scanPrompt_trimmed backwards : trim (scanPrompt backwards) = scanPrompt backwards.
Proof.
  induction backwards as [|m earlier IH]; [reflexivity|].
  cbn [scanPrompt]. destruct (negb (isUser m)); [exact IH|].
  destruct (content m) as [s|parts]; [apply trim_idem|].
  destruct (truthy _); [apply trim_idem | exact IH].
Qed.

(** X9. The extracted prompt is always trimmed.  A plain user turn at the
    end of the conversation decides the prompt, blank or not; a turn at the
    end that is not a user turn changes nothing; a user turn at the end made
    of parts gives its text parts joined by line feeds and trimmed when that
    is not blank, and otherwise changes nothing. *)
Theorem prompt_follows_last_turn :
  forall (earlier : list Message),
    trim (extractLatestUserPrompt {| messages := earlier |})
    = extractLatestUserPrompt {| messages := earlier |}
    /\ (forall s,
           extractLatestUserPrompt
             {| messages := earlier ++ [{| role := User; content := PlainContent s |}] |}
           = trim s)
    /\ (forall m, isUser m = false ->
                  extractLatestUserPrompt {| messages := earlier ++ [m] |}
                  = extractLatestUserPrompt {| messages := earlier |})
    /\ (forall parts,
           extractLatestUserPrompt
             {| messages := earlier ++ [{| role := User; content := PartsContent parts |}] |}
           = let text := trim (join LF (map partText (List.filter isTextPart parts))) in
             if truthy text then text
             else extractLatestUserPrompt {| messages := earlier |}).
Proof.
  intros earlier. unfold extractLatestUserPrompt. cbn [messages].
  split; [apply scanPrompt_trimmed|]. split; [|split].
  - intros s. rewrite rev_unit. reflexivity.
  - intros m Hm. rewrite rev_unit. cbn [scanPrompt]. rewrite Hm. reflexivity.
  - intros parts. rewrite rev_unit. reflexivity.
Qed.

(** ** Cancellation and the messages carried *)

(** X11. The empty-prompt check comes first and the cancellation check
    second, both before the connection: a cancelled invocation makes no call
    on the browser at all, and delivers the aborted diagnostic, unless the
    prompt is empty, in which case it delivers the empty-prompt diagnostic. *)
Theorem cancelled_run_touches_nothing :
  forall world self model context options,
    cancelled options = true ->
    calls (snd (runStream world self model context options)) = []
    /\ clock (snd (runStream world self model context options)) = 0%nat
    /\ exists error,
        queue (stream (snd (runStream world self model context options)))
        = [ev_error stop_reason_error error]
        /\ am_content error
           = [TextPart (if truthy (extractLatestUserPrompt context)
                        then "Browser universal error: Browser universal run aborted"
                        else "Browser universal: empty prompt.")].
Proof.
  intros world self model context options Hc.
  destruct (truthy (extractLatestUserPrompt context)) eqn:Hp.
  - rewrite (outcome_cancelled world self model context options Hp Hc).
    split; [reflexivity|]. split; [reflexivity|]. eexists. split; reflexivity.
  - rewrite (outcome_empty_prompt world self model context options Hp).
    split; [reflexivity|]. split; [reflexivity|]. eexists. split; reflexivity.
Qed.

Lemma cancelled_run_touches_nothing_witness :
  calls (snd (runStream Scenario.chatWorld Scenario.provider Scenario.model
                (Scenario.says "hello")
                (Some {| signal := Some {| aborted := true |} |}))) = []
  /\ clock (snd (runStream Scenario.chatWorld Scenario.provider Scenario.model
                   (Scenario.says "hello")
                   (Some {| signal := Some {| aborted := true |} |}))) = 0%nat
  /\ exists error,
      queue (stream (snd (runStream Scenario.chatWorld Scenario.provider Scenario.model
                            (Scenario.says "hello")
                            (Some {| signal := Some {| aborted := true |} |}))))
      = [ev_error stop_reason_error error]
      /\ am_content error
         = [TextPart (if truthy (extractLatestUserPrompt (Scenario.says "hello"))
                      then "Browser universal error: Browser universal run aborted"
                      else "Browser universal: empty prompt.")].
Proof.
  apply (cancelled_run_touches_nothing Scenario.chatWorld Scenario.provider Scenario.model
           (Scenario.says "hello") (Some {| signal := Some {| aborted := true |} |})).
  reflexivity.
Defined.

(** X12. Every event of every invocation carries one and the same
    message: an assistant message with the api and provider of the model,
    one text part, and all usage and cost counters at zero. *)
Theorem events_carry_one_zero_usage_message :
  forall world self model context options,
  exists message text,
    am_role message = Assistant
    /\ am_content message = [TextPart text]
    /\ am_api message = model_api model
    /\ am_provider message = model_provider model
    /\ am_usage message = zeroUsage
    /\ Forall (fun e => eventMessage e = message)
              (queue (stream (snd (runStream world self model context options)))).
Proof.
  intros world self model context options.
  destruct (runStream_cases world self model context options)
    as [(text & t & final & Hst & ->) | (browser & r & label & s2 & _ & _ & ->)]; simpl.
  - rewrite Hst. exists (errorMessage world model text t), text.
    repeat split. repeat constructor.
  - exists (replyMessage world model r label (clock s2)), r.
    repeat split. repeat constructor.
Qed.

(** * Properties of the registration *)

Lemma register_when_registered world env options r :
  browserUniversalRegistered r = true ->
  registerBrowserUniversalProvider world env options r = r.
Proof. unfold registerBrowserUniversalProvider. intros ->. reflexivity. Qed.

(** X13. Only the first registration counts: after any sequence of calls
    of [registerBrowserUniversalProvider], each with its own options and
    environment, exactly one provider is registered, the one built from the
    options and the environment of the first call. *)
Theorem registration_happens_once :
  forall (world : World) (env : gmap string string)
         (options : option BrowserUniversalOptions)
         (later : list (gmap string string * option BrowserUniversalOptions)),
    fold_left (fun r c => registerBrowserUniversalProvider world (fst c) (snd c) r)
              later
              (registerBrowserUniversalProvider world env options emptyRegistry)
    = {| browserUniversalRegistered := true;
         registered := [(newProvider world (default noOptions options) env,
                         "openclaw-browser-universal")] |}.
Proof.
  intros world env options later.
  change (registerBrowserUniversalProvider world env options emptyRegistry)
    with {| browserUniversalRegistered := true;
            registered := [(newProvider world (default noOptions options) env,
                            "openclaw-browser-universal")] |}.
  induction later as [|c later IH]; [reflexivity|].
  simpl. exact IH.
Qed.

(** * Properties of the browser client *)

Lemma andThen_ok {S A B} (m : Run S A) (k : A -> Run S B) s a s1 :
  m s = (Ok a, s1) -> andThen m k s = k a s1.
Proof. unfold andThen. intros ->. reflexivity. Qed.

Lemma andThen_err {S A B} (m : Run S A) (k : A -> Run S B) s e s1 :
  m s = (Err e, s1) -> andThen m k s = (Err e, s1).
Proof. unfold andThen. intros ->. reflexivity. Qed.

Section ClientFacts.

Variable host : Kernel.Host.

Lemma fetchVersionInfo_run st :
  exists info t,
    Kernel.fetchVersionInfo host st
    = (Ok info,
       {| Kernel.self := Kernel.self st; Kernel.now := t;
          Kernel.effects :=
            Kernel.effects st
            ++ [Kernel.eff_fetch (Kernel.now st)
                  (Kernel.DEFAULT_CDP_ENDPOINT +:+ ":"
                   +:+ numberToString (Kernel.cdpPort (Kernel.self st))
                   +:+ "/json/version")] |})
    /\ (Kernel.now st < t)%nat.
Proof.
  unfold Kernel.fetchVersionInfo, andThen, Kernel.getSelf, Kernel.attempt, Kernel.call,
    Kernel.settle, pure.
  destruct (Kernel.fetch host (Kernel.now st) _) as [response|e]; cbn.
  - destruct (Kernel.ok response); cbn.
    + destruct (Kernel.json response); cbn; do 2 eexists; (split; [reflexivity | lia]).
    + do 2 eexists. split; [reflexivity | lia].
  - do 2 eexists. split; [reflexivity | lia].
Qed.

(** X14. Without an executable given to the client, the one launched is
    [CHROME_PATH] when set and not empty, else [CHROMIUM_PATH] when set and
    not empty, else the path of Google Chrome under /Applications: the
    resolution never fails and never reaches the later candidates. *)
Theorem chrome_executable_is_env_or_first_path :
  Kernel.resolveChromeExecutable host
  = Some match Kernel.env host !! "CHROME_PATH" with
         | Some (String c r) => String c r
         | _ =>
             match Kernel.env host !! "CHROMIUM_PATH" with
             | Some (String c r) => String c r
             | _ => "/Applications/Google Chrome.app/Contents/MacOS/Google Chrome"
             end
         end.
Proof.
  unfold Kernel.resolveChromeExecutable. cbn [find].
  destruct (Kernel.env host !! "CHROME_PATH") as [[|c r]|]; cbn;
    destruct (Kernel.env host !! "CHROMIUM_PATH") as [[|c' r']|]; reflexivity.
Qed.

(** X15. [launchChrome] throws exactly when the client was given the empty
    string as executable, and then spawns nothing; otherwise it spawns one
    process, the given executable or the resolved one, with the
    remote-debugging port, the profile directory and --no-first-run as
    arguments, and changes nothing else. *)
Theorem launch_spawns_one_process :
  forall (st : Kernel.ClientState),
    let this := Kernel.self st in
    match Kernel.chromeExecutable this with
    | Some EmptyString =>
        Kernel.launchChrome host st
        = (Err "Unable to resolve Chrome/Chromium executable for auto-launch.", st)
    | given =>
        exists executable,
          Some executable = match given with
                            | Some e => Some e
                            | None => Kernel.resolveChromeExecutable host
                            end
          /\ Kernel.launchChrome host st
             = (Ok tt,
                {| Kernel.self := this; Kernel.now := Kernel.now st;
                   Kernel.effects :=
                     Kernel.effects st
                     ++ [Kernel.eff_spawn (Kernel.now st) executable
                           ["--remote-debugging-port=" +:+ numberToString (Kernel.cdpPort this);
                            "--user-data-dir=" +:+ Kernel.profileDir this;
                            "--no-first-run"]] |})
    end.
Proof.
  intros st this. subst this.
  unfold Kernel.launchChrome, andThen, Kernel.getSelf, raise.
  destruct (Kernel.chromeExecutable (Kernel.self st)) as [[|c r]|] eqn:E.
  - reflexivity.
  - exists (String c r). split; reflexivity.
  - rewrite chrome_executable_is_env_or_first_path.
    eexists. split; [reflexivity|].
    destruct (Kernel.env host !! "CHROME_PATH") as [[|c r]|];
      [| reflexivity |];
      destruct (Kernel.env host !! "CHROMIUM_PATH") as [[|c' r']|]; reflexivity.
Qed.

End ClientFacts.

Section ConnectFacts.

Variable host : Kernel.Host.

Lemma launchChrome_cases st :
  (exists e, Kernel.launchChrome host st = (Err e, st))
  \/ (exists executable args,
         Kernel.launchChrome host st
         = (Ok tt, {| Kernel.self := Kernel.self st; Kernel.now := Kernel.now st;
                      Kernel.effects :=
                        Kernel.effects st
                        ++ [Kernel.eff_spawn (Kernel.now st) executable args] |})).
Proof.
  unfold Kernel.launchChrome, andThen, Kernel.getSelf, raise.
  destruct (match Kernel.chromeExecutable (Kernel.self st) with
            | Some e => Some e
            | None => Kernel.resolveChromeExecutable host
            end) as [[|c r]|].
  - left. eexists. reflexivity.
  - right. do 2 eexists. reflexivity.
  - left. eexists. reflexivity.
Qed.

Lemma connect_cached st b :
  Kernel.browser (Kernel.self st) = Some b ->
  Kernel.connect host st = (Ok b, st).
Proof.
  intros H. unfold Kernel.connect, andThen, Kernel.getSelf. rewrite H. reflexivity.
Qed.

Lemma reconnect_run st :
  Kernel.browser (Kernel.self st) = None ->
  forall port, exists l,
    Kernel.effects (snd (reconnect host port st)) = Kernel.effects st ++ l
    /\ List.filter is_spawn l = []
    /\ length (List.filter is_fetch l) = 1%nat
    /\ (length (List.filter is_connect l) <= 1)%nat
    /\ match fst (reconnect host port st) with
       | Ok b => Kernel.browser (Kernel.self (snd (reconnect host port st))) = Some b
                 /\ length (List.filter is_connect l) = 1%nat
       | Err _ => Kernel.browser (Kernel.self (snd (reconnect host port st))) = None
       end
    /\ Kernel.cdpPort (Kernel.self (snd (reconnect host port st)))
       = Kernel.cdpPort (Kernel.self st)
    /\ Kernel.profileDir (Kernel.self (snd (reconnect host port st)))
       = Kernel.profileDir (Kernel.self st)
    /\ Kernel.chromeExecutable (Kernel.self (snd (reconnect host port st)))
       = Kernel.chromeExecutable (Kernel.self st).
Proof.
  intros Hnone port.
  destruct (fetchVersionInfo_run host st) as (info & t & E & _).
  unfold reconnect. rewrite (andThen_ok _ _ _ _ _ E).
  destruct (Kernel.endpointOf info) as [wsUrl|].
  - unfold andThen, Kernel.call, Kernel.setBrowser, pure. cbn.
    destruct (Kernel.puppeteer_connect host t wsUrl) as [b|e]; cbn;
      (eexists; split; [rewrite <- app_assoc; reflexivity|]);
      cbn; repeat split; try lia. exact Hnone.
  - unfold raise. cbn. eexists. split; [reflexivity|].
    cbn. repeat split; try lia. exact Hnone.
Qed.

Lemma connect_unfold st :
  Kernel.browser (Kernel.self st) = None ->
  forall info st1,
    Kernel.fetchVersionInfo host st = (Ok info, st1) ->
    Kernel.connect host st
    = match Kernel.endpointOf info with
      | Some _ => reconnect host (Kernel.cdpPort (Kernel.self st)) st1
      | None =>
          match Kernel.launchChrome host st1 with
          | (Ok _, st2) => reconnect host (Kernel.cdpPort (Kernel.self st)) st2
          | (Err e, st2) => (Err e, st2)
          end
      end.
Proof.
  intros Hnone info st1 E.
  unfold Kernel.connect. unfold andThen at 1. unfold Kernel.getSelf at 1.
  rewrite Hnone. rewrite (andThen_ok _ _ _ _ _ E).
  destruct (Kernel.endpointOf info); [reflexivity|].
  unfold andThen at 1. destruct (Kernel.launchChrome host st1) as [[[]|e] st2]; reflexivity.
Qed.

(** The shape of every run of [connect] that starts without a browser. *)
Lemma connect_uncached st :
  Kernel.browser (Kernel.self st) = None ->
  exists info l,
    fst (Kernel.fetchVersionInfo host st) = Ok info
    /\ Kernel.effects (snd (Kernel.connect host st)) = Kernel.effects st ++ l
    /\ (length (List.filter is_fetch l) <= 2)%nat
    /\ (length (List.filter is_connect l) <= 1)%nat
    /\ (found (Kernel.endpointOf info) = true -> List.filter is_spawn l = [])
    /\ (length (List.filter is_spawn l) <= 1)%nat
    /\ match fst (Kernel.connect host st) with
       | Ok b => Kernel.browser (Kernel.self (snd (Kernel.connect host st))) = Some b
                 /\ length (List.filter is_fetch l) = 2%nat
                 /\ length (List.filter is_connect l) = 1%nat
       | Err _ => Kernel.browser (Kernel.self (snd (Kernel.connect host st))) = None
       end
    /\ Kernel.cdpPort (Kernel.self (snd (Kernel.connect host st)))
       = Kernel.cdpPort (Kernel.self st)
    /\ Kernel.profileDir (Kernel.self (snd (Kernel.connect host st)))
       = Kernel.profileDir (Kernel.self st)
    /\ Kernel.chromeExecutable (Kernel.self (snd (Kernel.connect host st)))
       = Kernel.chromeExecutable (Kernel.self st).
Proof.
  intros Hnone.
  destruct (fetchVersionInfo_run host st) as (info & t1 & E1 & _).
  exists info. rewrite (connect_unfold st Hnone info _ E1), E1.
  set (st1 := {| Kernel.self := Kernel.self st; Kernel.now := t1;
                 Kernel.effects := Kernel.effects st ++ _ |}).
  destruct (Kernel.endpointOf info) as [u|] eqn:Hend; cbn [found fst].
  - destruct (reconnect_run st1 Hnone (Kernel.cdpPort (Kernel.self st)))
      as (l & Hl & Hsl & Hfl & Hcl & Hres & Hp & Hd & He).
    eexists. split; [reflexivity|].
    split; [rewrite Hl; subst st1; cbn; rewrite <- app_assoc; reflexivity|].
    rewrite !List.filter_app, !length_app, Hsl, Hfl. cbn.
    split; [lia|]. split; [lia|]. split; [reflexivity|]. split; [lia|].
    split; [|repeat split; assumption].
    destruct (fst (reconnect host _ st1)); [|exact Hres].
    destruct Hres as [Hb Hc]. repeat split; [exact Hb | lia].
  - destruct (launchChrome_cases st1) as [(e & El) | (exe & args & El)]; rewrite El.
    + eexists. split; [reflexivity|].
      split; [subst st1; cbn; reflexivity|].
      cbn. repeat split; try lia; try discriminate. exact Hnone.
    + set (st2 := {| Kernel.self := Kernel.self st1; Kernel.now := Kernel.now st1;
                     Kernel.effects := _ |}).
      destruct (reconnect_run st2 Hnone (Kernel.cdpPort (Kernel.self st)))
        as (l & Hl & Hsl & Hfl & Hcl & Hres & Hp & Hd & He).
      eexists. split; [reflexivity|].
      split; [rewrite Hl; subst st2 st1; cbn; rewrite <- !app_assoc; reflexivity|].
      rewrite !List.filter_app, !length_app, Hsl, Hfl. cbn.
      split; [lia|]. split; [lia|]. split; [discriminate|]. split; [lia|].
      split; [|repeat split; assumption].
      destruct (fst (reconnect host _ st2)); [|exact Hres].
      destruct Hres as [Hb Hc]. repeat split; [exact Hb | lia].
Qed.

End ConnectFacts.

(** X16. A successful [connect] keeps the browser: the client holds it
    afterwards, and connecting again returns the same browser without any
    probe, launch or connection, leaving the state as it is. *)
Theorem connect_keeps_browser :
  forall (host : Kernel.Host) (st : Kernel.ClientState) (b : Kernel.Browser)
         (st' : Kernel.ClientState),
    Kernel.connect host st = (Ok b, st') ->
    Kernel.browser (Kernel.self st') = Some b
    /\ Kernel.connect host st' = (Ok b, st').
Proof.
  intros host st b st' H.
  assert (Hb : Kernel.browser (Kernel.self st') = Some b).
  { destruct (Kernel.browser (Kernel.self st)) as [b0|] eqn:E.
    - rewrite (connect_cached host st b0 E) in H. injection H as <- <-. exact E.
    - destruct (connect_uncached host st E)
        as (info & l & _ & _ & _ & _ & _ & _ & Hres & _).
      rewrite H in Hres. apply Hres. }
  split; [exact Hb | apply connect_cached, Hb].
Qed.

Lemma connect_keeps_browser_witness :
  exists st',
    Kernel.connect Scenario.listening
      (Kernel.start (Kernel.newBrowserClient Scenario.listening Scenario.noClientOptions))
    = (Ok Scenario.chrome, st')
    /\ Kernel.browser (Kernel.self st') = Some Scenario.chrome
    /\ Kernel.connect Scenario.listening st' = (Ok Scenario.chrome, st').
Proof.
  eexists. split; [reflexivity|].
  apply (connect_keeps_browser Scenario.listening
           (Kernel.start (Kernel.newBrowserClient Scenario.listening Scenario.noClientOptions))).
  reflexivity.
Defined.

(** X17. A [connect] that starts without a browser probes the endpoint at
    most twice, launches Chrome at most once and only when the first probe
    found no endpoint, and opens at most one connection; when it succeeds it
    has probed twice and connected once; when it throws, the client still
    holds no browser.  The port, the profile directory and the executable of
    the client never change. *)
Theorem connect_probes_then_launches :
  forall (host : Kernel.Host) (st : Kernel.ClientState),
    Kernel.browser (Kernel.self st) = None ->
    exists info l,
      fst (Kernel.fetchVersionInfo host st) = Ok info
      /\ Kernel.effects (snd (Kernel.connect host st)) = Kernel.effects st ++ l
      /\ (length (List.filter is_fetch l) <= 2)%nat
      /\ (length (List.filter is_connect l) <= 1)%nat
      /\ (found (Kernel.endpointOf info) = true -> List.filter is_spawn l = [])
      /\ (length (List.filter is_spawn l) <= 1)%nat
      /\ match fst (Kernel.connect host st) with
         | Ok b => Kernel.browser (Kernel.self (snd (Kernel.connect host st))) = Some b
                   /\ length (List.filter is_fetch l) = 2%nat
                   /\ length (List.filter is_connect l) = 1%nat
         | Err _ => Kernel.browser (Kernel.self (snd (Kernel.connect host st))) = None
         end
      /\ Kernel.cdpPort (Kernel.self (snd (Kernel.connect host st)))
         = Kernel.cdpPort (Kernel.self st)
      /\ Kernel.profileDir (Kernel.self (snd (Kernel.connect host st)))
         = Kernel.profileDir (Kernel.self st)
      /\ Kernel.chromeExecutable (Kernel.self (snd (Kernel.connect host st)))
         = Kernel.chromeExecutable (Kernel.self st).
Proof. intros host st H. exact (connect_uncached host st H). Qed.

(** Nothing listens: Chromium from the environment is launched once, the
    second probe fails too, and the discovery diagnostic is thrown. *)
Lemma connect_probes_then_launches_witness :
  Kernel.connect Scenario.deaf
    (Kernel.start (Kernel.newBrowserClient Scenario.deaf Scenario.noClientOptions))
  = (Err "Failed to discover Chrome CDP endpoint on http://127.0.0.1:9222.",
     {| Kernel.self := Kernel.newBrowserClient Scenario.deaf Scenario.noClientOptions;
        Kernel.now := 2;
        Kernel.effects :=
          [Kernel.eff_fetch 0 "http://127.0.0.1:9222/json/version";
           Kernel.eff_spawn 1 "/opt/chromium/chrome"
             ["--remote-debugging-port=9222";
              "--user-data-dir=/home/user/.eagle/browser-profile";
              "--no-first-run"];
           Kernel.eff_fetch 1 "http://127.0.0.1:9222/json/version"] |})
  /\ exists info l,
      fst (Kernel.fetchVersionInfo Scenario.deaf
             (Kernel.start (Kernel.newBrowserClient Scenario.deaf Scenario.noClientOptions)))
      = Ok info
      /\ Kernel.effects
           (snd (Kernel.connect Scenario.deaf
                   (Kernel.start (Kernel.newBrowserClient Scenario.deaf
                                    Scenario.noClientOptions))))
         = [] ++ l
      /\ (length (List.filter is_spawn l) <= 1)%nat.
Proof.
  split; [vm_compute; reflexivity|].
  destruct (connect_probes_then_launches Scenario.deaf
              (Kernel.start (Kernel.newBrowserClient Scenario.deaf Scenario.noClientOptions))
              eq_refl)
    as (info & l & H1 & H2 & _ & _ & _ & H3 & _).
  exists info, l. split; [exact H1|]. split; [exact H2 | exact H3].
Defined.

(** X18. Once connected, [getActivePage] throws when the browser has no
    page; otherwise it returns a page of the browser: the first whose URL,
    in lower case, contains chatgpt.com, claude.ai or gemini.google.com, and
    the first page when there is none. *)
Theorem active_page_prefers_chat :
  forall (host : Kernel.Host) (st : Kernel.ClientState) (b : Kernel.Browser)
         (st1 : Kernel.ClientState) (ps : list Kernel.Page),
    Kernel.connect host st = (Ok b, st1) ->
    Kernel.pages b (Kernel.now st1) = Ok ps ->
    match ps with
    | [] => fst (Kernel.getActivePage host st)
            = Err "No Chrome pages available to attach to."
    | first :: _ =>
        exists page,
          fst (Kernel.getActivePage host st) = Ok page
          /\ In page ps
          /\ (Kernel.isChatPage (Kernel.page_url page) = false ->
              page = first
              /\ forall p, In p ps -> Kernel.isChatPage (Kernel.page_url p) = false)
          /\ (Kernel.isChatPage (Kernel.page_url page) = true ->
              exists before after,
                ps = before ++ page :: after
                /\ forall p, In p before -> Kernel.isChatPage (Kernel.page_url p) = false)
    end.
Proof.
  intros host st b st1 ps Hc Hp.
  unfold Kernel.getActivePage. rewrite (andThen_ok _ _ _ _ _ Hc).
  unfold andThen, Kernel.call. rewrite Hp.
  destruct ps as [|first rest]; [reflexivity|].
  cbn [length Nat.eqb].
  destruct (find (fun page => Kernel.isChatPage (Kernel.page_url page)) (first :: rest))
    as [page|] eqn:Hfind.
  - exists page. split; [reflexivity|].
    pose proof (find_some _ _ Hfind) as [Hin Hchat].
    split; [exact Hin|]. split; [intros H; congruence|].
    intros _. clear Hp Hin.
    revert Hfind. generalize (first :: rest) as l.
    induction l as [|p l IH]; [discriminate|].
    cbn [find]. destruct (Kernel.isChatPage (Kernel.page_url p)) eqn:Hpc.
    + intros [= ->]. exists [], l. split; [reflexivity | intros ? []].
    + intros H. destruct (IH H) as (before & after & -> & Hb).
      exists (p :: before), after. split; [reflexivity|].
      intros x [<-|Hx]; [exact Hpc | apply Hb, Hx].
  - exists first. split; [reflexivity|]. split; [left; reflexivity|].
    assert (Hall : forall p, In p (first :: rest) ->
                             Kernel.isChatPage (Kernel.page_url p) = false).
    { intros p Hin. apply (find_none _ _ Hfind p Hin). }
    split; [intros _; split; [reflexivity | exact Hall]|].
    intros H. rewrite (Hall first (or_introl eq_refl)) in H. discriminate.
Qed.

(** Two tabs, the second at Claude.AI: it is the one returned. *)
Lemma active_page_prefers_chat_witness :
  exists page,
    fst (Kernel.getActivePage Scenario.listening
           (Kernel.start (Kernel.newBrowserClient Scenario.listening Scenario.noClientOptions)))
    = Ok page
    /\ In page [Scenario.otherTab; Scenario.chatTab]
    /\ (Kernel.isChatPage (Kernel.page_url page) = false ->
        page = Scenario.otherTab
        /\ forall p, In p [Scenario.otherTab; Scenario.chatTab] ->
                     Kernel.isChatPage (Kernel.page_url p) = false)
    /\ (Kernel.isChatPage (Kernel.page_url page) = true ->
        exists before after,
          [Scenario.otherTab; Scenario.chatTab] = before ++ page :: after
          /\ forall p, In p before -> Kernel.isChatPage (Kernel.page_url p) = false).
Proof.
  exact (active_page_prefers_chat Scenario.listening
           (Kernel.start (Kernel.newBrowserClient Scenario.listening Scenario.noClientOptions))
           Scenario.chrome _ [Scenario.otherTab; Scenario.chatTab] eq_refl eq_refl).
Defined.

(** ** Chat pages of the client and the default pattern of the provider *)

Lemma lowered_unit_agree c :
  unitToLowerCase c = toLower c
  \/ ((nat_of_ascii (unitToLowerCase c) <? 128)%nat = false
      /\ (nat_of_ascii (toLower c) <? 128)%nat = false).
Proof.
  destruct c as [[] [] [] [] [] [] [] []];
    first [left; reflexivity | right; split; reflexivity].
Qed.

Lemma prefix_lowered_agree s : forall l,
  allAscii l = true ->
  String.prefix l (toLowerCase s) = String.prefix l (lower s).
Proof.
  induction s as [|c s IH]; intros [|a l] Hl; try reflexivity.
  cbn [toLowerCase lower String.prefix]. cbn [allAscii] in Hl.
  apply andb_true_iff in Hl. destruct Hl as [Ha Hl].
  destruct (lowered_unit_agree c) as [-> | [H1 H2]].
  - destruct (ascii_dec a (toLower c)); [apply IH, Hl | reflexivity].
  - destruct (ascii_dec a (unitToLowerCase c)) as [->|_]; [congruence|].
    destruct (ascii_dec a (toLower c)) as [->|_]; [congruence | reflexivity].
Qed.

Lemma includes_lowered_agree l s :
  allAscii l = true ->
  includes l (toLowerCase s) = includes l (lower s).
Proof.
  intros Hl. induction s as [|c s IH].
  - cbn [toLowerCase lower includes]. reflexivity.
  - change (includes l (toLowerCase (String c s)))
      with (String.prefix l (toLowerCase (String c s)) || includes l (toLowerCase s)).
    change (includes l (lower (String c s)))
      with (String.prefix l (lower (String c s)) || includes l (lower s)).
    rewrite IH, (prefix_lowered_agree (String c s) l Hl). reflexivity.
Qed.

Lemma unitToLowerCase_idem c : unitToLowerCase (unitToLowerCase c) = unitToLowerCase c.
Proof. destruct c as [[] [] [] [] [] [] [] []]; reflexivity. Qed.

Lemma toLowerCase_idem s : toLowerCase (toLowerCase s) = toLowerCase s.
Proof.
  induction s as [|c r IH]; [reflexivity|].
  cbn [toLowerCase]. rewrite IH, unitToLowerCase_idem. reflexivity.
Qed.

(** X19. Every URL that the browser client takes for a chat page matches
    the default URL pattern of the provider; and the test of the client does
    not depend on the case of the letters A to Z in the URL. *)
Theorem chat_pages_match_default_pattern :
  forall (url : string),
    (Kernel.isChatPage url = true -> test DEFAULT_URL_REGEX url = true)
    /\ Kernel.isChatPage (toLowerCase url) = Kernel.isChatPage url
    /\ Kernel.isChatPage url
       = existsb (fun l => includes l (lower url))
                 ["chatgpt.com"; "claude.ai"; "gemini.google.com"].
Proof.
  intros url.
  assert (Heq : Kernel.isChatPage url
                = existsb (fun l => includes l (lower url))
                          ["chatgpt.com"; "claude.ai"; "gemini.google.com"]).
  { unfold Kernel.isChatPage. cbn [existsb].
    rewrite !includes_lowered_agree by reflexivity.
    rewrite orb_false_r, orb_assoc. reflexivity. }
  split; [|split; [|exact Heq]].
  - rewrite Heq. cbn [existsb DEFAULT_URL_REGEX icaseAny test].
    destruct (includes "chatgpt.com" (lower url)); [reflexivity|].
    destruct (includes "claude.ai" (lower url)); [intros _; cbn; apply orb_true_r|].
    destruct (includes "gemini.google.com" (lower url)); [intros _|discriminate].
    cbn. rewrite !orb_true_r. reflexivity.
  - unfold Kernel.isChatPage.
    rewrite toLowerCase_idem. reflexivity.
Qed.

Lemma chat_pages_match_default_pattern_witness :
  Kernel.isChatPage "https://Claude.AI/chat/7" = true
  /\ test DEFAULT_URL_REGEX "https://Claude.AI/chat/7" = true.
Proof.
  split; [reflexivity|].
  apply (proj1 (chat_pages_match_default_pattern "https://Claude.AI/chat/7")).
  reflexivity.
Defined.

(** ** Acting on the active page *)

(** X20. [typeInput] acts on the active page only, in this order: wait for
    the selector, focus it, type the text.  A step is made only after the
    one before it succeeded: when the wait fails, nothing is focused or
    typed.  When no active page can be had, nothing is done on any page. *)
Theorem type_input_waits_then_focuses :
  forall (host : Kernel.Host) (selector text : string) (st : Kernel.ClientState),
    match Kernel.getActivePage host st with
    | (Err e, st1) => Kernel.typeInput host selector text st = (Err e, st1)
    | (Ok page, st1) =>
        let t := Kernel.now st1 in
        let i := Kernel.page_id page in
        let waited := Kernel.eff_page t i (Kernel.op_waitForSelector selector) in
        let focused := Kernel.eff_page (S t) i (Kernel.op_focus selector) in
        let typed := Kernel.eff_page (S (S t)) i (Kernel.op_keyboard_type text) in
        let out := Kernel.typeInput host selector text st in
        match Kernel.op page t (Kernel.op_waitForSelector selector) with
        | Err e =>
            fst out = Err e /\ Kernel.effects (snd out) = Kernel.effects st1 ++ [waited]
        | Ok _ =>
            match Kernel.op page (S t) (Kernel.op_focus selector) with
            | Err e =>
                fst out = Err e
                /\ Kernel.effects (snd out) = Kernel.effects st1 ++ [waited; focused]
            | Ok _ =>
                fst out = Kernel.op page (S (S t)) (Kernel.op_keyboard_type text)
                /\ Kernel.effects (snd out)
                   = Kernel.effects st1 ++ [waited; focused; typed]
            end
        end
    end.
Proof.
  intros host selector text st. unfold Kernel.typeInput.
  destruct (Kernel.getActivePage host st) as [[page|e] st1] eqn:E.
  - rewrite (andThen_ok _ _ _ _ _ E). cbv zeta.
    unfold andThen, Kernel.call. cbn.
    destruct (Kernel.op page (Kernel.now st1) (Kernel.op_waitForSelector selector)); cbn;
      [|split; reflexivity].
    destruct (Kernel.op page (S (Kernel.now st1)) (Kernel.op_focus selector)); cbn;
      (split; [reflexivity | rewrite <- !app_assoc; reflexivity]).
  - apply (andThen_err _ _ _ _ _ E).
Qed.

(** X21. [clickElement] clicks only after the wait for the selector
    succeeded, on the active page; and [readScreen] returns the inner text
    of the body of the active page, the empty string when there is no body. *)
Theorem click_waits_and_screen_reads_body :
  forall (host : Kernel.Host) (selector : string) (st : Kernel.ClientState),
    match Kernel.getActivePage host st with
    | (Err e, st1) =>
        Kernel.clickElement host selector st = (Err e, st1)
        /\ Kernel.readScreen host st = (Err e, st1)
    | (Ok page, st1) =>
        let t := Kernel.now st1 in
        let i := Kernel.page_id page in
        let waited := Kernel.eff_page t i (Kernel.op_waitForSelector selector) in
        let clicked := Kernel.eff_page (S t) i (Kernel.op_click selector) in
        let out := Kernel.clickElement host selector st in
        match Kernel.op page t (Kernel.op_waitForSelector selector) with
        | Err e =>
            fst out = Err e /\ Kernel.effects (snd out) = Kernel.effects st1 ++ [waited]
        | Ok _ =>
            fst out = Kernel.op page (S t) (Kernel.op_click selector)
            /\ Kernel.effects (snd out) = Kernel.effects st1 ++ [waited; clicked]
        end
        /\ fst (Kernel.readScreen host st)
           = match Kernel.innerText page t with
             | Ok (Some text) => Ok text
             | Ok None => Ok EmptyString
             | Err e => Err e
             end
    end.
Proof.
  intros host selector st. unfold Kernel.clickElement, Kernel.readScreen.
  destruct (Kernel.getActivePage host st) as [[page|e] st1] eqn:E.
  - rewrite !(andThen_ok _ _ _ _ _ E). cbv zeta.
    unfold andThen, Kernel.call, pure. cbn. split.
    + destruct (Kernel.op page (Kernel.now st1) (Kernel.op_waitForSelector selector)); cbn;
        (split; [reflexivity | rewrite <- ?app_assoc; reflexivity]).
    + destruct (Kernel.innerText page (Kernel.now st1)) as [[text|]|e]; reflexivity.
  - rewrite !(andThen_err _ _ _ _ _ E). split; reflexivity.
Qed.

(** * Properties of the turn log *)

Section LogFacts.

Variable host : KnowledgeGraph.Host.

Lemma openNew_reliable path st :
  reliable host ->
  KnowledgeGraph.openNew host path st
  = (Ok (S (KnowledgeGraph.now st)),
     {| KnowledgeGraph.cachedDb := Some (path, S (KnowledgeGraph.now st));
        KnowledgeGraph.now := KnowledgeGraph.now st + 5;
        KnowledgeGraph.effects :=
          KnowledgeGraph.effects st ++ setupEffects host path (KnowledgeGraph.now st) |}).
Proof.
  intros (Hmk & Hop & Hex & _ & _).
  unfold KnowledgeGraph.openNew, KnowledgeGraph.ensureDbDir, andThen, KnowledgeGraph.call,
    KnowledgeGraph.getState, KnowledgeGraph.setCachedDb, pure.
  cbn. rewrite Hmk, Hop, !Hex. cbn. rewrite <- !app_assoc.
  replace (KnowledgeGraph.now st + 5)%nat
    with (S (S (S (S (S (KnowledgeGraph.now st)))))) by lia.
  reflexivity.
Qed.




(** With the database of the path in the cache, a turn costs one insert. *)
Lemma persist_cached config turn st db :
  KnowledgeGraph.enabled config = true ->
  KnowledgeGraph.cachedDb st = Some (KnowledgeGraph.dbPath config, db) ->
  KnowledgeGraph.persistKnowledgeGraphTurn host config turn st
  = match metadataJson host turn with
    | Err e => (Err e, st)
    | Ok mj =>
        (KnowledgeGraph.stmt_run host (KnowledgeGraph.now st) db
           (rowOf host turn (KnowledgeGraph.now st) mj),
         {| KnowledgeGraph.cachedDb := KnowledgeGraph.cachedDb st;
            KnowledgeGraph.now := S (KnowledgeGraph.now st);
            KnowledgeGraph.effects :=
              KnowledgeGraph.effects st
              ++ [KnowledgeGraph.eff_insert (KnowledgeGraph.now st) db
                    (rowOf host turn (KnowledgeGraph.now st) mj)] |})
    end.
Proof.
  intros He Hc.
  unfold KnowledgeGraph.persistKnowledgeGraphTurn, KnowledgeGraph.getDatabase. rewrite He.
  cbn [negb]. unfold andThen, KnowledgeGraph.getState, pure. rewrite Hc.
  rewrite String.eqb_refl. unfold metadataJson, KnowledgeGraph.call, rowOf.
  destruct (KnowledgeGraph.metadata turn) as [m|]; [|cbn; rewrite ?Hc; reflexivity].
  destruct (KnowledgeGraph.stringify host m); cbn; rewrite ?Hc; reflexivity.
Qed.

End LogFacts.

Section LogTheorems.

Variable host : KnowledgeGraph.Host.

Lemma metadataJson_reliable turn :
  reliable host -> exists mj, metadataJson host turn = Ok mj.
Proof.
  intros (_ & _ & _ & _ & Hs). unfold metadataJson.
  destruct (KnowledgeGraph.metadata turn) as [m|]; [|eexists; reflexivity].
  destruct (Hs m) as [text ->]. eexists. reflexivity.
Qed.

(** On a reliable host, a turn persisted without a usable cache opens the
    database and inserts the row. *)
Lemma persist_uncached config turn st :
  reliable host ->
  KnowledgeGraph.enabled config = true ->
  (forall db, KnowledgeGraph.cachedDb st <> Some (KnowledgeGraph.dbPath config, db)) ->
  exists mj,
    metadataJson host turn = Ok mj
    /\ KnowledgeGraph.persistKnowledgeGraphTurn host config turn st
       = (Ok tt,
          {| KnowledgeGraph.cachedDb :=
               Some (KnowledgeGraph.dbPath config, S (KnowledgeGraph.now st));
             KnowledgeGraph.now := KnowledgeGraph.now st + 6;
             KnowledgeGraph.effects :=
               KnowledgeGraph.effects st
               ++ setupEffects host (KnowledgeGraph.dbPath config) (KnowledgeGraph.now st)
               ++ [KnowledgeGraph.eff_insert (KnowledgeGraph.now st + 5)
                     (S (KnowledgeGraph.now st))
                     (rowOf host turn (KnowledgeGraph.now st + 5) mj)] |}).
Proof.
  intros Hrel He Hc.
  destruct (metadataJson_reliable turn Hrel) as [mj Hmj]. exists mj. split; [exact Hmj|].
  assert (Hget : KnowledgeGraph.getDatabase host (KnowledgeGraph.dbPath config) st
                 = KnowledgeGraph.openNew host (KnowledgeGraph.dbPath config) st).
  { unfold KnowledgeGraph.getDatabase, andThen, KnowledgeGraph.getState.
    destruct (KnowledgeGraph.cachedDb st) as [[p db]|] eqn:E; [|reflexivity].
    destruct (String.eqb_spec p (KnowledgeGraph.dbPath config)) as [->|Hne]; [|reflexivity].
    destruct (Hc db). reflexivity. }
  unfold KnowledgeGraph.persistKnowledgeGraphTurn. rewrite He. cbn [negb].
  erewrite andThen_ok by (rewrite Hget; apply openNew_reliable, Hrel).
  unfold andThen, KnowledgeGraph.getState, KnowledgeGraph.call, pure. cbn.
  unfold metadataJson in Hmj. destruct Hrel as (_ & _ & _ & Hrun & _).
  destruct (KnowledgeGraph.metadata turn) as [m|].
  - destruct (KnowledgeGraph.stringify host m) as [text|]; [|discriminate].
    injection Hmj as <-. cbn. rewrite Hrun, <- app_assoc.
    replace (KnowledgeGraph.now st + 6)%nat with (S (KnowledgeGraph.now st + 5)) by lia.
    reflexivity.
  - injection Hmj as <-. cbn. rewrite Hrun, <- app_assoc.
    replace (KnowledgeGraph.now st + 6)%nat with (S (KnowledgeGraph.now st + 5)) by lia.
    reflexivity.
Qed.

(** On a reliable host, with the database in the cache, any number of
    turns is persisted by as many inserts and nothing else. *)
Lemma persistAll_cached config turns : forall st db,
  reliable host ->
  KnowledgeGraph.enabled config = true ->
  KnowledgeGraph.cachedDb st = Some (KnowledgeGraph.dbPath config, db) ->
  exists st' l,
    KnowledgeGraph.persistAll host config turns st = (Ok tt, st')
    /\ KnowledgeGraph.cachedDb st' = KnowledgeGraph.cachedDb st
    /\ KnowledgeGraph.effects st' = KnowledgeGraph.effects st ++ l
    /\ omap insertedTurn l
       = map (fun t => (KnowledgeGraph.prompt t, KnowledgeGraph.response t)) turns
    /\ List.filter is_open l = []
    /\ length (List.filter is_insert l) = length turns.
Proof.
  induction turns as [|turn rest IH]; intros st db Hrel He Hc.
  - exists st, []. cbn. rewrite app_nil_r. repeat split.
  - cbn [KnowledgeGraph.persistAll].
    destruct (metadataJson_reliable turn Hrel) as [mj Hmj].
    pose proof (persist_cached host config turn st db He Hc) as Hp. rewrite Hmj in Hp.
    pose proof Hrel as (_ & _ & _ & Hrun & _). rewrite Hrun in Hp.
    rewrite (andThen_ok _ _ _ _ _ Hp).
    destruct (IH {| KnowledgeGraph.cachedDb := KnowledgeGraph.cachedDb st;
                    KnowledgeGraph.now := S (KnowledgeGraph.now st);
                    KnowledgeGraph.effects :=
                      KnowledgeGraph.effects st
                      ++ [KnowledgeGraph.eff_insert (KnowledgeGraph.now st) db
                            (rowOf host turn (KnowledgeGraph.now st) mj)] |}
                 db Hrel He Hc)
      as (st' & l & Hall & Hcache & Heff & Hrows & Hopen & Hins).
    exists st', (KnowledgeGraph.eff_insert (KnowledgeGraph.now st) db
                   (rowOf host turn (KnowledgeGraph.now st) mj) :: l).
    split; [exact Hall|]. split; [exact Hcache|].
    split; [rewrite Heff; cbn; rewrite <- app_assoc; reflexivity|].
    cbn. rewrite Hrows, Hopen, Hins. repeat split.
Qed.



(** X24. On a host where nothing fails, a turn persisted while the cache
    holds no database of the configured path costs the five setup calls and
    then the insert, and leaves the new database in the cache. *)
Theorem first_turn_opens_database :
  forall (config : KnowledgeGraph.KnowledgeGraphConfig)
         (turn : KnowledgeGraph.KnowledgeGraphTurn) (st : KnowledgeGraph.State),
    reliable host ->
    KnowledgeGraph.enabled config = true ->
    (forall db, KnowledgeGraph.cachedDb st <> Some (KnowledgeGraph.dbPath config, db)) ->
    exists mj,
      metadataJson host turn = Ok mj
      /\ KnowledgeGraph.persistKnowledgeGraphTurn host config turn st
         = (Ok tt,
            {| KnowledgeGraph.cachedDb :=
                 Some (KnowledgeGraph.dbPath config, S (KnowledgeGraph.now st));
               KnowledgeGraph.now := KnowledgeGraph.now st + 6;
               KnowledgeGraph.effects :=
                 KnowledgeGraph.effects st
                 ++ setupEffects host (KnowledgeGraph.dbPath config) (KnowledgeGraph.now st)
                 ++ [KnowledgeGraph.eff_insert (KnowledgeGraph.now st + 5)
                       (S (KnowledgeGraph.now st))
                       (rowOf host turn (KnowledgeGraph.now st + 5) mj)] |}).
Proof. intros config turn st. apply persist_uncached. Qed.

(** X25. On a host where nothing fails, persisting a list of turns from a
    fresh state succeeds: the rows inserted carry the prompts and responses
    of the turns, one row per turn and in their order, and the database is
    opened once, however many turns there are. *)
Theorem turns_are_logged_in_order :
  forall (config : KnowledgeGraph.KnowledgeGraphConfig)
         (turns : list KnowledgeGraph.KnowledgeGraphTurn),
    reliable host ->
    KnowledgeGraph.enabled config = true ->
    exists st',
      KnowledgeGraph.persistAll host config turns KnowledgeGraph.fresh = (Ok tt, st')
      /\ omap insertedTurn (KnowledgeGraph.effects st')
         = map (fun t => (KnowledgeGraph.prompt t, KnowledgeGraph.response t)) turns
      /\ length (List.filter is_insert (KnowledgeGraph.effects st')) = length turns
      /\ length (List.filter is_open (KnowledgeGraph.effects st'))
         = match turns with [] => 0%nat | _ => 1%nat end.
Proof.
  intros config [|turn rest] Hrel He.
  - exists KnowledgeGraph.fresh. repeat split.
  - cbn [KnowledgeGraph.persistAll].
    destruct (persist_uncached config turn KnowledgeGraph.fresh Hrel He)
      as (mj & _ & Hp); [discriminate|].
    rewrite (andThen_ok _ _ _ _ _ Hp).
    match type of Hp with
    | _ = (_, ?st1) =>
        destruct (persistAll_cached config rest st1 1%nat Hrel He eq_refl)
          as (st' & l & Hall & _ & Heff & Hrows & Hopen & Hins)
    end.
    exists st'. split; [exact Hall|]. rewrite Heff. cbn [KnowledgeGraph.effects].
    rewrite omap_app, !List.filter_app, !length_app, Hrows, Hopen, Hins.
    repeat split.
Qed.

End LogTheorems.

Lemma disk_reliable : reliable Scenario.disk.
Proof.
  repeat split. intros m. exists "{}". reflexivity.
Qed.

Lemma first_turn_opens_database_witness :
  exists mj,
    metadataJson Scenario.disk (Scenario.turnOf "hello" "hi there") = Ok mj
    /\ KnowledgeGraph.persistKnowledgeGraphTurn Scenario.disk
         {| KnowledgeGraph.enabled := true; KnowledgeGraph.dbPath := "/data/kg.sqlite" |}
         (Scenario.turnOf "hello" "hi there") KnowledgeGraph.fresh
       = (Ok tt,
          {| KnowledgeGraph.cachedDb := Some ("/data/kg.sqlite", 1%nat);
             KnowledgeGraph.now := 0 + 6;
             KnowledgeGraph.effects :=
               [] ++ setupEffects Scenario.disk "/data/kg.sqlite" 0
               ++ [KnowledgeGraph.eff_insert (0 + 5) 1
                     (rowOf Scenario.disk (Scenario.turnOf "hello" "hi there") (0 + 5) mj)] |}).
Proof.
  apply (first_turn_opens_database Scenario.disk
           {| KnowledgeGraph.enabled := true; KnowledgeGraph.dbPath := "/data/kg.sqlite" |}
           (Scenario.turnOf "hello" "hi there") KnowledgeGraph.fresh disk_reliable eq_refl).
  intros db. discriminate.
Defined.

Lemma turns_are_logged_in_order_witness :
  exists st',
    KnowledgeGraph.persistAll Scenario.disk
      {| KnowledgeGraph.enabled := true; KnowledgeGraph.dbPath := "/data/kg.sqlite" |}
      [Scenario.turnOf "one" "1"; Scenario.turnOf "two" "2"; Scenario.turnOf "three" "3"]
      KnowledgeGraph.fresh
    = (Ok tt, st')
    /\ omap insertedTurn (KnowledgeGraph.effects st')
       = [("one", "1"); ("two", "2"); ("three", "3")]
    /\ length (List.filter is_insert (KnowledgeGraph.effects st')) = 3%nat
    /\ length (List.filter is_open (KnowledgeGraph.effects st')) = 1%nat.
Proof.
  exact (turns_are_logged_in_order Scenario.disk
           {| KnowledgeGraph.enabled := true; KnowledgeGraph.dbPath := "/data/kg.sqlite" |}
           [Scenario.turnOf "one" "1"; Scenario.turnOf "two" "2"; Scenario.turnOf "three" "3"]
           disk_reliable eq_refl).
Defined.

(** X26. The configuration of the log: a database path given in
    OPENCLAW_KG_DB, when it is not blank, both enables the log, whatever the
    two flags say, and is the path used, trimmed and resolved; when it is
    absent or blank, the log is enabled exactly when one of the two flags is
    truthy, and the path is knowledge-graph/graph.sqlite under the state
    directory, resolved. *)
Theorem log_configuration :
  forall (host : KnowledgeGraph.Host),
    let config := KnowledgeGraph.resolveKnowledgeGraphConfig host in
    (forall raw,
        KnowledgeGraph.env host !! "OPENCLAW_KG_DB" = Some raw ->
        truthy (trim raw) = true ->
        KnowledgeGraph.enabled config = true
        /\ KnowledgeGraph.dbPath config = KnowledgeGraph.resolveUserPath host (trim raw))
    /\ ((forall raw, KnowledgeGraph.env host !! "OPENCLAW_KG_DB" = Some raw ->
                     truthy (trim raw) = false) ->
        KnowledgeGraph.enabled config
        = (KnowledgeGraph.isTruthyEnvValue host
             (KnowledgeGraph.env host !! "OPENCLAW_KG_ENABLED")
           || KnowledgeGraph.isTruthyEnvValue host
                (KnowledgeGraph.env host !! "OPENCLAW_KG_DB_ENABLED"))
        /\ KnowledgeGraph.dbPath config
           = KnowledgeGraph.resolveUserPath host
               (KnowledgeGraph.path_join host
                  [KnowledgeGraph.resolveStateDir host; "knowledge-graph"; "graph.sqlite"])).
Proof.
  intros host config. subst config. unfold KnowledgeGraph.resolveKnowledgeGraphConfig.
  cbn [KnowledgeGraph.enabled KnowledgeGraph.dbPath]. split.
  - intros raw -> Ht. cbn. rewrite Ht. split; [apply orb_true_r | reflexivity].
  - intros H. destruct (KnowledgeGraph.env host !! "OPENCLAW_KG_DB") as [raw|]; cbn.
    + rewrite (H raw eq_refl). split; [apply orb_false_r | reflexivity].
    + split; [apply orb_false_r | reflexivity].
Qed.

(** The path in the environment, with blanks around it, enables the log;
    a turn persisted under that configuration is inserted. *)
Lemma log_configuration_witness :
  KnowledgeGraph.enabled (KnowledgeGraph.resolveKnowledgeGraphConfig Scenario.disk) = true
  /\ KnowledgeGraph.dbPath (KnowledgeGraph.resolveKnowledgeGraphConfig Scenario.disk)
     = "/data/kg.sqlite".
Proof.
  exact (proj1 (log_configuration Scenario.disk) " /data/kg.sqlite " eq_refl eq_refl).
Defined.

(** * Properties of the settings *)

Lemma truthy_nonempty s : truthy s = true -> s <> EmptyString.
Proof. destruct s; [discriminate | discriminate]. Qed.

Lemma trimEnd_cons c r :
  isWhiteSpace c = false -> trimEnd (String c r) = String c (trimEnd r).
Proof. intros W. simpl. destruct (trimEnd r); [rewrite W|]; reflexivity. Qed.

Lemma trimmedOr_spec v d :
  trim d = d -> truthy d = true ->
  trim (UiStorage.trimmedOr v d) = UiStorage.trimmedOr v d
  /\ truthy (UiStorage.trimmedOr v d) = true.
Proof.
  intros Hd Ht. unfold UiStorage.trimmedOr.
  destruct v as [[| | |s| |]|]; try (split; assumption).
  destruct (truthy (trim s)) eqn:E; [|split; assumption].
  split; [apply trim_idem | exact E].
Qed.

Lemma ratioOr_spec v d :
  PrimFloat.leb 0.4%float d = true -> PrimFloat.leb d 0.7%float = true ->
  PrimFloat.leb 0.4%float (UiStorage.ratioOr v d) = true
  /\ PrimFloat.leb (UiStorage.ratioOr v d) 0.7%float = true.
Proof.
  intros H1 H2. unfold UiStorage.ratioOr.
  destruct v as [[| |n| | |]|]; try (split; assumption).
  destruct (PrimFloat.leb 0.4%float n) eqn:E1; cbn; [|split; assumption].
  destruct (PrimFloat.leb n 0.7%float) eqn:E2; cbn; split; assumption.
Qed.

Lemma readSettings_wellFormed defaults parsed :
  wellFormed defaults -> wellFormed (UiStorage.readSettings defaults parsed).
Proof.
  intros (G1 & G2 & S1 & S2 & L1 & L2 & R1 & R2 & N).
  unfold wellFormed, UiStorage.readSettings. cbn.
  destruct (trimmedOr_spec (UiStorage.member parsed "gatewayUrl") _ G1 G2) as [A1 A2].
  destruct (trimmedOr_spec (UiStorage.member parsed "sessionKey") _ S1 S2) as [B1 B2].
  destruct (trimmedOr_spec (UiStorage.member parsed "sessionKey") _ L1 L2) as [C1 C2].
  destruct (trimmedOr_spec (UiStorage.member parsed "lastActiveSessionKey") _ C1 C2)
    as [D1 D2].
  destruct (ratioOr_spec (UiStorage.member parsed "splitRatio") _ R1 R2) as [E1 E2].
  repeat split; try assumption.
  unfold UiStorage.objectOr.
  destruct (UiStorage.member parsed "navGroupsCollapsed") as [[]|]; try exact I; exact N.
Qed.

Lemma loadSettings_cases platform storage :
  UiStorage.loadSettings platform storage = UiStorage.defaultSettings platform
  \/ exists raw parsed,
      UiStorage.getItem UiStorage.KEY storage = Ok (Some raw)
      /\ truthy raw = true
      /\ UiStorage.JSON_parse platform raw = Ok parsed
      /\ parsed <> JNull
      /\ UiStorage.loadSettings platform storage
         = UiStorage.readSettings (UiStorage.defaultSettings platform) parsed.
Proof.
  unfold UiStorage.loadSettings.
  destruct (UiStorage.getItem UiStorage.KEY storage) as [[raw|]|e] eqn:Hg;
    try (left; reflexivity).
  destruct (truthy raw) eqn:Ht; cbn [negb]; [|left; reflexivity].
  destruct (UiStorage.JSON_parse platform raw) as [parsed|e] eqn:Hp; [|left; reflexivity].
  destruct parsed; try (left; reflexivity);
    right; eexists _, _; (split; [reflexivity|]); (split; [exact Ht|]);
    (split; [exact Hp|]); (split; [discriminate | reflexivity]).
Qed.

(** X27. Whatever the storage holds and whatever the parser makes of it,
    the settings loaded have a gateway URL, a session key and a last active
    session key that are trimmed and not empty, a split ratio between 0.4
    and 0.7, and an object or an array as collapsed groups; provided the
    host of the page, which ends the default gateway URL, has no white space
    at its end. *)
Theorem loaded_settings_are_well_formed :
  forall (platform : UiStorage.Platform) (storage : UiStorage.Storage),
    trimEnd (UiStorage.host (UiStorage.location platform))
    = UiStorage.host (UiStorage.location platform) ->
    wellFormed (UiStorage.loadSettings platform storage).
Proof.
  intros platform storage Hhost.
  assert (Hd : wellFormed (UiStorage.defaultSettings platform)).
  { unfold wellFormed, UiStorage.defaultSettings. cbn.
    assert (Hurl : forall proto, (proto = "wss" \/ proto = "ws") ->
               trim (proto +:+ "://" +:+ UiStorage.host (UiStorage.location platform))
               = proto +:+ "://" +:+ UiStorage.host (UiStorage.location platform)
               /\ truthy (proto +:+ "://" +:+ UiStorage.host (UiStorage.location platform))
                  = true).
    { intros proto [-> | ->]; (split; [|reflexivity]); unfold trim;
        generalize dependent (UiStorage.host (UiStorage.location platform));
        intros h Hh;
        [change ("wss" +:+ "://" +:+ h) with (String "w" (String "s" (String "s"
           (String ":" (String "/" (String "/" h))))))
        |change ("ws" +:+ "://" +:+ h) with (String "w" (String "s"
           (String ":" (String "/" (String "/" h)))))];
        rewrite trimStart_fixed by reflexivity;
        rewrite !trimEnd_cons by reflexivity; rewrite Hh; reflexivity. }
    destruct (Hurl (if String.eqb (UiStorage.protocol (UiStorage.location platform)) "https:"
                    then "wss" else "ws")) as [U1 U2];
      [destruct (String.eqb _ _); [left | right]; reflexivity|].
    repeat split; try assumption; reflexivity. }
  destruct (loadSettings_cases platform storage) as [-> | (raw & parsed & _ & _ & _ & _ & ->)];
    [exact Hd | apply readSettings_wellFormed, Hd].
Qed.

Lemma readSettings_undefined defaults parsed :
  (forall key, UiStorage.member parsed key = None) ->
  UiStorage.readSettings defaults parsed = defaults.
Proof.
  intros H. unfold UiStorage.readSettings. rewrite !H. destruct defaults; reflexivity.
Qed.

(** X28. Unless the storage can be read, holds a text that is not empty
    under the settings key, and that text parses to an object, the settings
    loaded are the defaults: so it is when access to the storage is denied,
    when nothing or the empty text is stored, when the text does not parse,
    and when it parses to [null], a boolean, a number, a string or an
    array. *)
Theorem defaults_unless_an_object_is_stored :
  forall (platform : UiStorage.Platform) (storage : UiStorage.Storage),
    (forall raw members,
        UiStorage.getItem UiStorage.KEY storage = Ok (Some raw) ->
        truthy raw = true ->
        UiStorage.JSON_parse platform raw <> Ok (JObject members)) ->
    UiStorage.loadSettings platform storage = UiStorage.defaultSettings platform.
Proof.
  intros platform storage H.
  destruct (loadSettings_cases platform storage)
    as [E | (raw & parsed & Hg & Ht & Hp & Hn & ->)]; [exact E|].
  apply readSettings_undefined. intros key.
  destruct parsed as [| | | | |members]; try reflexivity.
  exfalso. exact (H raw members Hg Ht Hp).
Qed.

Lemma defaults_unless_an_object_is_stored_witness :
  UiStorage.loadSettings Scenario.browserTab Scenario.nullStorage
  = UiStorage.defaultSettings Scenario.browserTab.
Proof.
  apply defaults_unless_an_object_is_stored.
  intros raw members Hg _. vm_compute in Hg. injection Hg as <-.
  vm_compute. discriminate.
Defined.

Lemma loaded_settings_are_well_formed_witness :
  wellFormed (UiStorage.loadSettings Scenario.legacyTab Scenario.legacyStorage).
Proof. apply loaded_settings_are_well_formed. reflexivity. Defined.

(** X29. When the stored settings carry no last active session key, or one
    that is not a string or is blank, the last active session key loaded is
    the session key loaded. *)
Theorem last_active_session_defaults_to_session :
  forall (platform : UiStorage.Platform) (storage : UiStorage.Storage),
    (forall raw parsed s,
        UiStorage.getItem UiStorage.KEY storage = Ok (Some raw) ->
        UiStorage.JSON_parse platform raw = Ok parsed ->
        UiStorage.member parsed "lastActiveSessionKey" = Some (JString s) ->
        truthy (trim s) = false) ->
    UiStorage.lastActiveSessionKey (UiStorage.loadSettings platform storage)
    = UiStorage.sessionKey (UiStorage.loadSettings platform storage).
Proof.
  intros platform storage H.
  destruct (loadSettings_cases platform storage)
    as [-> | (raw & parsed & Hg & Ht & Hp & Hn & ->)]; [reflexivity|].
  unfold UiStorage.readSettings; cbn [UiStorage.lastActiveSessionKey UiStorage.sessionKey].
  specialize (H raw parsed).
  destruct (UiStorage.member parsed "lastActiveSessionKey") as [[| | |s| |]|];
    cbn [UiStorage.trimmedOr]; try reflexivity.
  rewrite (H s Hg Hp eq_refl). reflexivity.
Qed.

Lemma last_active_session_defaults_to_session_witness :
  UiStorage.lastActiveSessionKey
    (UiStorage.loadSettings Scenario.legacyTab Scenario.legacyStorage)
  = UiStorage.sessionKey
      (UiStorage.loadSettings Scenario.legacyTab Scenario.legacyStorage).
Proof.
  apply last_active_session_defaults_to_session.
  intros raw parsed s Hg Hp Hm. vm_compute in Hg. injection Hg as <-.
  vm_compute in Hp. injection Hp as <-. vm_compute in Hm. discriminate.
Defined.

Lemma themeOr_name t d : UiStorage.themeOr (Some (JString (UiStorage.themeName t))) d = t.
Proof. destruct t; reflexivity. Qed.

Lemma readSettings_settingsObject defaults next :
  wellFormed next ->
  UiStorage.readSettings defaults (UiStorage.settingsObject next) = next.
Proof.
  intros (G1 & G2 & S1 & S2 & L1 & L2 & R1 & R2 & N).
  destruct next as [gw tok sk la th b1 b2 b3 b4 b5 b6 cdp re ratio nc groups].
  cbn [UiStorage.gatewayUrl UiStorage.sessionKey UiStorage.lastActiveSessionKey
       UiStorage.splitRatio UiStorage.navGroupsCollapsed]
    in G1, G2, S1, S2, L1, L2, R1, R2, N.
  unfold UiStorage.readSettings, UiStorage.settingsObject, UiStorage.member.
  cbn [find fst snd String.eqb Ascii.eqb Bool.eqb andb
       UiStorage.gatewayUrl UiStorage.token UiStorage.sessionKey
       UiStorage.lastActiveSessionKey UiStorage.theme UiStorage.chatFocusMode
       UiStorage.chatShowThinking UiStorage.browserMode UiStorage.browserAutoDetect
       UiStorage.browserAutoLaunch UiStorage.browserNotifyOnDetect
       UiStorage.browserCdpUrl UiStorage.browserUrlRegex UiStorage.splitRatio
       UiStorage.navCollapsed UiStorage.navGroupsCollapsed
       UiStorage.stringOr UiStorage.booleanOr].
  rewrite themeOr_name.
  unfold UiStorage.trimmedOr, UiStorage.ratioOr, UiStorage.objectOr.
  rewrite G1, G2, S1, S2, L1, L2, R1, R2. cbn [andb].
  destruct groups; try contradiction; reflexivity.
Qed.

(** X30. Settings that are well formed load back as they were saved, on a
    platform whose JSON text of them is not empty and parses to the same
    value; saving changes no other key of the storage. *)
Theorem saved_settings_load_back :
  forall (platform : UiStorage.Platform) (next : UiStorage.UiSettings)
         (storage storage' : UiStorage.Storage),
    wellFormed next ->
    truthy (UiStorage.JSON_stringify platform (UiStorage.settingsObject next)) = true ->
    UiStorage.JSON_parse platform
      (UiStorage.JSON_stringify platform (UiStorage.settingsObject next))
    = Ok (UiStorage.settingsObject next) ->
    UiStorage.saveSettings platform next storage = Ok storage' ->
    UiStorage.loadSettings platform storage' = next
    /\ forall key, key <> UiStorage.KEY ->
         UiStorage.items storage' !! key = UiStorage.items storage !! key.
Proof.
  intros platform next storage storage' Hw Ht Hp Hs.
  unfold UiStorage.saveSettings, UiStorage.setItem in Hs.
  destruct (UiStorage.denied storage) eqn:Hd; [discriminate|].
  injection Hs as <-. split.
  - unfold UiStorage.loadSettings, UiStorage.getItem.
    cbn [UiStorage.denied UiStorage.items].
    rewrite lookup_insert_eq, Ht. cbn [negb]. rewrite Hp.
    unfold UiStorage.settingsObject at 1.
    apply (readSettings_settingsObject _ next Hw).
  - intros key Hk. cbn [UiStorage.items]. apply lookup_insert_ne. congruence.
Qed.

Lemma saved_settings_load_back_witness :
  UiStorage.loadSettings Scenario.browserTab
    {| UiStorage.denied := None;
       UiStorage.items := <[UiStorage.KEY := "{mine}"]> (UiStorage.items Scenario.nullStorage) |}
  = Scenario.mine.
Proof.
  refine (proj1 (saved_settings_load_back Scenario.browserTab Scenario.mine
                   Scenario.nullStorage _ _ _ _ _)).
  - unfold wellFormed. vm_compute. repeat split; reflexivity.
  - reflexivity.
  - reflexivity.
  - reflexivity.
Defined.
